(** * ASPython: the XML project model and the library export engine

    A shallow embedding of [ASTools.py]: the namespaced XML document layer
    ([xmlAsFile]), [Package], [Library], [Project] and [SwDeploymentTable],
    with the properties of the project specification stated over it.

    Python objects that are mutated in place (element trees, manifests) are
    values threaded explicitly; the filesystem and [xml.etree.ElementTree]'s
    parser and serializer are an interface ([FileSystem]) the code is written
    against, in a state and exception monad. *)

From Stdlib Require Import String Ascii List Bool Arith Lia Relations.
Import ListNotations.
Local Open Scope string_scope.
Local Open Scope list_scope.
Local Open Scope nat_scope.
Set Warnings "-register-all".

(** String concatenation, Python's [+] on [str]. *)
Notation "a ^^ b" := (String.append a b) (at level 60, right associativity).

(** ** Python strings *)

Definition is_upper (c : ascii) : bool :=
  let n := nat_of_ascii c in (65 <=? n) && (n <=? 90).

Definition lower_char (c : ascii) : ascii :=
  if is_upper c then ascii_of_nat (nat_of_ascii c + 32) else c.

(** [str.lower()] on characters below 128. *)
Fixpoint lower (s : string) : string :=
  match s with
  | EmptyString => EmptyString
  | String c r => String (lower_char c) (lower r)
  end.

(** [str.isspace()] for one character, code points below 256. *)
Definition is_space (c : ascii) : bool :=
  let n := nat_of_ascii c in
  ((9 <=? n) && (n <=? 13)) || ((28 <=? n) && (n <=? 32))
  || (n =? 133) || (n =? 160).

Fixpoint all_space (s : string) : bool :=
  match s with
  | EmptyString => true
  | String c r => is_space c && all_space r
  end.

(** [not s or not s.strip()] for [s] an optional string. *)
Definition blank (s : option string) : bool :=
  match s with
  | None => true
  | Some t => all_space t
  end.

Definition is_digit (c : ascii) : bool :=
  let n := nat_of_ascii c in (48 <=? n) && (n <=? 57).

Fixpoint startswith (s p : string) : bool :=
  match p, s with
  | EmptyString, _ => true
  | String a p', String b s' => Ascii.eqb a b && startswith s' p'
  | String _ _, EmptyString => false
  end.

Definition endswith (s p : string) : bool :=
  let n := String.length s in
  let m := String.length p in
  (m <=? n) && String.eqb (substring (n - m) m s) p.

(** [s[:n]]. *)
Definition take_str (n : nat) (s : string) : string := substring 0 n s.

(** [level * "  "]. *)
Fixpoint spaces (level : nat) : string :=
  match level with
  | O => ""
  | S l => "  " ^^ spaces l
  end.

Definition newline : string := String (ascii_of_nat 10) "".

(** [x in xs] for strings. *)
Definition str_in (x : string) (xs : list string) : bool :=
  existsb (String.eqb x) xs.

(** [x in xs] where [x] may be [None] and [xs] holds strings. *)
Definition opt_in (x : option string) (xs : list string) : bool :=
  match x with
  | Some t => str_in t xs
  | None => false
  end.

(** The text before the first [stop] character; all of it when there is
    none: [s.split(stop)[0]]. *)
Fixpoint before_char (stop : ascii) (s : string) : string :=
  match s with
  | EmptyString => EmptyString
  | String c r => if Ascii.eqb c stop then EmptyString
                  else String c (before_char stop r)
  end.

(** [s.replace(old, new)]: every occurrence, left to right; [skip] counts
    the characters of a match still to pass over. An empty [old] with an
    empty [new] leaves [s] as it is, the only such use in the code. *)
Fixpoint replace_from (old new : string) (skip : nat) (s : string) : string :=
  match s with
  | EmptyString => EmptyString
  | String c r =>
      match skip with
      | S k => replace_from old new k r
      | O =>
          if negb (String.eqb old "") && startswith s old
          then new ^^ replace_from old new (String.length old - 1) r
          else String c (replace_from old new 0 r)
      end
  end.

Definition str_replace (old new s : string) : string := replace_from old new 0 s.

(** ** Exceptions and results *)

Inductive exn : Type :=
| FileNotFoundError
| FileExistsError
| PermissionError
| NotADirectoryError
| ShutilError
| ParseError
| AttributeError
| TypeError
| IndexError
| UnboundLocalError
| PyException (cause : exn).

Inductive res (A : Type) : Type :=
| Ok (a : A)
| Raise (e : exn)
| OutOfFuel.
Arguments Ok {A} a.
Arguments Raise {A} e.
Arguments OutOfFuel {A}.

Definition is_ok {A} (r : res A) : bool :=
  match r with Ok _ => true | _ => false end.

(** ** Element trees ([xml.etree.ElementTree.Element]) *)

(** Attribute values: the code stores strings, but also [None] (a task
    without a language) and [True] (the [Reference] flag). *)
Inductive pyval : Type :=
| PStr (s : string)
| PNone
| PBool (b : bool).

Inductive element : Type :=
| Element (tag : string) (attrib : list (string * pyval))
          (text tail : option string) (children : list element).

Definition tag (e : element) : string :=
  match e with Element t _ _ _ _ => t end.
Definition attrib (e : element) : list (string * pyval) :=
  match e with Element _ a _ _ _ => a end.
Definition text (e : element) : option string :=
  match e with Element _ _ x _ _ => x end.
Definition tail (e : element) : option string :=
  match e with Element _ _ _ x _ => x end.
Definition children (e : element) : list element :=
  match e with Element _ _ _ _ c => c end.

Definition set_tag (t : string) (e : element) : element :=
  match e with Element _ a x l c => Element t a x l c end.
Definition set_text (x : option string) (e : element) : element :=
  match e with Element t a _ l c => Element t a x l c end.
Definition set_tail (l : option string) (e : element) : element :=
  match e with Element t a x _ c => Element t a x l c end.
Definition set_children (c : list element) (e : element) : element :=
  match e with Element t a x l _ => Element t a x l c end.

(** A Python dict: assignment to a present key keeps its position. *)
Fixpoint dict_set {V} (k : string) (v : V) (d : list (string * V))
  : list (string * V) :=
  match d with
  | [] => [(k, v)]
  | (k', v') :: r => if String.eqb k k' then (k, v) :: r
                     else (k', v') :: dict_set k v r
  end.

Fixpoint dict_get {V} (k : string) (d : list (string * V)) : option V :=
  match d with
  | [] => None
  | (k', v) :: r => if String.eqb k k' then Some v else dict_get k r
  end.

Definition dict_mem {V} (k : string) (d : list (string * V)) : bool :=
  match dict_get k d with Some _ => true | None => false end.

(** [elem.get(key)] and [elem.set(key, value)]. *)
Definition get (e : element) (k : string) : option pyval :=
  dict_get k (attrib e).

Definition set_attr (k : string) (v : pyval) (e : element) : element :=
  match e with Element t a x l c => Element t (dict_set k v a) x l c end.

(** [elem.get(key, default)] read as a string. *)
Definition get_str (e : element) (k default : string) : pyval :=
  match get e k with Some v => v | None => PStr default end.

Definition pyval_eqb (a b : pyval) : bool :=
  match a, b with
  | PStr x, PStr y => String.eqb x y
  | PNone, PNone => true
  | PBool x, PBool y => Bool.eqb x y
  | _, _ => false
  end.

(** [elem.append(child)], [elem.insert(index, child)]. *)
Definition append (child : element) (e : element) : element :=
  set_children (children e ++ [child]) e.

Definition insert (index : nat) (child : element) (e : element) : element :=
  set_children (firstn index (children e) ++ child :: skipn index (children e)) e.

(** Deleting the child at one position: [elem.remove(child)] for the child
    object found there (elements compare by identity). *)
Fixpoint delete_at {A} (i : nat) (l : list A) : list A :=
  match l, i with
  | [], _ => []
  | _ :: r, O => r
  | x :: r, S j => x :: delete_at j r
  end.

(** ** Namespaces *)

(** [xmlAsFile._getASNamespace]: the text between the braces of the root
    tag; indexing the first character of an empty tag raises. *)
Definition _getASNamespace (root : element) : res string :=
  match tag root with
  | EmptyString => Raise IndexError
  | String c r =>
      if Ascii.eqb c "{"%char then Ok (before_char "}"%char r) else Ok ""
  end.

Definition format_ns (ns : string) : string :=
  if String.eqb ns "" then "" else "{" ^^ ns ^^ "}".

(** [xmlAsFile._getASNamespaceFormatted] / [nameSpaceFormatted]. *)
Definition _getASNamespaceFormatted (root : element) : res string :=
  match _getASNamespace root with
  | Ok ns => Ok (format_ns ns)
  | Raise e => Raise e
  | OutOfFuel => OutOfFuel
  end.

(** ** Path queries *)

(** One segment of an ElementPath: a tag and an optional [[@key='value']]
    predicate. *)
Record level : Type := Level {
  lv_tag : string;
  lv_pred : option (string * string)
}.

Definition L (t : string) : level := Level t None.
Definition Lp (t k v : string) : level := Level t (Some (k, v)).

Definition matches (nsf : string) (lv : level) (e : element) : bool :=
  String.eqb (tag e) (nsf ^^ lv_tag lv)
  && match lv_pred lv with
     | None => true
     | Some (k, v) =>
         match get e k with
         | Some w => pyval_eqb w (PStr v)
         | None => false
         end
     end.

(** [root.findall('./ns+l1/ns+l2/...')], in document order. *)
Fixpoint findall_from (nsf : string) (levels : list level) (nodes : list element)
  : list element :=
  match levels with
  | [] => nodes
  | lv :: rest =>
      findall_from nsf rest
        (flat_map (fun n => filter (matches nsf lv) (children n)) nodes)
  end.

Definition findall_in (nsf : string) (root : element) (levels : list level)
  : list element :=
  findall_from nsf levels [root].

Definition find_in (nsf : string) (root : element) (levels : list level)
  : option element :=
  hd_error (findall_in nsf root levels).

(** ** Indentation *)

Definition indent_of (level : nat) : string := newline ^^ spaces level.

Definition retail (i : string) (e : element) : element :=
  if blank (tail e) then set_tail (Some i) e else e.

(** The assignment after the loop of [_indentXml]: the loop variable shadows
    [elem], so it is the last child whose tail is reset. *)
Fixpoint retail_last (i : string) (cs : list element) : list element :=
  match cs with
  | [] => []
  | [c] => [retail i c]
  | c :: r => c :: retail_last i r
  end.

(** [xmlAsFile._indentXml]. *)
Fixpoint _indentXml (lvl : nat) (e : element) : element :=
  match e with
  | Element t a x l cs =>
      let i := indent_of lvl in
      match cs with
      | [] =>
          Element t a x
            (if negb (lvl =? 0) && blank l then Some i else l) []
      | _ :: _ =>
          Element t a
            (if blank x then Some (i ^^ "  ") else x)
            (if blank l then Some i else l)
            (retail_last i (map (_indentXml (S lvl)) cs))
      end
  end.

(** ** Paths ([os.path], POSIX conventions) *)

Definition sep : ascii := "/"%char.

Fixpoint has_sep (p : string) : bool :=
  match p with
  | EmptyString => false
  | String c r => Ascii.eqb c sep || has_sep r
  end.

(** [os.path.basename]: what follows the last separator. *)
Fixpoint basename (p : string) : string :=
  match p with
  | EmptyString => EmptyString
  | String c r => if has_sep p then basename r else p
  end.

(** The part up to and including the last separator. *)
Fixpoint head_part (p : string) : string :=
  match p with
  | EmptyString => EmptyString
  | String c r => if has_sep p then String c (head_part r) else EmptyString
  end.

Fixpoint all_sep (p : string) : bool :=
  match p with
  | EmptyString => true
  | String c r => Ascii.eqb c sep && all_sep r
  end.

Fixpoint rstrip_sep (p : string) : string :=
  match p with
  | EmptyString => EmptyString
  | String c r =>
      match rstrip_sep r with
      | EmptyString => if Ascii.eqb c sep then EmptyString else String c EmptyString
      | r' => String c r'
      end
  end.

(** [os.path.dirname]. *)
Definition dirname (p : string) : string :=
  let h := head_part p in
  if all_sep h then h else rstrip_sep h.

(** [os.path.join(a, b)]. *)
Definition join (a b : string) : string :=
  if startswith b "/" then b
  else if String.eqb a "" || endswith a "/" then a ^^ b
  else a ^^ "/" ^^ b.

Fixpoint drop_dots (s : string) : string :=
  match s with
  | String c r => if Ascii.eqb c "."%char then drop_dots r else s
  | EmptyString => EmptyString
  end.

Fixpoint last_ext (s : string) : option string :=
  match s with
  | EmptyString => None
  | String c r =>
      match last_ext r with
      | Some e => Some e
      | None => if Ascii.eqb c "."%char then Some s else None
      end
  end.

(** [os.path.splitext(p)[1]]: from the last dot of the file name, unless
    only dots precede it. *)
Definition splitext_ext (p : string) : string :=
  match drop_dots (basename p) with
  | EmptyString => ""
  | String _ r => match last_ext r with Some e => e | None => "" end
  end.

(** [s.split(sep)] for a one-character separator. *)
Fixpoint split_on (c : ascii) (s : string) : list string :=
  match s with
  | EmptyString => [""]
  | String a r =>
      if Ascii.eqb a c then "" :: split_on c r
      else match split_on c r with
           | x :: xs => String a x :: xs
           | [] => [String a ""]
           end
  end.

(** [sep.join(parts)]. *)
Fixpoint join_with (d : string) (parts : list string) : string :=
  match parts with
  | [] => ""
  | [x] => x
  | x :: r => x ^^ d ^^ join_with d r
  end.

(** The component loop of [os.path.normpath]; [acc] is [new_comps] reversed. *)
Fixpoint norm_comps (absolute : bool) (comps acc : list string) : list string :=
  match comps with
  | [] => rev acc
  | c :: r =>
      if String.eqb c "" || String.eqb c "." then norm_comps absolute r acc
      else if negb (String.eqb c "..")
              || (negb absolute && match acc with [] => true | _ => false end)
              || match acc with x :: _ => String.eqb x ".." | [] => false end
      then norm_comps absolute r (c :: acc)
      else norm_comps absolute r (List.tl acc)
  end.

(** [os.path.normpath]. *)
Definition normpath (p : string) : string :=
  if String.eqb p "" then "."
  else
    let initial := if startswith p "//" && negb (startswith p "///") then "//"
                   else if startswith p "/" then "/" else "" in
    let body := join_with "/"
                  (norm_comps (negb (String.eqb initial "")) (split_on sep p) []) in
    let q := initial ^^ body in
    if String.eqb q "" then "." else q.

(** ** The state and exception monad *)

Definition M (FS A : Type) : Type := FS -> res A * FS.

Definition ret {FS A} (a : A) : M FS A := fun s => (Ok a, s).

Definition bind {FS A B} (c : M FS A) (k : A -> M FS B) : M FS B :=
  fun s =>
    match c s with
    | (Ok a, s') => k a s'
    | (Raise e, s') => (Raise e, s')
    | (OutOfFuel, s') => (OutOfFuel, s')
    end.

Definition raise {FS A} (e : exn) : M FS A := fun s => (Raise e, s).

(** Reading the state without changing it. *)
Definition ask {FS A} (f : FS -> A) : M FS A := fun s => (Ok (f s), s).

(** A pure computation that may raise. *)
Definition lift {FS A} (r : res A) : M FS A := fun s => (r, s).

(** [try: c  except (classes) as error: handler(error)]. *)
Definition try_except {FS A} (c : M FS A) (caught : exn -> bool)
  (handler : exn -> M FS A) : M FS A :=
  fun s =>
    match c s with
    | (Raise e, s') => if caught e then handler e s' else (Raise e, s')
    | r => r
    end.

Notation "x <- c ;; k" := (bind c (fun x => k))
  (at level 61, c at next level, right associativity).
Notation "c ;;; k" := (bind c (fun _ => k))
  (at level 61, right associativity).

(** [for x in xs: body(x)] over a list that the body does not change. *)
Fixpoint for_each {FS A} (xs : list A) (body : A -> M FS unit) : M FS unit :=
  match xs with
  | [] => ret tt
  | x :: r => body x ;;; for_each r body
  end.

(** A loop that threads an accumulator. *)
Fixpoint fold_m {FS A B} (xs : list A) (acc : B) (body : B -> A -> M FS B)
  : M FS B :=
  match xs with
  | [] => ret acc
  | x :: r => acc' <- body acc x ;; fold_m r acc' body
  end.

(** ** The filesystem and the XML parser and serializer *)

(** What the code calls in [os], [os.path], [shutil], [pathlib] and
    [xml.etree.ElementTree]. Predicates read the state; the others may change
    it and may raise. *)
Class FileSystem (FS : Type) : Type := {
  os_path_exists : string -> FS -> bool;
  os_path_isdir : string -> FS -> bool;
  os_path_isfile : string -> FS -> bool;
  os_path_abspath : string -> FS -> string;
  (** [os.access(path, os.W_OK)] *)
  os_access_write : string -> FS -> bool;
  os_listdir : string -> M FS (list string);
  (** [os.chmod(path, stat.S_IWUSR)] *)
  os_chmod_write : string -> M FS unit;
  os_rename : string -> string -> M FS unit;
  os_remove : string -> M FS unit;
  os_mkdir : string -> M FS unit;
  (** [pathlib.Path(p).mkdir(parents=True, exist_ok=True)] *)
  mkdir_parents : string -> M FS unit;
  shutil_copyfile : string -> string -> M FS unit;
  shutil_copy2 : string -> string -> M FS unit;
  (** [shutil.copytree(src, dst, ignore=f)]; [f path names] lists the names
      to leave out. *)
  shutil_copytree :
    string -> string -> (string -> list string -> FS -> list string) -> M FS unit;
  (** [shutil.rmtree(path, onerror=h)]; [h func path exc_info]. *)
  shutil_rmtree :
    string -> ((string -> M FS unit) -> string -> exn -> M FS unit) -> M FS unit;
  (** [ET.parse(path).getroot()] *)
  ET_parse : string -> M FS element;
  (** [ET.register_namespace('', ns)]: the registry is process-wide state. *)
  ET_register_namespace : string -> M FS unit;
  (** [tree.write(path, xml_declaration=True, encoding='utf-8', method='xml')] *)
  ET_write : string -> element -> M FS unit
}.

(** Changing, in place, the first element of a list that satisfies [p]:
    what a method call on the result of [find] does to the tree. *)
Fixpoint update_first {A} (p : A -> bool) (f : A -> A) (l : list A) : list A :=
  match l with
  | [] => []
  | x :: r => if p x then f x :: r else x :: update_first p f r
  end.

Definition opt_eqb (a b : option string) : bool :=
  match a, b with
  | Some x, Some y => String.eqb x y
  | None, None => true
  | _, _ => false
  end.

Section Code.

Context {FS : Type} {fsys : FileSystem FS}.

Abbreviation Mo := (M FS).

(** ** Kinds of objects in a package *)

(** [getLibraryType] *)
Definition getLibraryType (path : string) (s : FS) : string :=
  if os_path_exists (join path "ANSIC.lby") s then "ANSIC"
  else if os_path_exists (join path "IEC.lby") s then "IEC"
  else if os_path_exists (join path "Binary.lby") s then "Binary"
  else "None".

(** [getProgramType] *)
Definition getProgramType (path : string) (s : FS) : string :=
  if os_path_exists (join path "ANSIC.prg") s then "ANSIC"
  else if os_path_exists (join path "IEC.prg") s then "IEC"
  else if os_path_exists (join path "Binary.prg") s then "Binary"
  else "None".

(** [getPkgType]: falls off the end, returning [None], for what is neither a
    directory nor a regular file. *)
Definition getPkgType (path : string) : Mo pyval :=
  fun s =>
    if negb (os_path_exists path s) then (Raise FileNotFoundError, s)
    else if os_path_isdir path s then
      if negb (String.eqb (getLibraryType path s) "None") then (Ok (PStr "Library"), s)
      else if negb (String.eqb (getProgramType path s) "None") then (Ok (PStr "Program"), s)
      else (Ok (PStr "Package"), s)
    else if os_path_isfile path s then (Ok (PStr "File"), s)
    else (Ok PNone, s).

(** ** [xmlAsFile] *)

Record xmlAsFile : Type := XmlAsFile {
  path : string;
  _package : element
}.

Definition root (self : xmlAsFile) : element := _package self.

(** [xmlAsFile.dirPath] *)
Definition dirPath (self : xmlAsFile) : string := dirname (path self).

(** [xmlAsFile.read] *)
Definition read (p : string) : Mo xmlAsFile :=
  ex <- ask (os_path_exists p) ;;
  if negb ex then raise FileNotFoundError
  else tree <- ET_parse p ;; ret (XmlAsFile p tree).

(** [xmlAsFile.write]: the tree is indented in place, then serialized. *)
Definition write (self : xmlAsFile) : Mo xmlAsFile :=
  ns <- lift (_getASNamespace (root self)) ;;
  ET_register_namespace ns ;;;
  let tree := _indentXml 0 (root self) in
  ET_write (path self) tree ;;;
  ret (XmlAsFile (path self) tree).

(** [xmlAsFile.__init__] *)
Definition xmlAsFile_init (p : string) (new_data : option element) : Mo xmlAsFile :=
  match new_data with
  | None => read p
  | Some tree => ET_write p tree ;;; ret (XmlAsFile p tree)
  end.

(** [xmlAsFile.nameSpaceFormatted] *)
Definition nameSpaceFormatted (self : xmlAsFile) : res string :=
  _getASNamespaceFormatted (root self).

(** [xmlAsFile.find] and [xmlAsFile.findall] *)
Definition find (self : xmlAsFile) (levels : list level) : res (option element) :=
  match nameSpaceFormatted self with
  | Ok nsf => Ok (find_in nsf (root self) levels)
  | Raise e => Raise e
  | OutOfFuel => OutOfFuel
  end.

Definition findall (self : xmlAsFile) (levels : list level) : res (list element) :=
  match nameSpaceFormatted self with
  | Ok nsf => Ok (findall_in nsf (root self) levels)
  | Raise e => Raise e
  | OutOfFuel => OutOfFuel
  end.

(** The tree after a mutation [f] of the element that [find(lv)] returns. *)
Definition update_found (nsf : string) (lv : level) (f : element -> element)
  (tree : element) : element :=
  set_children (update_first (matches nsf lv) f (children tree)) tree.

(** ** [Package] *)

Definition package_ns : string := "http://br-automation.co.at/AS/Package".

(** [Package.__init__]: with [new_pkg] and a path that is no directory the
    local [tree] is unbound. *)
Definition Package_init (p : string) (new_pkg : bool) : Mo xmlAsFile :=
  isd <- ask (os_path_isdir p) ;;
  let p' := if isd then join p "Package.pkg" else p in
  if new_pkg then
    if isd then
      xmlAsFile_init p'
        (Some (Element "Package" [("xmlns", PStr package_ns)] None None
                 [Element "Objects" [] None None []]))
    else raise UnboundLocalError
  else xmlAsFile_init p' None.

(** [Package.objects] *)
Definition objects (self : xmlAsFile) : res (option element) :=
  find self [L "Objects"].

(** [Package._createElement] *)
Definition _createElement (p : string) (reference : bool) : Mo element :=
  let attributes := if reference then [("Reference", PBool true)] else [] in
  ty <- getPkgType p ;;
  let attributes := dict_set "Type" ty attributes in
  lib <- ask (getLibraryType p) ;;
  let attributes := if pyval_eqb ty (PStr "Library")
                    then dict_set "Language" (PStr lib) attributes else attributes in
  prg <- ask (getProgramType p) ;;
  let attributes := if pyval_eqb ty (PStr "Program")
                    then dict_set "Language" (PStr prg) attributes else attributes in
  abs <- ask (os_path_abspath p) ;;
  ret (Element "Object" attributes
         (Some (if reference then abs else basename p)) (Some newline) []).

(** [Package._addPkgObject]; [elem] is the optional [element] argument. *)
Definition _addPkgObject (self : xmlAsFile) (p : string) (reference : bool)
  (elem : option element) : Mo (xmlAsFile * element) :=
  e <- match elem with
       | None => _createElement p reference
       | Some e => ret e
       end ;;
  nsf <- lift (nameSpaceFormatted self) ;;
  match find_in nsf (root self) [L "Objects"] with
  | None => raise AttributeError
  | Some _ =>
      self' <- write (XmlAsFile (path self)
                        (update_found nsf (L "Objects") (append e) (root self))) ;;
      ret (self', e)
  end.


(** [Package._removePkgObject], the loop: [for child in self.objects]
    indexes the live child list, and [remove] shortens it under the index. *)
Fixpoint remove_loop (fuel i : nat) (name : option string) (cs : list element)
  : list element :=
  match fuel with
  | O => cs
  | S f =>
      match nth_error cs i with
      | None => cs
      | Some child =>
          if opt_eqb (text child) name
          then remove_loop f (S i) name (delete_at i cs)
          else remove_loop f (S i) name cs
      end
  end.

(** [Package._removePkgObject] *)
Definition _removePkgObject (self : xmlAsFile) (name : option string) : Mo xmlAsFile :=
  nsf <- lift (nameSpaceFormatted self) ;;
  match find_in nsf (root self) [L "Objects"] with
  | None => raise TypeError
  | Some objs =>
      write (XmlAsFile (path self)
               (update_found nsf (L "Objects")
                  (fun o => set_children
                              (remove_loop (length (children o)) 0 name (children o)) o)
                  (root self)))
  end.

(** The first loop of [Package.synchPackageFile]: it walks [self.objects] by
    index while [_removePkgObject] removes from that same list. [objsText]
    keeps the keys of the dict. *)
Fixpoint synch_remove_loop (fuel i : nat) (items : list string)
  (self : xmlAsFile) (objsText : list string) : Mo (xmlAsFile * list string) :=
  match fuel with
  | O => ret (self, objsText)
  | S f =>
      nsf <- lift (nameSpaceFormatted self) ;;
      match find_in nsf (root self) [L "Objects"] with
      | None => raise TypeError
      | Some objs =>
          match nth_error (children objs) i with
          | None => ret (self, objsText)
          | Some elem =>
              if negb (opt_in (text elem) items) then
                self' <- _removePkgObject self (text elem) ;;
                synch_remove_loop f (S i) items self' objsText
              else
                synch_remove_loop f (S i) items self
                  (match text elem with
                   | Some t => if str_in t objsText then objsText else objsText ++ [t]
                   | None => objsText
                   end)
          end
      end
  end.

(** The second loop of [Package.synchPackageFile]. *)
Fixpoint synch_add_loop (items : list string) (objsText : list string)
  (self : xmlAsFile) : Mo xmlAsFile :=
  match items with
  | [] => ret self
  | item :: rest =>
      if String.eqb item (basename (path self)) then synch_add_loop rest objsText self
      else if negb (str_in item objsText) then
        r <- _addPkgObject self (join (dirPath self) item) false None ;;
        synch_add_loop rest objsText (fst r)
      else synch_add_loop rest objsText self
  end.

(** [Package.synchPackageFile] *)
Definition synchPackageFile (self : xmlAsFile) : Mo xmlAsFile :=
  items <- os_listdir (dirPath self) ;;
  nsf <- lift (nameSpaceFormatted self) ;;
  match find_in nsf (root self) [L "Objects"] with
  | None => raise TypeError
  | Some objs =>
      r <- synch_remove_loop (length (children objs)) 0 items self [] ;;
      self' <- synch_add_loop items (snd r) (fst r) ;;
      write self'
  end.

(** [Package.addEmptyPackage] *)
Definition addEmptyPackage (self : xmlAsFile) (name : string)
  : Mo (xmlAsFile * xmlAsFile) :=
  let full_path := dirPath self ^^ "/" ^^ name in
  os_mkdir full_path ;;;
  r <- _addPkgObject self full_path false None ;;
  newPackage <- Package_init full_path true ;;
  newPackage' <- write newPackage ;;
  ret (fst r, newPackage').

(** [Package.removeObject] *)
Definition removeObject (self : xmlAsFile) (name : string) : Mo xmlAsFile :=
  let path_to_remove := join (dirPath self) name in
  isd <- ask (os_path_isdir path_to_remove) ;;
  isf <- ask (os_path_isfile path_to_remove) ;;
  (if isd then shutil_rmtree path_to_remove (fun _ _ e => raise e)
   else if isf then os_remove path_to_remove
   else ret tt) ;;;
  _removePkgObject self (Some name).

(** ** [Library] *)

Record Library : Type := MkLibrary {
  lib_file : xmlAsFile;
  name : string;
  _xmlTag : string;
  _xmlTagChild : string
}.

Definition with_file (f : xmlAsFile) (l : Library) : Library :=
  MkLibrary f (name l) (_xmlTag l) (_xmlTagChild l).

(** [s[:-1]] *)
Definition drop_last (s : string) : string :=
  substring 0 (String.length s - 1) s.

(** [Library._getXmlTag] *)
Definition _getXmlTag (tree : element) : res string :=
  match _getASNamespaceFormatted tree with
  | Ok nsf =>
      Ok match List.find (fun c => let t := str_replace nsf "" (tag c) in
                                   String.eqb t "Files" || String.eqb t "Objects")
                 (children tree) with
         | Some c => str_replace nsf "" (tag c)
         | None => "Files"
         end
  | Raise e => Raise e
  | OutOfFuel => OutOfFuel
  end.

(** [Library.__init__] *)
Definition Library_init (p : string) : Mo Library :=
  isd <- ask (os_path_isdir p) ;;
  ty <- ask (getLibraryType p) ;;
  let p' := if isd then join p (ty ^^ ".lby") else p in
  f <- xmlAsFile_init p' None ;;
  t <- lift (_getXmlTag (root f)) ;;
  ret (MkLibrary f (basename (dirname p')) t (drop_last t)).

(** [Library.files], [Library.fileList], [Library.dependencyList] *)
Definition files (self : Library) : res (option element) :=
  find (lib_file self) [L (_xmlTag self)].

Definition fileList (self : Library) : res (list element) :=
  findall (lib_file self) [L (_xmlTag self); L (_xmlTagChild self)].

Definition dependencyList (self : Library) : res (list element) :=
  findall (lib_file self) [L "Dependencies"; L "Dependency"].

(** [Library.dependencyNames], through [Library.dependencies] *)
Definition dependencyNames (self : Library) : res (list pyval) :=
  match dependencyList self with
  | Ok l => Ok (map (fun e => get_str e "ObjectName" "Unknown") l)
  | Raise e => Raise e
  | OutOfFuel => OutOfFuel
  end.

(** [Library.version] *)
Definition version (self : Library) : pyval :=
  get_str (root (lib_file self)) "Version" "0".

(** [Library._createPkgElement] *)
Definition _createPkgElement (p : string) (tg : string) : Mo element :=
  ty <- getPkgType p ;;
  let attributes := [("Type", ty)] in
  lib <- ask (getLibraryType p) ;;
  let attributes := if pyval_eqb ty (PStr "Library")
                    then dict_set "Language" (PStr lib) attributes else attributes in
  prg <- ask (getProgramType p) ;;
  let attributes := if pyval_eqb ty (PStr "Program")
                    then dict_set "Language" (PStr prg) attributes else attributes in
  ret (Element tg attributes (Some (basename p)) (Some newline) []).

(** One list element under [Library._convertXmlTag]. *)
Definition convert_list (nsf toTag : string) (elem : element) : element :=
  let childTag := drop_last toTag in
  Element (nsf ^^ toTag) (attrib elem) (text elem) (tail elem)
    (map (fun child =>
            let child := set_tag (nsf ^^ childTag) child in
            if String.eqb toTag "Objects"
            then set_attr "Type" (PStr "File") child else child)
         (children elem)).

(** [Library._convertXmlTag] *)
Definition _convertXmlTag (self : Library) (fromTag toTag : string) : res Library :=
  match nameSpaceFormatted (lib_file self) with
  | Ok nsf =>
      let tree := root (lib_file self) in
      Ok (MkLibrary
            (XmlAsFile (path (lib_file self))
               (set_children
                  (map (fun c => if matches nsf (L fromTag) c
                                 then convert_list nsf toTag c else c)
                     (children tree)) tree))
            (name self) toTag (drop_last toTag))
  | Raise e => Raise e
  | OutOfFuel => OutOfFuel
  end.

(** [Library._addObjectElement] *)
Definition _addObjectElement (self : Library) (p : string) : Mo Library :=
  e <- _createPkgElement p (_xmlTagChild self) ;;
  nsf <- lift (nameSpaceFormatted (lib_file self)) ;;
  match find_in nsf (root (lib_file self)) [L (_xmlTag self)] with
  | None => raise AttributeError
  | Some _ =>
      let self' :=
        with_file (XmlAsFile (path (lib_file self))
                     (update_found nsf (L (_xmlTag self)) (append e)
                        (root (lib_file self)))) self in
      match get e "Type" with
      | Some ty =>
          if pyval_eqb ty (PStr "Package") && negb (String.eqb (_xmlTag self) "Objects")
          then lift (_convertXmlTag self' (_xmlTag self) "Objects")
          else ret self'
      | None => ret self'
      end
  end.


(** The last loop of [Library.synchronize]. *)
Fixpoint synchronize_add (items usedItems : list string) (self : Library)
  : Mo Library :=
  match items with
  | [] => ret self
  | item :: rest =>
      if negb (str_in item usedItems)
         && negb (String.eqb (splitext_ext item) ".lby")
         && negb (str_in item ["SG4"; "SG3"; "SGC"])
      then
        self' <- _addObjectElement self (join (dirPath (lib_file self)) item) ;;
        synchronize_add rest usedItems self'
      else synchronize_add rest usedItems self
  end.

(** [Library.synchronize]: stale entries are collected in [toRemove] and
    removed after the loop over [objects]. *)
Definition synchronize (self : Library) : Mo Library :=
  nsf <- lift (nameSpaceFormatted (lib_file self)) ;;
  let objs := find_in nsf (root (lib_file self)) [L (_xmlTag self)] in
  items <- os_listdir (dirPath (lib_file self)) ;;
  match objs with
  | None => raise TypeError
  | Some o =>
      let usedItems :=
        flat_map (fun obj => match text obj with
                             | Some t => if str_in t items then [t] else []
                             | None => []
                             end) (children o) in
      let kept := filter (fun obj => opt_in (text obj) items) in
      let self1 :=
        with_file (XmlAsFile (path (lib_file self))
                     (update_found nsf (L (_xmlTag self))
                        (fun e => set_children (kept (children e)) e)
                        (root (lib_file self)))) self in
      self2 <- synchronize_add items usedItems self1 ;;
      f <- write (lib_file self2) ;;
      ret (with_file f self2)
  end.

(** [BuildConfig] *)
Record BuildConfig : Type := MkBuildConfig {
  bc_name : string;
  bc_path : string;
  bc_type : string;
  bc_hardware : string
}.

(** [builds.get(typ)] in [_collectBinaryLibrary]: the first configuration of
    that type. *)
Definition first_of_type (typ : string) (buildConfigs : list BuildConfig)
  : option BuildConfig :=
  List.find (fun b => String.eqb (bc_type b) typ) buildConfigs.

(** The [ignore] callback of [Library._collectSourceLibrary]. *)
Definition _ignorePatterns (excludes : list string) (ignoreFolders : bool)
  (p : string) (names : list string) (s : FS) : list string :=
  flat_map (fun nm =>
              map (fun _ => nm)
                  (filter (fun item => endswith (lower nm) (lower item)) excludes)
              ++ (if ignoreFolders && os_path_isdir (join p nm) s then [nm] else []))
           names.

(** [Library._collectSourceLibrary] *)
Definition _collectSourceLibrary (sourceFolder dest : string)
  (excludes : list string) (ignoreFolders : bool) : Mo unit :=
  shutil_copytree sourceFolder dest (_ignorePatterns excludes ignoreFolders).

(** [Library._collectConfigBinary] *)
Definition _collectConfigBinary (tempPath : string) (config : BuildConfig)
  (libraryName dest : string) : Mo unit :=
  mkdir_parents dest ;;;
  shutil_copy2 (join (join (join (join tempPath "Objects") (bc_name config))
                        (bc_hardware config)) (libraryName ^^ ".br")) dest ;;;
  shutil_copy2 (join (join tempPath "Includes") (libraryName ^^ ".h")) dest ;;;
  shutil_copy2 (join (join (join (join tempPath "Archives") (bc_name config))
                        (bc_hardware config)) ("lib" ^^ libraryName ^^ ".a")) dest.

Definition binary_excludes : list string :=
  [".c"; ".st"; ".cpp"; ".git"; ".vscode"; ".gitignore"; "jenkinsfile";
   "CMakeLists.txt"].

(** [Library._collectBinaryLibrary] *)
Definition _collectBinaryLibrary (self : Library) (buildFolder dest : string)
  (buildConfigs : list BuildConfig) : Mo unit :=
  ty <- ask (getLibraryType (dirPath (lib_file self))) ;;
  let packageFileName := ty ^^ ".lby" in
  _collectSourceLibrary (dirPath (lib_file self)) dest binary_excludes true ;;;
  match first_of_type "sg4" buildConfigs with
  | Some b => _collectConfigBinary buildFolder b (name self) (join dest "SG4")
  | None => ret tt
  end ;;;
  match first_of_type "sg4_arm" buildConfigs with
  | Some b => _collectConfigBinary buildFolder b (name self)
                (join (join dest "SG4") "Arm")
  | None => ret tt
  end ;;;
  os_rename (join dest packageFileName) (join dest "Binary.lby") ;;;
  newLib <- Library_init (join dest "Binary.lby") ;;
  let newLib :=
    with_file (XmlAsFile (path (lib_file newLib))
                 (set_attr "SubType" (PStr "Binary") (root (lib_file newLib))))
              newLib in
  synchronize newLib ;;;
  ret tt.

(** [Library._rmtreeOnError] *)
Definition _rmtreeOnError (func : string -> Mo unit) (p : string) (exc_info : exn)
  : Mo unit :=
  w <- ask (os_access_write p) ;;
  if negb w then os_chmod_write p ;;; func p
  else raise (PyException exc_info).

(** [LibExportInfo] *)
Record LibExportInfo : Type := MkLibExportInfo {
  info_name : string;
  info_path : string;
  exception : option exn;
  info_lib : Library
}.

(** [str(v)] as the [%s] format sees it. *)
Definition py_str (v : pyval) : string :=
  match v with
  | PStr s => s
  | PNone => "None"
  | PBool true => "True"
  | PBool false => "False"
  end.

(** The exception classes of the [except] clause of [Library.export]. *)
Definition export_catches (e : exn) : bool :=
  match e with
  | FileNotFoundError | FileExistsError => true
  | _ => false
  end.

(** The [try] body of [Library.export]. *)
Definition export_body (self : Library) (p buildFolder : string)
  (buildConfigs : list BuildConfig) (overwrite binary : bool) : Mo unit :=
  ex <- ask (os_path_exists p) ;;
  (if overwrite && ex then shutil_rmtree p _rmtreeOnError else ret tt) ;;;
  if binary then _collectBinaryLibrary self buildFolder p buildConfigs
  else _collectSourceLibrary (dirPath (lib_file self)) p [] false.

(** [Library.export] *)
Definition export (self : Library) (dest buildFolder : string)
  (buildConfigs : list BuildConfig) (overwrite binary includeVersion : bool)
  : Mo LibExportInfo :=
  let p := join dest (name self) in
  let p := if includeVersion then join p ("V" ^^ py_str (version self)) else p in
  let info := MkLibExportInfo (name self) p None self in
  try_except
    (export_body self p buildFolder buildConfigs overwrite binary ;;; ret info)
    export_catches
    (fun error => ret (MkLibExportInfo (name self) p (Some error) self)).


(** [ProjectExportInfo] *)
Record ProjectExportInfo : Type := MkProjectExportInfo {
  success : list LibExportInfo;
  failed : list LibExportInfo
}.

Definition ProjectExportInfo_init : ProjectExportInfo := MkProjectExportInfo [] [].

(** [ProjectExportInfo.addLibInfo] *)
Definition addLibInfo (self : ProjectExportInfo) (libInfo : LibExportInfo)
  : ProjectExportInfo :=
  match exception libInfo with
  | None => MkProjectExportInfo (success self ++ [libInfo]) (failed self)
  | Some _ => MkProjectExportInfo (success self) (failed self ++ [libInfo])
  end.

(** [ProjectExportInfo.extend], one argument. *)
Definition extend (self info : ProjectExportInfo) : ProjectExportInfo :=
  MkProjectExportInfo (success self ++ success info) (failed self ++ failed info).

(** ** Build configurations *)

Definition cpu_table : list (string * string) :=
  [("x20cp04", "sg4_arm"); ("x20cp13", "sg4"); ("x20cp14", "sg4");
   ("x20cp3", "sg4"); ("apc", "sg4"); ("5pc", "sg4")].

(** [getConfigType] *)
Definition getConfigType (hardware : string) : string :=
  match List.find (fun kv => startswith (lower hardware) (fst kv)) cpu_table with
  | Some kv => snd kv
  | None => "sg4"
  end.

(** [getHardwareFolderFromConfig] *)
Definition getHardwareFolderFromConfig (configPath : string) : Mo string :=
  l <- os_listdir configPath ;;
  fun s =>
    match filter (fun d => os_path_isdir (join configPath d) s) l with
    | d :: _ => (Ok d, s)
    | [] => (Raise IndexError, s)
    end.

(** The loop of [Project._getConfigs]. *)
Fixpoint configs_of (physicalPath : string) (objs : list element)
  : Mo (list BuildConfig) :=
  match objs with
  | [] => ret []
  | config :: rest =>
      match get_str config "Type" "" with
      | PStr ty =>
          if String.eqb (lower ty) "configuration" then
            match text config with
            | None => raise TypeError
            | Some t =>
                let p := join physicalPath t in
                hw <- getHardwareFolderFromConfig p ;;
                r <- configs_of physicalPath rest ;;
                ret (MkBuildConfig t p (getConfigType hw) hw :: r)
            end
          else configs_of physicalPath rest
      | _ => raise AttributeError
      end
  end.

(** ** [Project] *)

Record Project : Type := MkProject {
  proj_file : xmlAsFile;
  sourcePath : string;
  physicalPath : string;
  tempPath : string;
  binaryPath : string;
  cacheIgnore : list string;
  libraries : list Library
}.

Definition default_cacheIgnore : list string :=
  ["_AS"; "Acp10*"; "Arnc0*"; "Mapp*"; "Motion"; "TRF_LIB"; "Mp*"; "As*"].

(** [Project._getConfigs], behind the [buildConfigs] property. *)
Definition buildConfigs (self : Project) : Mo (list BuildConfig) :=
  physical <- Package_init (join (physicalPath self) "Physical.pkg") false ;;
  objs <- lift (findall physical [L "Objects"; L "Object"]) ;;
  configs_of (physicalPath self) objs.

(** [fnmatch.fnmatch(name, pattern)] *)
Variable fnmatch : string -> string -> bool.

(** One pass of [Project._checkIgnore]:
    [[name for name in iterable if not fnmatch.fnmatch(name, ignore)]];
    [fnmatch] raises on a name that is no string. *)
Fixpoint ignore_pass (ignore : string) (names : list pyval) : res (list pyval) :=
  match names with
  | [] => Ok []
  | PStr n :: r =>
      match ignore_pass ignore r with
      | Ok r' => Ok (if fnmatch n ignore then r' else PStr n :: r')
      | other => other
      end
  | _ :: _ => Raise TypeError
  end.

Fixpoint ignore_passes (ignores : list string) (names : list pyval)
  : res (list pyval) :=
  match ignores with
  | [] => Ok names
  | ignore :: rest =>
      match ignore_pass ignore names with
      | Ok names' => ignore_passes rest names'
      | other => other
      end
  end.

(** [Project._checkIgnore] *)
Definition _checkIgnore (iterable : list pyval) (ignores : option (list string))
  : res (list pyval) :=
  match ignores with
  | None => Ok iterable
  | Some l => ignore_passes l iterable
  end.

(** [Project.getLibrariesByName]: in the order of [self.libraries]. *)
Definition getLibrariesByName (self : Project) (libNames : list pyval)
  : list Library :=
  filter (fun lib => existsb (pyval_eqb (PStr (name lib))) libNames)
         (libraries self).

(** [Project.getLibraryByName] *)
Definition getLibraryByName (self : Project) (libName : string) : option Library :=
  List.find (fun lib => String.eqb (name lib) libName) (libraries self).

(** The libraries [Project.exportLibrary] recurses into. *)
Definition dependencies_of (self : Project) (library : Library)
  (ignores : option (list string)) : res (list Library) :=
  match dependencyNames library with
  | Ok depNames =>
      match _checkIgnore depNames ignores with
      | Ok depNames =>
          match _checkIgnore depNames (Some (cacheIgnore self)) with
          | Ok depNames => Ok (getLibrariesByName self depNames)
          | Raise e => Raise e
          | OutOfFuel => OutOfFuel
          end
      | Raise e => Raise e
      | OutOfFuel => OutOfFuel
      end
  | Raise e => Raise e
  | OutOfFuel => OutOfFuel
  end.

(** [library.export(dest, self.tempPath, self.buildConfigs, ...)]: the
    property is read when the arguments are evaluated. *)
Definition export_call (self : Project) (library : Library) (dest : string)
  (overwrite binary includeVersion : bool) : Mo LibExportInfo :=
  cfgs <- buildConfigs self ;;
  export library dest (tempPath self) cfgs overwrite binary includeVersion.

(** [Project.exportLibrary]; [fuel] bounds the depth of the recursion, which
    the code leaves unbounded. The recursive call does not pass
    [withDependencies], so its default [True] applies. *)
Fixpoint exportLibrary (fuel : nat) (self : Project) (library : Library)
  (dest : string) (overwrite : bool) (ignores : option (list string))
  (binary includeVersion withDependencies : bool) : Mo ProjectExportInfo :=
  match fuel with
  | O => fun s => (OutOfFuel, s)
  | S f =>
      exportInfo <-
        (if withDependencies then
           deps <- lift (dependencies_of self library ignores) ;;
           fold_m deps ProjectExportInfo_init
             (fun info dep =>
                result <- exportLibrary f self dep dest overwrite ignores
                            binary includeVersion true ;;
                ret (extend info result))
         else ret ProjectExportInfo_init) ;;
      result <- export_call self library dest overwrite binary includeVersion ;;
      ret (addLibInfo exportInfo result)
  end.

(** The selection of [Project.exportLibraries]. *)
Definition exportLibs (self : Project) (blacklist whitelist : list string)
  : list Library :=
  match whitelist, blacklist with
  | _ :: _, _ =>
      filter (fun lib => str_in (lower (name lib)) (map lower whitelist))
             (libraries self)
  | [], _ :: _ =>
      filter (fun lib => negb (str_in (lower (name lib)) (map lower blacklist)))
             (libraries self)
  | [], [] => libraries self
  end.

(** The loop [for lib in exportLibs] of [Project.exportLibraries]. *)
Definition export_each (self : Project) (dest : string)
  (overwrite binary includeVersion : bool) (libs : list Library)
  (exportInfo : ProjectExportInfo) : Mo ProjectExportInfo :=
  fold_m libs exportInfo
    (fun exportInfo lib =>
       result <- export_call self lib dest overwrite binary includeVersion ;;
       ret (addLibInfo exportInfo result)).

(** [Project.exportLibraries]; absent [blacklist] and [whitelist] are empty
    lists. *)
Definition exportLibraries (self : Project) (dest : string) (overwrite : bool)
  (buildConfigsArg : option (list BuildConfig)) (blacklist whitelist : list string)
  (binary includeVersion : bool) : Mo ProjectExportInfo :=
  match buildConfigsArg with
  | None => buildConfigs self ;;; ret tt
  | Some _ => ret tt
  end ;;;
  export_each self dest overwrite binary includeVersion
    (exportLibs self blacklist whitelist) ProjectExportInfo_init.

(** ** [Task] *)

(** [Task.__init__]; the result is the [type] attribute, absent ([None]
    here) when the path is no directory and the constructor sets nothing. *)
Definition Task_init (p : string) : Mo (option pyval) :=
  isd <- ask (os_path_isdir p) ;;
  if isd then
    l <- os_listdir p ;;
    if str_in "ANSIC.prg" l then
      xmlAsFile_init (join p "ANSIC.prg") None ;;; ret (Some (PStr "ANSIC"))
    else
      l' <- os_listdir p ;;
      if str_in "IEC.prg" l' then
        xmlAsFile_init (join p "IEC.prg") None ;;; ret (Some (PStr "IEC"))
      else ret (Some PNone)
  else ret None.

(** ** [SwDeploymentTable] *)

(** [f"Cyclic#{n}"] for a one-digit [n]. *)
Definition cyclic (n : nat) : string :=
  "Cyclic#" ^^ String (ascii_of_nat (48 + n)) "".

(** [SwDeploymentTable._addRootLevelElement] *)
Definition _addRootLevelElement (self : xmlAsFile) (nm : string)
  (index : option nat) (attributes : list (string * pyval)) : Mo xmlAsFile :=
  let elem := Element nm attributes None (Some newline) [] in
  write (XmlAsFile (path self)
           match index with
           | None => append elem (root self)
           | Some i => insert i elem (root self)
           end).

(** The loop [for i in range(8)] of [SwDeploymentTable.__init__], from [i]
    for [n] more rounds. *)
Fixpoint add_task_classes (n i : nat) (self : xmlAsFile) : Mo xmlAsFile :=
  match n with
  | O => ret self
  | S n' =>
      tc <- lift (find self [Lp "TaskClass" "Name" (cyclic (i + 1))]) ;;
      self' <- match tc with
               | None => _addRootLevelElement self "TaskClass" (Some i)
                           [("Name", PStr (cyclic (i + 1)))]
               | Some _ => ret self
               end ;;
      add_task_classes n' (S i) self'
  end.

(** [SwDeploymentTable.__init__]; [None] is the object left without a
    document when the path is no file. *)
Definition SwDeploymentTable_init (p : string) : Mo (option xmlAsFile) :=
  isf <- ask (os_path_isfile p) ;;
  if isf then
    self <- xmlAsFile_init p None ;;
    self <- add_task_classes 8 0 self ;;
    lib <- lift (find self [L "Libraries"]) ;;
    self <- match lib with
            | None => _addRootLevelElement self "Libraries" None []
            | Some _ => ret self
            end ;;
    self <- read (path self) ;;
    ret (Some self)
  else ret None.

Fixpoint first_digit (s : string) : option ascii :=
  match s with
  | EmptyString => None
  | String c r => if is_digit c then Some c else first_digit r
  end.

(** [SwDeploymentTable._createTaskElement] *)
Definition _createTaskElement (taskFolder taskName : string) : Mo element :=
  ty <- Task_init (join (join "Logical" taskFolder) taskName) ;;
  match ty with
  | None => raise AttributeError
  | Some language =>
      let splitPath := split_on sep (normpath taskFolder) ++ [taskName; "prg"] in
      ret (Element "Task"
             [("Name", PStr (take_str 10 taskName));
              ("Source", PStr (join_with "." splitPath));
              ("Memory", PStr "UserROM");
              ("Language", language);
              ("Debugging", PStr "true")]
             None (Some newline) [])
  end.

(** [SwDeploymentTable.deployTask] *)
Definition deployTask (self : xmlAsFile) (taskFolder taskName taskClass : string)
  : Mo xmlAsFile :=
  match first_digit taskClass with
  | None => raise IndexError
  | Some d =>
      let cyclicName := "Cyclic#" ^^ String d "" in
      let tcl := Lp "TaskClass" "Name" cyclicName in
      tc <- lift (find self [tcl]) ;;
      pre <- lift (find self [tcl; Lp "Task" "Name" (take_str 10 taskName)]) ;;
      match pre with
      | Some _ => ret self
      | None =>
          elem <- _createTaskElement taskFolder taskName ;;
          match tc with
          | None => raise AttributeError
          | Some _ =>
              nsf <- lift (nameSpaceFormatted self) ;;
              write (XmlAsFile (path self)
                       (update_found nsf tcl (append elem) (root self)))
          end
      end
  end.

End Code.

(** ** What the serializer and the parser do to a tree

    [tree.write] declares the registered default namespace on the root when
    a tag uses it, and writes tags that have no namespace without a prefix:
    parsed again, they are in the default namespace. Empty text is not
    distinguished from none, and the tail of the root is not read back. *)

Definition qualify (nsf : string) (t : string) : string :=
  if startswith t "{" then t else nsf ^^ t.

Definition norm_text (x : option string) : option string :=
  match x with
  | Some EmptyString => None
  | other => other
  end.

Fixpoint reparse_elem (nsf : string) (e : element) : element :=
  match e with
  | Element t a x l cs =>
      Element (qualify nsf t) a (norm_text x) (norm_text l)
        (map (reparse_elem nsf) cs)
  end.

Fixpoint uses_ns (nsf : string) (e : element) : bool :=
  match e with
  | Element t _ _ _ cs =>
      startswith t nsf || existsb (uses_ns nsf) cs
  end.

(** The tree [ET.parse] returns for what [tree.write] wrote, [ns] being the
    registered default namespace. *)
Definition reparse (ns : string) (e : element) : element :=
  let nsf := if negb (String.eqb ns "") && uses_ns (format_ns ns) e
             then format_ns ns else "" in
  set_tail None (reparse_elem nsf e).

(** [tree.write] raises [TypeError] on an attribute value that is no string. *)
Fixpoint serializable (e : element) : bool :=
  match e with
  | Element _ a _ _ cs =>
      forallb (fun kv => match snd kv with PStr _ => true | _ => false end) a
      && forallb serializable cs
  end.

(** ** A filesystem in memory

    Paths are absolute strings; a node is a directory, an XML document or
    other data. [locked] lists the paths that cannot be removed although
    they are writable (a file held open by another process); [readonly]
    those without write permission. *)

Inductive node : Type :=
| Dir
| Xml (e : element)
| Data.

Record Disk : Type := MkDisk {
  entries : list (string * node);
  readonly : list string;
  locked : list string;
  registry : string
}.

Definition with_entries (l : list (string * node)) (d : Disk) : Disk :=
  MkDisk l (readonly d) (locked d) (registry d).

Definition lookup (p : string) (d : Disk) : option node := dict_get p (entries d).

Definition d_exists (p : string) (d : Disk) : bool :=
  match lookup p d with Some _ => true | None => false end.

Definition d_isdir (p : string) (d : Disk) : bool :=
  match lookup p d with Some Dir => true | _ => false end.

Definition d_isfile (p : string) (d : Disk) : bool :=
  match lookup p d with Some (Xml _) | Some Data => true | _ => false end.

Definition d_abspath (p : string) (d : Disk) : string := normpath (join "/" p).

Definition d_access_write (p : string) (d : Disk) : bool :=
  negb (str_in p (readonly d)).

Definition child_names (p : string) (d : Disk) : list string :=
  flat_map (fun kv => if String.eqb (dirname (fst kv)) p
                         && negb (String.eqb (fst kv) p)
                      then [basename (fst kv)] else [])
           (entries d).

Definition d_listdir (p : string) : M Disk (list string) :=
  fun d =>
    match lookup p d with
    | Some Dir => (Ok (child_names p d), d)
    | Some _ => (Raise NotADirectoryError, d)
    | None => (Raise FileNotFoundError, d)
    end.

Definition d_chmod_write (p : string) : M Disk unit :=
  fun d =>
    if d_exists p d
    then (Ok tt, MkDisk (entries d)
                   (filter (fun q => negb (String.eqb q p)) (readonly d))
                   (locked d) (registry d))
    else (Raise FileNotFoundError, d).

Definition under (p q : string) : bool :=
  String.eqb q p || startswith q (p ^^ "/").

Definition drop_entry (p : string) (d : Disk) : Disk :=
  with_entries (filter (fun kv => negb (String.eqb (fst kv) p)) (entries d)) d.

(** [os.unlink] / [os.rmdir] on one path. *)
Definition d_unlink (p : string) : M Disk unit :=
  fun d =>
    if negb (d_exists p d) then (Raise FileNotFoundError, d)
    else if str_in p (locked d) || str_in p (readonly d)
    then (Raise PermissionError, d)
    else (Ok tt, drop_entry p d).

Definition d_remove (p : string) : M Disk unit :=
  fun d => if d_isdir p d then (Raise PermissionError, d) else d_unlink p d.

(** [shutil.rmtree]: what is under [p] goes first, [p] last; a failure is
    handed to [onerror], and what it raises ends the walk. *)
Definition d_rmtree (p : string)
  (onerror : (string -> M Disk unit) -> string -> exn -> M Disk unit)
  : M Disk unit :=
  fun d =>
    let victims :=
      filter (fun q => negb (String.eqb q p))
             (map fst (filter (fun kv => under p (fst kv)) (entries d))) ++ [p] in
    for_each victims
      (fun q => try_except (d_unlink q) (fun _ => true)
                  (fun e => onerror d_unlink q e)) d.

Definition reprefix (a b q : string) : string :=
  if under a q then b ^^ substring (String.length a) (String.length q) q else q.

Definition d_rename (a b : string) : M Disk unit :=
  fun d =>
    if negb (d_exists a d) then (Raise FileNotFoundError, d)
    else if d_exists b d then (Raise FileExistsError, d)
    else if negb (d_isdir (dirname b) d) then (Raise FileNotFoundError, d)
    else (Ok tt, with_entries
                   (map (fun kv => (reprefix a b (fst kv), snd kv)) (entries d)) d).

Definition put (p : string) (n : node) (d : Disk) : Disk :=
  with_entries (dict_set p n (entries d)) d.

Definition d_mkdir (p : string) : M Disk unit :=
  fun d =>
    if d_exists p d then (Raise FileExistsError, d)
    else if negb (d_isdir (dirname p) d) then (Raise FileNotFoundError, d)
    else (Ok tt, put p Dir d).

(** The missing ancestors of [p], outermost first. *)
Fixpoint missing_dirs (fuel : nat) (p : string) (d : Disk) : list string :=
  match fuel with
  | O => []
  | S f => if d_exists p d || String.eqb p (dirname p) then []
           else missing_dirs f (dirname p) d ++ [p]
  end.

Definition d_mkdir_parents (p : string) : M Disk unit :=
  fun d =>
    if d_isfile p d then (Raise FileExistsError, d)
    else (Ok tt, fold_left (fun acc q => put q Dir acc)
                   (missing_dirs (String.length p) p d) d).

Definition d_copyfile (a b : string) : M Disk unit :=
  fun d =>
    match lookup a d with
    | None => (Raise FileNotFoundError, d)
    | Some Dir => (Raise PermissionError, d)
    | Some n =>
        if negb (d_isdir (dirname b) d) then (Raise FileNotFoundError, d)
        else if d_isdir b d then (Raise PermissionError, d)
        else (Ok tt, put b n d)
    end.

Definition d_copy2 (a b : string) : M Disk unit :=
  fun d => d_copyfile a (if d_isdir b d then join b (basename a) else b) d.

(** [shutil.copytree]: [dst] must not exist; each directory's names pass
    through [ignore]. [fuel] bounds the depth of the tree. *)
Fixpoint d_copytree_go (fuel : nat)
  (ignore : string -> list string -> Disk -> list string) (src dst : string)
  : M Disk unit :=
  match fuel with
  | O => ret tt
  | S f =>
      fun d =>
        match lookup src d with
        | None => (Raise FileNotFoundError, d)
        | Some Dir =>
            if d_exists dst d then (Raise FileExistsError, d)
            else
              let names := child_names src d in
              let ignored := ignore src names d in
              bind (d_mkdir_parents dst)
                (fun _ =>
                   for_each (filter (fun nm => negb (str_in nm ignored)) names)
                     (fun nm d' =>
                        if d_isdir (join src nm) d'
                        then d_copytree_go f ignore (join src nm) (join dst nm) d'
                        else d_copyfile (join src nm) (join dst nm) d')) d
        | Some _ => (Raise NotADirectoryError, d)
        end
  end.

Definition d_copytree (src dst : string)
  (ignore : string -> list string -> Disk -> list string) : M Disk unit :=
  fun d => d_copytree_go (S (length (entries d))) ignore src dst d.

Definition d_parse (p : string) : M Disk element :=
  fun d =>
    match lookup p d with
    | Some (Xml e) => (Ok e, d)
    | Some Data => (Raise ParseError, d)
    | Some Dir => (Raise PermissionError, d)
    | None => (Raise FileNotFoundError, d)
    end.

Definition d_register_namespace (ns : string) : M Disk unit :=
  fun d => (Ok tt, MkDisk (entries d) (readonly d) (locked d) ns).

(** [tree.write]: the file is opened, then the tree serialized; a tree that
    cannot be serialized leaves the file cut short. *)
Definition d_write (p : string) (e : element) : M Disk unit :=
  fun d =>
    if negb (d_isdir (dirname p) d) then (Raise FileNotFoundError, d)
    else if d_isdir p d || str_in p (readonly d) then (Raise PermissionError, d)
    else if negb (serializable e) then (Raise TypeError, put p Data d)
    else (Ok tt, put p (Xml (reparse (registry d) e)) d).

#[export] Instance DiskFS : FileSystem Disk := {
  os_path_exists := d_exists;
  os_path_isdir := d_isdir;
  os_path_isfile := d_isfile;
  os_path_abspath := d_abspath;
  os_access_write := d_access_write;
  os_listdir := d_listdir;
  os_chmod_write := d_chmod_write;
  os_rename := d_rename;
  os_remove := d_remove;
  os_mkdir := d_mkdir;
  mkdir_parents := d_mkdir_parents;
  shutil_copyfile := d_copyfile;
  shutil_copy2 := d_copy2;
  shutil_copytree := d_copytree;
  shutil_rmtree := d_rmtree;
  ET_parse := d_parse;
  ET_register_namespace := d_register_namespace;
  ET_write := d_write
}.

(** [fnmatch.fnmatch] for patterns made of literal characters, [*] and [?]
    (no bracket expressions), case-sensitive. *)
Fixpoint glob (pat : string) : string -> bool :=
  match pat with
  | EmptyString => fun s => String.eqb s ""
  | String c pat' =>
      if Ascii.eqb c "*"%char then
        fix star (s : string) : bool :=
          glob pat' s || match s with
                         | EmptyString => false
                         | String _ r => star r
                         end
      else
        fun s => match s with
                 | EmptyString => false
                 | String a r =>
                     (Ascii.eqb c "?"%char || Ascii.eqb c a) && glob pat' r
                 end
  end.

Definition fnmatch_glob (nm pattern : string) : bool := glob pattern nm.

(** ** Notions used to state the properties *)


(** Two texts that agree, or are both absent or whitespace only. *)
Definition text_compat (x y : option string) : Prop :=
  x = y \/ (blank x = true /\ blank y = true).


(** Trees of the same shape whose elements have the same content; tails
    are left free. *)
Inductive sim : element -> element -> Prop :=
| sim_intro : forall t a x x' l l' cs cs',
    text_compat x x' -> (cs = [] -> x = x') -> Forall2 sim cs cs' ->
    sim (Element t a x l cs) (Element t a x' l' cs').



(** The destination [Library.export] computes. *)
Definition export_path (self : Library) (dest : string) (includeVersion : bool)
  : string :=
  if includeVersion
  then join (join dest (name self)) ("V" ^^ py_str (version self))
  else join dest (name self).

(** A dependency name that some discovered library bears. *)
Definition known (self : Project) (v : pyval) : bool :=
  existsb (fun lib => pyval_eqb (PStr (name lib)) v) (libraries self).

(** A name that no pattern of the caller's ignore list or of the project's
    own list matches. *)
Definition not_ignored (fnmatch : string -> string -> bool) (self : Project)
  (ignores : option (list string)) (n : string) : Prop :=
  (forall pat, In pat (cacheIgnore self) -> fnmatch n pat = false)
  /\ (forall l pat, ignores = Some l -> In pat l -> fnmatch n pat = false).






(** [matches] on the tag an element has once the document is parsed again:
    a tag without namespace is then in the namespace of the root. *)
Definition qmatches (nsf : string) (lv : level) (e : element) : bool :=
  matches nsf lv (set_tag (qualify nsf (tag e)) e).

(** What the parser returns is what was last written, as [reparse] has it,
    and parsing twice returns the same tree. *)
Definition reads_back {FS : Type} {fsys : FileSystem FS} : Prop :=
  (forall p (s s1 s2 : FS) t t',
      ET_parse p s = (Ok t, s1) -> ET_parse p s1 = (Ok t', s2) -> t' = t)
  /\ (forall p ns t (s s1 s2 s3 : FS) t',
        ET_register_namespace ns s = (Ok tt, s1) ->
        ET_write p t s1 = (Ok tt, s2) ->
        ET_parse p s2 = (Ok t', s3) -> t' = reparse ns t).

Fixpoint has_char (c : ascii) (s : string) : bool :=
  match s with
  | EmptyString => false
  | String a r => Ascii.eqb a c || has_char c r
  end.

(** A tag that opens a brace closes it: [{uri}local] or [local]. *)
Definition closed_tag (t : string) : Prop :=
  match t with
  | String c r => Ascii.eqb c "{"%char = true -> has_char "}"%char r = true
  | EmptyString => True
  end.

(** The levels [SwDeploymentTable.__init__] looks for. *)
Definition task_class (n : nat) : level := Lp "TaskClass" "Name" (cyclic n).


(** What [SwDeploymentTable.__init__] maintains while it adds nodes: every
    level of [done] has a node among the children of the tree [t] in memory
    once tags are qualified; and the file at [p] holds either [t] itself,
    with those nodes found as they are, or what was written from [t]. *)
Definition tracked {FS : Type} {fsys : FileSystem FS} (p ns : string)
  (done : list level) (t : element) (s : FS) : Prop :=
  (forall lv, In lv done ->
              existsb (qmatches (format_ns ns) lv) (children t) = true)
  /\ (((forall T s3, ET_parse p s = (Ok T, s3) -> T = t)
       /\ forall lv, In lv done ->
                     existsb (matches (format_ns ns) lv) (children t) = true)
      \/ (forall T s3, ET_parse p s = (Ok T, s3) -> T = reparse ns t)).


(** One round of [SwDeploymentTable.__init__]: look for the node at [lv]
    and, when [find] returns [None], add an element at the root. *)
Definition ensure_node {FS : Type} {fsys : FileSystem FS} (self : xmlAsFile)
  (lv : level) (nm : string) (index : option nat)
  (attributes : list (string * pyval)) : M FS xmlAsFile :=
  tc <- lift (find self [lv]) ;;
  match tc with
  | None => _addRootLevelElement self nm index attributes
  | Some _ => ret self
  end.





(** ** Example projects *)

Definition lib_ns : string := "{http://br-automation.co.at/AS/Library}".
Definition pkg_ns : string := "{http://br-automation.co.at/AS/Package}".
Definition sw_ns : string := "{http://br-automation.co.at/AS/SwConfiguration}".

Definition file_entry (nsf nm : string) : element :=
  Element (nsf ^^ "File") [] (Some nm) None [].

Definition object_entry (nsf ty nm : string) : element :=
  Element (nsf ^^ "Object") [("Type", PStr ty)] (Some nm) None [].

Definition dependency_entry (nm : string) : element :=
  Element (lib_ns ^^ "Dependency") [("ObjectName", PStr nm)] None None [].

(** A library manifest with a [Files] list and the given dependencies. *)
Definition lib_tree (fls deps : list string) : element :=
  Element (lib_ns ^^ "Library") [("Version", PStr "1.00.0")] None None
    [Element (lib_ns ^^ "Files") [] None None (map (file_entry lib_ns) fls);
     Element (lib_ns ^^ "Dependencies") [] None None (map dependency_entry deps)].

Definition lib_at (dir nm : string) (fls deps : list string) : Library :=
  MkLibrary (XmlAsFile (join (join dir nm) "ANSIC.lby") (lib_tree fls deps))
    nm "Files" "File".

Definition libs_dir : string := "/proj/Logical/Libraries".

Definition libX : Library := lib_at libs_dir "LibX" ["x.c"] ["LibY"].
Definition libY : Library := lib_at libs_dir "LibY" ["y.c"] ["LibZ"].
Definition libZ : Library := lib_at libs_dir "LibZ" ["z.c"] [].
(** [LibM] depends on a library that the project does not have. *)
Definition libM : Library := lib_at libs_dir "LibM" ["m.c"] ["Missing"].

Definition physical_pkg : element :=
  Element (pkg_ns ^^ "Physical") [] None None
    [Element (pkg_ns ^^ "Objects") [] None None []].

Definition project_with (libs : list Library) : Project :=
  MkProject (XmlAsFile "/proj/Demo.apj" (Element "Project" [] None None []))
    "/proj/Logical" "/proj/Physical" "/proj/Temp" "/proj/Binaries"
    default_cacheIgnore libs.

Definition chain_project : Project := project_with [libX; libY; libZ].
Definition missing_project : Project := project_with [libM].

Definition lib_files (l : Library) (src : string) : list (string * node) :=
  [(join libs_dir (name l), Dir);
   (path (lib_file l), Xml (root (lib_file l)));
   (join (join libs_dir (name l)) src, Data)].

(** The project tree on disk, with an empty export directory [/out]. *)
Definition project_disk : Disk :=
  MkDisk
    ([("/", Dir); ("/proj", Dir); ("/proj/Demo.apj", Data);
      ("/proj/Logical", Dir); (libs_dir, Dir)]
     ++ lib_files libX "x.c" ++ lib_files libY "y.c" ++ lib_files libZ "z.c"
     ++ lib_files libM "m.c"
     ++ [("/proj/Physical", Dir);
         ("/proj/Physical/Physical.pkg", Xml physical_pkg);
         ("/proj/Temp", Dir); ("/out", Dir)])
    [] [] "".

(** An earlier export of [LibX] is in [/out]. *)
Definition exported_disk : Disk :=
  with_entries (entries project_disk
                ++ [("/out/LibX", Dir); ("/out/LibX/x.c", Data)]) project_disk.

(** The same, with [/out/LibX/x.c] held open by another process. *)
Definition locked_disk : Disk :=
  MkDisk (entries exported_disk) [] ["/out/LibX/x.c"] "".

(** A package whose manifest lists two files that are not in its
    directory. *)
Definition stale_pkg : element :=
  Element (pkg_ns ^^ "Package") [] None None
    [Element (pkg_ns ^^ "Objects") [] None None
       [object_entry pkg_ns "File" "a.var"; object_entry pkg_ns "File" "b.var"]].

Definition stale_disk : Disk :=
  MkDisk [("/", Dir); ("/p", Dir); ("/p/Package.pkg", Xml stale_pkg)] [] [] "".

Definition stale_package : xmlAsFile := XmlAsFile "/p/Package.pkg" stale_pkg.

(** A package with a file [a.var] in its directory and not yet in its
    manifest, and a file of the same name elsewhere. *)
Definition empty_pkg : element :=
  Element (pkg_ns ^^ "Package") [] None None
    [Element (pkg_ns ^^ "Objects") [] None None []].

Definition reference_disk : Disk :=
  MkDisk [("/", Dir); ("/p", Dir); ("/p/Package.pkg", Xml empty_pkg);
          ("/p/a.var", Data); ("/elsewhere", Dir); ("/elsewhere/a.var", Data)]
    [] [] "".

Definition empty_package : xmlAsFile := XmlAsFile "/p/Package.pkg" empty_pkg.

(** A library with a [Files] list, and a plain subfolder in its directory. *)
Definition files_library : Library := lib_at "/l" "Lib" ["a.c"] [].

Definition subfolder_disk : Disk :=
  MkDisk [("/", Dir); ("/l", Dir); ("/l/Lib", Dir);
          ("/l/Lib/ANSIC.lby", Xml (root (lib_file files_library)));
          ("/l/Lib/a.c", Data); ("/l/Lib/sub", Dir)]
    [] [] "".

(** A task deployment table. *)
Definition task_class_node (n : nat) : element :=
  Element (sw_ns ^^ "TaskClass") [("Name", PStr (cyclic n))] None None [].

Definition table_of (cs : list element) : element :=
  Element (sw_ns ^^ "SwConfiguration") [("CpuAddress", PStr "SL1")] None None cs.

Definition full_table : element :=
  table_of (map task_class_node (seq 1 8)
            ++ [Element (sw_ns ^^ "Libraries") [] None None []]).


(** A table with one node that is neither a class nor [Libraries]. *)
Definition bare_table : element :=
  table_of [Element (sw_ns ^^ "DataObjects") [] None None []].

Definition table_disk (t : element) : Disk :=
  MkDisk [("/", Dir); ("/c", Dir); ("/c/Cpu.sw", Xml t);
          ("Logical", Dir); ("Logical/Tasks", Dir);
          ("Logical/Tasks/VeryLongTaskName123", Dir);
          ("Logical/Tasks/VeryLongTaskName123/ANSIC.prg",
           Xml (Element "Program" [] None None []))]
    [] [] "".

Definition full_table_file : xmlAsFile := XmlAsFile "/c/Cpu.sw" full_table.

(** ** A filesystem on which every operation succeeds *)



(** The table after the task is deployed, and the disk it leaves. *)
Definition deployed_table : xmlAsFile * Disk :=
  match deployTask full_table_file "Tasks" "VeryLongTaskName123" "Cyclic#3"
          (table_disk full_table) with
  | (Ok self, d) => (self, d)
  | (_, d) => (full_table_file, d)
  end.

(** The table loaded from the file that has none of the nodes. *)
Definition bare_table_loaded : xmlAsFile * Disk :=
  match SwDeploymentTable_init "/c/Cpu.sw" (table_disk bare_table) with
  | (Ok (Some self), d) => (self, d)
  | (_, d) => (XmlAsFile "/c/Cpu.sw" bare_table, d)
  end.


(** A library whose manifest lists two files that are not in its
    directory. *)
Definition stale_library : Library := lib_at "/s" "Lib" ["a.c"; "b.c"] [].

Definition stale_library_disk : Disk :=
  MkDisk [("/", Dir); ("/s", Dir); ("/s/Lib", Dir);
          ("/s/Lib/ANSIC.lby", Xml (root (lib_file stale_library)))]
    [] [] "".


(** ** More of [SwDeploymentTable] *)

(** The loop [for attributeName in attributeOverrides:
    attributes[attributeName] = attributeOverrides[attributeName]]. *)
Definition apply_overrides (attributeOverrides attributes : list (string * pyval))
  : list (string * pyval) :=
  fold_left (fun acc kv => dict_set (fst kv) (snd kv) acc)
    attributeOverrides attributes.

(** The loop [for lib in self.libraries: if lib.lower() == library.lower():
    return] of [SwDeploymentTable.deployLibrary]; a name that is no string
    has no [lower]. *)
Fixpoint already_listed (library : string) (libs : list pyval) : res bool :=
  match libs with
  | [] => Ok false
  | PStr lib :: rest =>
      if String.eqb (lower lib) (lower library) then Ok true
      else already_listed library rest
  | _ :: _ => Raise AttributeError
  end.

Section MoreCode.

Context {FS : Type} {fsys : FileSystem FS}.

(** [SwDeploymentTable.libraries] *)
Definition SwDeploymentTable_libraries (self : xmlAsFile) : res (list pyval) :=
  match findall self [L "Libraries"; L "LibraryObject"] with
  | Ok l => Ok (map (fun e => get_str e "Name" "Unknown") l)
  | Raise e => Raise e
  | OutOfFuel => OutOfFuel
  end.

(** [SwDeploymentTable._createLibraryElement] *)
Definition _createLibraryElement (libraryFolder name memory : string)
  (attributeOverrides : list (string * pyval)) : M FS element :=
  language <- ask (getLibraryType (join libraryFolder name)) ;;
  let parentFolder := basename libraryFolder in
  let attributes :=
    [("Name", PStr name);
     ("Source", PStr (join_with "." ["Libraries"; parentFolder; name; "lby"]));
     ("Memory", PStr memory);
     ("Language", PStr language);
     ("Debugging", PStr "true")] in
  ret (Element "LibraryObject" (apply_overrides attributeOverrides attributes)
         None (Some newline) []).

(** [SwDeploymentTable.deployLibrary] *)
Definition deployLibrary (self : xmlAsFile) (libraryFolder library : string)
  (attributes : list (string * pyval)) : M FS xmlAsFile :=
  obj <- lift (find self [L "Libraries"]) ;;
  libs <- lift (SwDeploymentTable_libraries self) ;;
  listed <- lift (already_listed library libs) ;;
  if listed then ret self
  else
    element <- _createLibraryElement libraryFolder library "UserROM" attributes ;;
    match obj with
    | None => raise AttributeError
    | Some _ =>
        nsf <- lift (nameSpaceFormatted self) ;;
        write (XmlAsFile (path self)
                 (update_found nsf (L "Libraries") (append element) (root self)))
    end.

End MoreCode.

(** The value a dict built by successive assignments holds for a key: the
    last one assigned. *)
Definition last_assigned (k : string) (d : list (string * pyval)) : option pyval :=
  dict_get k (rev d).

(** ** [CpuConfig] *)

(** A reference to an element of a tree that the object keeps: the indices
    of the path from the root to it. The methods of [CpuConfig] change
    attributes and indentation only, so the path stays that of the same
    element. *)
Fixpoint elem_at (p : list nat) (e : element) : option element :=
  match p with
  | [] => Some e
  | i :: r =>
      match nth_error (children e) i with
      | Some c => elem_at r c
      | None => None
      end
  end.

Fixpoint update_nth {A} (i : nat) (f : A -> A) (l : list A) : list A :=
  match l, i with
  | [], _ => []
  | x :: r, O => f x :: r
  | x :: r, S j => x :: update_nth j f r
  end.

(** A mutation [f] of the element the reference [p] points to. *)
Fixpoint update_at (p : list nat) (f : element -> element) (e : element)
  : element :=
  match p with
  | [] => f e
  | i :: r => set_children (update_nth i (update_at r f) (children e)) e
  end.

Fixpoint first_path (f : element -> option (list nat)) (i : nat)
  (cs : list element) : option (list nat) :=
  match cs with
  | [] => None
  | c :: r =>
      match f c with
      | Some p => Some (i :: p)
      | None => first_path f (S i) r
      end
  end.

(** The path of the element [root.find('./ns+l1/ns+l2/...')] returns: the
    first in document order. *)
Fixpoint find_path (nsf : string) (levels : list level) (e : element)
  : option (list nat) :=
  match levels with
  | [] => Some []
  | lv :: rest =>
      first_path (fun c => if matches nsf lv c then find_path nsf rest c else None)
        0 (children e)
  end.

(** [xmlAsFile.find], as a reference. *)
Definition find_ref (self : xmlAsFile) (levels : list level)
  : res (option (list nat)) :=
  match nameSpaceFormatted self with
  | Ok nsf => Ok (find_path nsf levels (root self))
  | Raise e => Raise e
  | OutOfFuel => OutOfFuel
  end.

Record CpuConfig : Type := MkCpuConfig {
  cpu_file : xmlAsFile;
  buildElement : option (list nat);
  arElement : option (list nat)
}.

(** [if key in elem.attrib: return elem.attrib[key] else: return None] for
    the element a reference points to; [None] for the reference is the
    result [None] of [find], which has no [attrib]. *)
Definition attribute_of (self : CpuConfig) (ref : option (list nat))
  (key : string) : res (option pyval) :=
  match ref with
  | None => Raise AttributeError
  | Some p =>
      match elem_at p (root (cpu_file self)) with
      | Some e => Ok (get e key)
      | None => Raise AttributeError
      end
  end.

(** [CpuConfig.getGccVersion], [getPreBuildStep], [getArVersion] *)
Definition getGccVersion (self : CpuConfig) : res (option pyval) :=
  attribute_of self (buildElement self) "GccVersion".

Definition getPreBuildStep (self : CpuConfig) : res (option pyval) :=
  attribute_of self (buildElement self) "PreBuildStep".

Definition getArVersion (self : CpuConfig) : res (option pyval) :=
  attribute_of self (arElement self) "Version".

Section CpuConfigCode.

Context {FS : Type} {fsys : FileSystem FS}.

(** [CpuConfig.__init__]; [None] is the object left without attributes when
    the path is no file. *)
Definition CpuConfig_init (p : string) : M FS (option CpuConfig) :=
  isf <- ask (os_path_isfile p) ;;
  if isf then
    self <- xmlAsFile_init p None ;;
    b <- lift (find_ref self [L "Configuration"; L "Build"]) ;;
    a <- lift (find_ref self [L "Configuration"; L "AutomationRuntime"]) ;;
    ret (Some (MkCpuConfig self b a))
  else ret None.

(** [elem.attrib[key] = value; self.write()] for the element a reference
    points to. *)
Definition set_attribute (self : CpuConfig) (ref : option (list nat))
  (key : string) (value : pyval) : M FS CpuConfig :=
  match ref with
  | None => raise AttributeError
  | Some p =>
      match elem_at p (root (cpu_file self)) with
      | None => raise AttributeError
      | Some _ =>
          f <- write (XmlAsFile (path (cpu_file self))
                        (update_at p (set_attr key value) (root (cpu_file self)))) ;;
          ret (MkCpuConfig f (buildElement self) (arElement self))
      end
  end.

(** [CpuConfig.setGccVersion], [setPreBuildStep], [setArVersion] *)
Definition setGccVersion (self : CpuConfig) (value : pyval) : M FS CpuConfig :=
  set_attribute self (buildElement self) "GccVersion" value.

Definition setPreBuildStep (self : CpuConfig) (value : pyval) : M FS CpuConfig :=
  set_attribute self (buildElement self) "PreBuildStep" value.

Definition setArVersion (self : CpuConfig) (value : pyval) : M FS CpuConfig :=
  set_attribute self (arElement self) "Version" value.

End CpuConfigCode.

(** The references of a [CpuConfig] point into its tree, and to two
    elements when both are there. *)
Definition valid_refs (self : CpuConfig) : Prop :=
  (forall p, buildElement self = Some p ->
             exists e, elem_at p (root (cpu_file self)) = Some e)
  /\ (forall q, arElement self = Some q ->
                exists e, elem_at q (root (cpu_file self)) = Some e)
  /\ (forall p q, buildElement self = Some p -> arElement self = Some q ->
                  length p = length q /\ p <> q).

(** ** Notions for the further properties *)

(** The tags of a tree, and its shape. *)
Fixpoint tags_of (e : element) : element :=
  match e with
  | Element t _ _ _ cs => Element t [] None None (map tags_of cs)
  end.

(** Every tag of the tree is in a namespace, when the document has one:
    the parser leaves such tags as they are. *)
Fixpoint qualified (nsf : string) (e : element) : bool :=
  match e with
  | Element t _ _ _ cs =>
      String.eqb (qualify nsf t) t && forallb (qualified nsf) cs
  end.

(** An export that raised nothing. *)
Definition succeeded (i : LibExportInfo) : bool :=
  match exception i with None => true | Some _ => false end.

(** The aggregate that holds the entries [infos], added one by one. *)
Definition by_outcome (infos : list LibExportInfo) : ProjectExportInfo :=
  MkProjectExportInfo (filter succeeded infos)
    (filter (fun i => negb (succeeded i)) infos).

(** The libraries [Project.exportLibrary] hands to [Library.export], in the
    order of the calls: what the traversal of each dependency exports, then
    the library itself. *)
Fixpoint export_order (fnmatch : string -> string -> bool) (fuel : nat)
  (self : Project) (library : Library) (ignores : option (list string))
  (withDependencies : bool) : list Library :=
  match fuel with
  | O => []
  | S f =>
      (if withDependencies then
         match dependencies_of fnmatch self library ignores with
         | Ok deps =>
             flat_map (fun dep => export_order fnmatch f self dep ignores true) deps
         | _ => []
         end
       else []) ++ [library]
  end.

(** The texts of the entries of the list of a library manifest:
    [[obj.text for obj in self.files]]. *)
Definition entries_of (self : Library) : list (option string) :=
  match files self with
  | Ok (Some o) => map text (children o)
  | _ => []
  end.

(** [usedItems] in [Library.synchronize]: the texts of the entries of [o]
    that name an item of the directory. *)
Definition listed_names (o : element) (items : list string) : list string :=
  flat_map (fun obj => match text obj with
                       | Some t => if str_in t items then [t] else []
                       | None => []
                       end) (children o).

(** An item of the directory that [Library.synchronize] may list: no
    manifest and none of the folders of binaries. *)
Definition is_object (item : string) : bool :=
  negb (String.eqb (splitext_ext item) ".lby")
  && negb (str_in item ["SG4"; "SG3"; "SGC"]).

(** A name as a directory listing has it: no separator, not blank. *)
Definition plain_name (i : string) : Prop :=
  has_sep i = false /\ all_space i = false.

(** An element whose text indentation leaves alone: it has no children, or
    its text is not blank. *)
Definition steady (c : element) : Prop :=
  children c = [] \/ blank (text c) = false.

(** The list of a manifest is its only one: it is the [Objects] list, or
    there is no [Objects] list. *)
Definition sole_list (nsf : string) (self : Library) : Prop :=
  _xmlTag self = "Objects"
  \/ find_in nsf (root (lib_file self)) [L "Objects"] = None.

(** What a loop over a list leaves of it when it removes, from the list it
    walks, each element that satisfies [p]: the element that follows a
    removed one takes its place and is stepped over. *)
Fixpoint remove_skipping {A} (p : A -> bool) (l : list A) : list A :=
  match l with
  | [] => []
  | x :: r =>
      if p x then
        match r with
        | [] => []
        | y :: r' => y :: remove_skipping p r'
        end
      else x :: remove_skipping p r
  end.

(** No two consecutive elements satisfy [p]. *)
Fixpoint separate {A} (p : A -> bool) (l : list A) : Prop :=
  match l with
  | [] => True
  | x :: r =>
      match r with
      | [] => True
      | y :: _ => (p x = true -> p y = false) /\ separate p r
      end
  end.

(** An entry of the list [o] has the text [item]. *)
Definition listed (o : element) (item : string) : bool :=
  existsb (fun c => opt_eqb (text c) (Some item)) (children o).

(** The keys of [objsText] after the first loop of
    [Package.synchPackageFile] has walked [cs], none of them stale. *)
Definition add_keys (cs : list element) (objsText : list string) : list string :=
  fold_left (fun acc c => match text c with
                          | Some t => if str_in t acc then acc else acc ++ [t]
                          | None => acc
                          end) cs objsText.

(** An object of [Physical.pkg] that [_getConfigs] takes for a
    configuration: its [Type], in lower case, is ["configuration"]. *)
Definition is_configuration (o : element) : bool :=
  match get_str o "Type" "" with
  | PStr ty => String.eqb (lower ty) "configuration"
  | _ => false
  end.

(** ** Further example projects *)

(** [LibT] depends on [LibL] and [LibR], which both depend on [LibW]. *)
Definition libW : Library := lib_at libs_dir "LibW" ["w.c"] [].
Definition libL : Library := lib_at libs_dir "LibL" ["l.c"] ["LibW"].
Definition libR : Library := lib_at libs_dir "LibR" ["r.c"] ["LibW"].
Definition libT : Library := lib_at libs_dir "LibT" ["t.c"] ["LibL"; "LibR"].

Definition diamond_project : Project := project_with [libT; libL; libR; libW].

Definition diamond_disk : Disk :=
  MkDisk
    ([("/", Dir); ("/proj", Dir); ("/proj/Demo.apj", Data);
      ("/proj/Logical", Dir); (libs_dir, Dir)]
     ++ lib_files libT "t.c" ++ lib_files libL "l.c" ++ lib_files libR "r.c"
     ++ lib_files libW "w.c"
     ++ [("/proj/Physical", Dir);
         ("/proj/Physical/Physical.pkg", Xml physical_pkg);
         ("/proj/Temp", Dir); ("/out", Dir)])
    [] [] "".

(** A library whose manifest lists [a.c] and [gone.c], in a directory that
    holds [a.c], [new.c] and a folder of binaries. *)
Definition mixed_library : Library := lib_at "/m" "Lib" ["a.c"; "gone.c"] [].

Definition mixed_library_disk : Disk :=
  MkDisk [("/", Dir); ("/m", Dir); ("/m/Lib", Dir);
          ("/m/Lib/ANSIC.lby", Xml (root (lib_file mixed_library)));
          ("/m/Lib/a.c", Data); ("/m/Lib/new.c", Data); ("/m/Lib/SG4", Dir)]
    [] [] "".

(** A package whose manifest lists [a.var] twice in a row, then [b.var]. *)
Definition twice_pkg : element :=
  Element (pkg_ns ^^ "Package") [] None None
    [Element (pkg_ns ^^ "Objects") [] None None
       [object_entry pkg_ns "File" "a.var"; object_entry pkg_ns "File" "a.var";
        object_entry pkg_ns "File" "b.var"]].

Definition twice_disk : Disk :=
  MkDisk [("/", Dir); ("/p", Dir); ("/p/Package.pkg", Xml twice_pkg)] [] [] "".

Definition twice_package : xmlAsFile := XmlAsFile "/p/Package.pkg" twice_pkg.

(** The complete deployment table, beside a folder of libraries. *)
Definition deployment_disk : Disk :=
  MkDisk [("/", Dir); ("/c", Dir); ("/c/Cpu.sw", Xml full_table);
          ("/libs", Dir); ("/libs/LibX", Dir);
          ("/libs/LibX/ANSIC.lby", Xml (lib_tree [] []))]
    [] [] "".

(** The table after [LibX] is deployed, and the disk it leaves. *)
Definition library_deployed : xmlAsFile * Disk :=
  match deployLibrary full_table_file "/libs" "LibX" [] deployment_disk with
  | (Ok self, d) => (self, d)
  | (_, d) => (full_table_file, d)
  end.

(** The library after [synchronize], and the disk it leaves. *)
Definition mixed_library_synchronized : Library * Disk :=
  match synchronize mixed_library mixed_library_disk with
  | (Ok l, d) => (l, d)
  | (_, d) => (mixed_library, d)
  end.

(** The package after [synchPackageFile], and the disk it leaves. *)
Definition package_synchronized : xmlAsFile * Disk :=
  match synchPackageFile empty_package reference_disk with
  | (Ok p, d) => (p, d)
  | (_, d) => (empty_package, d)
  end.

(** A project with one configuration, on an ARM controller. *)
Definition configured_pkg : element :=
  Element (pkg_ns ^^ "Physical") [] None None
    [Element (pkg_ns ^^ "Objects") [] None None
       [object_entry pkg_ns "Configuration" "Config1";
        object_entry pkg_ns "File" "Notes.txt"]].

Definition configured_disk : Disk :=
  MkDisk [("/", Dir); ("/proj", Dir); ("/proj/Physical", Dir);
          ("/proj/Physical/Physical.pkg", Xml configured_pkg);
          ("/proj/Physical/Notes.txt", Data);
          ("/proj/Physical/Config1", Dir);
          ("/proj/Physical/Config1/Hardware.hw", Data);
          ("/proj/Physical/Config1/X20CP0484", Dir)]
    [] [] "".

(** The configuration of a controller. *)
Definition cpu_ns : string := "{http://br-automation.co.at/AS/Cpu}".

Definition cpu_tree : element :=
  Element (cpu_ns ^^ "Cpu") [] None None
    [Element (cpu_ns ^^ "Objects") [] None None [];
     Element (cpu_ns ^^ "Configuration") [("ModuleId", PStr "X20CP0484")] None None
       [Element (cpu_ns ^^ "AutomationRuntime") [("Version", PStr "G4.72")]
          None None [];
        Element (cpu_ns ^^ "Build") [("GccVersion", PStr "4.1.2")] None None []]].

Definition cpu_disk : Disk :=
  MkDisk [("/", Dir); ("/c", Dir); ("/c/Cpu.pkg", Xml cpu_tree)] [] [] "".

Definition cpu_config : CpuConfig :=
  MkCpuConfig (XmlAsFile "/c/Cpu.pkg" cpu_tree) (Some [1; 1]) (Some [1; 0]).

(** The configuration after the compiler version is set, and the disk that
    leaves. *)
Definition cpu_config_set : CpuConfig * Disk :=
  match setGccVersion cpu_config (PStr "6.3.0") cpu_disk with
  | (Ok c, d) => (c, d)
  | (_, d) => (cpu_config, d)
  end.


(** * Properties *)

(** ** Induction on element trees *)

Lemma element_induction (P : element -> Prop) :
  (forall t a x l cs, Forall P cs -> P (Element t a x l cs)) ->
  forall e, P e.
Proof.
  intros H.
  fix IH 1.
  intros [t a x l cs].
  apply H.
  induction cs as [|c r IHr]; constructor; [apply IH | exact IHr].
Qed.

(** ** Indentation keeps content *)

Lemma text_compat_refl x : text_compat x x.
Proof. now left. Qed.

Lemma retail_sim i a b : sim a b -> sim a (retail i b).
Proof.
  intros H. unfold retail. destruct (blank (tail b)); [|exact H].
  inversion H; subst. simpl. now constructor.
Qed.


Lemma retail_last_sim i cs cs' :
  Forall2 sim cs cs' -> Forall2 sim cs (retail_last i cs').
Proof.
  induction 1 as [|a b r r' Hab Hr IH]; simpl; [constructor|].
  destruct r' as [|b' r''].
  - inversion Hr; subst. constructor; [now apply retail_sim | constructor].
  - constructor; [exact Hab | exact IH].
Qed.

Lemma all_space_app s1 s2 :
  all_space s1 = true -> all_space s2 = true -> all_space (s1 ^^ s2) = true.
Proof.
  induction s1 as [|c s1 IH]; simpl; intros H1 H2; [exact H2|].
  apply andb_true_iff in H1 as [Hc H1]. rewrite Hc. simpl. now apply IH.
Qed.

Lemma all_space_spaces n : all_space (spaces n) = true.
Proof. induction n; simpl; auto. Qed.

Lemma all_space_indent_of n : all_space (indent_of n) = true.
Proof.
  unfold indent_of. apply all_space_app; [reflexivity | apply all_space_spaces].
Qed.

Lemma indentXml_leaf lvl t a x l :
  _indentXml lvl (Element t a x l []) =
  Element t a x
    (if negb (lvl =? 0) && blank l then Some (indent_of lvl) else l) [].
Proof. reflexivity. Qed.

Lemma indentXml_node lvl t a x l c r :
  _indentXml lvl (Element t a x l (c :: r)) =
  Element t a
    (if blank x then Some (indent_of lvl ^^ "  ") else x)
    (if blank l then Some (indent_of lvl) else l)
    (retail_last (indent_of lvl) (map (_indentXml (S lvl)) (c :: r))).
Proof. reflexivity. Qed.

Lemma indent_sim : forall e lvl, sim e (_indentXml lvl e).
Proof.
  induction e as [t a x l cs IH] using element_induction.
  intros lvl.
  destruct cs as [|c r].
  - rewrite indentXml_leaf.
    constructor; [apply text_compat_refl | reflexivity | constructor].
  - rewrite indentXml_node. constructor.
    + destruct (blank x) eqn:Hb; [|apply text_compat_refl].
      right. split; [exact Hb|].
      unfold blank. apply all_space_app; [apply all_space_indent_of | reflexivity].
    + discriminate.
    + apply retail_last_sim.
      remember (c :: r) as cs eqn:E. clear E.
      induction IH as [|c0 r0 Hc Hr IHr]; simpl; constructor; auto.
Qed.




Lemma sim_tag a b : sim a b -> tag a = tag b.
Proof. now inversion 1. Qed.

Lemma dict_get_set {V} k (v : V) l : dict_get k (dict_set k v l) = Some v.
Proof.
  induction l as [|[k' v'] r IH]; simpl.
  - now rewrite String.eqb_refl.
  - destruct (String.eqb k k') eqn:E; simpl; rewrite ?String.eqb_refl; auto.
    now rewrite E.
Qed.

Section Properties.

Context {FS : Type} {fsys : FileSystem FS}.


(** ** Base names *)

Lemma basename_cons c p :
  basename (String c p) = if has_sep (String c p) then basename p else String c p.
Proof. reflexivity. Qed.


Lemma basename_nosep n : has_sep n = false -> basename n = n.
Proof.
  destruct n as [|c n]; [reflexivity|].
  rewrite basename_cons. now intros ->.
Qed.

Lemma has_sep_app d n : has_sep (d ^^ n) = has_sep d || has_sep n.
Proof.
  induction d as [|c d IH]; [reflexivity|].
  simpl. rewrite IH. now rewrite orb_assoc.
Qed.

Lemma basename_app d n : has_sep n = false -> basename (d ^^ n) = basename d ^^ n.
Proof.
  intros Hn. induction d as [|c d IH]; [now apply basename_nosep|].
  change (String c d ^^ n) with (String c (d ^^ n)).
  rewrite !basename_cons.
  change (String c (d ^^ n)) with (String c d ^^ n).
  rewrite has_sep_app, Hn, orb_false_r.
  destruct (has_sep (String c d)); [exact IH | reflexivity].
Qed.

Lemma basename_after_sep d n : basename (d ^^ String sep n) = basename n.
Proof.
  induction d as [|c d IH].
  - change ("" ^^ String sep n) with (String sep n).
    rewrite basename_cons. reflexivity.
  - change (String c d ^^ String sep n) with (String c (d ^^ String sep n)).
    rewrite basename_cons.
    change (String c (d ^^ String sep n)) with (String c d ^^ String sep n).
    rewrite has_sep_app.
    replace (has_sep (String sep n)) with true by reflexivity.
    rewrite orb_true_r. exact IH.
Qed.

Lemma endswith_sep_basename d : endswith d "/" = true -> basename d = "".
Proof.
  unfold endswith. change (String.length "/") with 1.
  induction d as [|c d IH]; [discriminate|].
  intros H. apply andb_true_iff in H as [_ H].
  change (String.length (String c d)) with (S (String.length d)) in H.
  rewrite Nat.sub_succ, Nat.sub_0_r in H.
  destruct d as [|c' d'].
  - simpl in H. destruct (Ascii.eqb c "/") eqn:Ec; [|discriminate].
    apply Ascii.eqb_eq in Ec. subst c. reflexivity.
  - assert (Hd : basename (String c' d') = "").
    { apply IH. apply andb_true_iff. split; [reflexivity|].
      change (String.length (String c' d')) with (S (String.length d')).
      rewrite Nat.sub_succ, Nat.sub_0_r.
      change (String.length (String c' d')) with (S (String.length d')) in H.
      exact H. }
    assert (Hs : has_sep (String c' d') = true).
    { destruct (has_sep (String c' d')) eqn:E; [reflexivity|].
      rewrite (basename_nosep _ E) in Hd. discriminate. }
    rewrite basename_cons.
    replace (has_sep (String c (String c' d')))
      with (Ascii.eqb c sep || has_sep (String c' d')) by reflexivity.
    rewrite Hs, orb_true_r. exact Hd.
Qed.

Lemma basename_join d n : has_sep n = false -> basename (join d n) = n.
Proof.
  intros Hn. unfold join.
  destruct (startswith n "/") eqn:Es.
  - now apply basename_nosep.
  - destruct (String.eqb d "" || endswith d "/") eqn:E.
    + rewrite basename_app by exact Hn.
      apply orb_true_iff in E as [E|E].
      * apply String.eqb_eq in E. now subst d.
      * now rewrite (endswith_sep_basename _ E).
    + change ("/" ^^ n) with (String sep n).
      rewrite basename_after_sep. now apply basename_nosep.
Qed.

(** ** [Package.addObject] with [reference=True] *)

Lemma getPkgType_state p s r s' : getPkgType p s = (r, s') -> s' = s.
Proof.
  unfold getPkgType.
  repeat match goal with
         | |- context [if ?b then _ else _] => destruct b
         end; now inversion 1.
Qed.




(** ** [Library.export] and the batch *)

Variable fnmatch : string -> string -> bool.

Lemma addLibInfo_count acc info :
  length (success (addLibInfo acc info)) + length (failed (addLibInfo acc info))
  = S (length (success acc) + length (failed acc)).
Proof.
  unfold addLibInfo. destruct (exception info); simpl;
    rewrite length_app; simpl; lia.
Qed.

Lemma export_each_cons self dest ov bin iv lib rest acc s :
  export_each self dest ov bin iv (lib :: rest) acc s =
  match export_call self lib dest ov bin iv s with
  | (Ok info, s') => export_each self dest ov bin iv rest (addLibInfo acc info) s'
  | (Raise e, s') => (Raise e, s')
  | (OutOfFuel, s') => (OutOfFuel, s')
  end.
Proof.
  unfold export_each. simpl. unfold bind, ret.
  destruct (export_call self lib dest ov bin iv s) as [[info| |] s']; reflexivity.
Qed.

Lemma export_each_count self dest ov bin iv libs :
  forall acc s info s',
    export_each self dest ov bin iv libs acc s = (Ok info, s') ->
    length (success info) + length (failed info)
    = length libs + (length (success acc) + length (failed acc)).
Proof.
  induction libs as [|lib rest IH]; intros acc s info s' H.
  - unfold export_each in H. simpl in H. unfold ret in H. now inversion H.
  - rewrite export_each_cons in H.
    destruct (export_call self lib dest ov bin iv s) as [[i| |] s1]; try discriminate.
    apply IH in H. rewrite H, addLibInfo_count. simpl. lia.
Qed.

Lemma export_cases self dest buildFolder cfgs ov bin iv s :
  export self dest buildFolder cfgs ov bin iv s =
  let p := export_path self dest iv in
  match export_body self p buildFolder cfgs ov bin s with
  | (Ok _, s') => (Ok (MkLibExportInfo (name self) p None self), s')
  | (Raise e, s') =>
      if export_catches e
      then (Ok (MkLibExportInfo (name self) p (Some e) self), s')
      else (Raise e, s')
  | (OutOfFuel, s') => (OutOfFuel, s')
  end.
Proof.
  unfold export, export_path, try_except, bind, ret.
  destruct iv;
    match goal with
    | |- context [export_body ?a ?b ?c ?d ?e ?f s] =>
        destruct (export_body a b c d e f s) as [[[]| |] s']
    end; try reflexivity;
    destruct (export_catches e); reflexivity.
Qed.

(** C2, as the code has it. Of the exceptions raised inside the export
    sequence of one library, [FileNotFoundError] and [FileExistsError] are
    captured: [Library.export] returns an info that carries the exception,
    [addLibInfo] files it under [failed], and the batch goes on with the
    next library. Any other exception, such as the [Exception] that
    [_rmtreeOnError] raises for a writable path, leaves [Library.export] and
    ends the batch. *)
Theorem export_captures_not_found_and_exists :
  forall (self : Project) (lib : Library) (rest : list Library) (dest : string)
         (ov bin iv : bool) (acc : ProjectExportInfo) (s s1 s2 : FS)
         (cfgs : list BuildConfig) (e : exn),
    buildConfigs self s = (Ok cfgs, s1) ->
    export_body lib (export_path lib dest iv) (tempPath self) cfgs ov bin s1
    = (Raise e, s2) ->
    let info := MkLibExportInfo (name lib) (export_path lib dest iv) (Some e) lib in
    (e = FileNotFoundError \/ e = FileExistsError ->
       export lib dest (tempPath self) cfgs ov bin iv s1 = (Ok info, s2)
       /\ success (addLibInfo acc info) = success acc
       /\ failed (addLibInfo acc info) = failed acc ++ [info]
       /\ export_each self dest ov bin iv (lib :: rest) acc s
          = export_each self dest ov bin iv rest (addLibInfo acc info) s2)
    /\ (e <> FileNotFoundError /\ e <> FileExistsError ->
          export lib dest (tempPath self) cfgs ov bin iv s1 = (Raise e, s2)
          /\ export_each self dest ov bin iv (lib :: rest) acc s = (Raise e, s2)).
Proof.
  intros self lib rest dest ov bin iv acc s s1 s2 cfgs e Hcfg Hbody info.
  pose proof (export_cases lib dest (tempPath self) cfgs ov bin iv s1) as Hx.
  cbv zeta in Hx. rewrite Hbody in Hx.
  split.
  - intros He.
    assert (Hc : export_catches e = true) by (destruct He; subst e; reflexivity).
    rewrite Hc in Hx. fold info in Hx.
    split; [exact Hx|]. split; [reflexivity|]. split; [reflexivity|].
    rewrite export_each_cons. unfold export_call, bind at 1.
    rewrite Hcfg. now rewrite Hx.
  - intros [H1 H2].
    assert (Hc : export_catches e = false)
      by (destruct e; try reflexivity; congruence).
    rewrite Hc in Hx. split; [exact Hx|].
    rewrite export_each_cons. unfold export_call, bind at 1.
    rewrite Hcfg. now rewrite Hx.
Qed.

(** ** Resolution of dependency names *)

Lemma pyval_eqb_eq a b : pyval_eqb a b = true <-> a = b.
Proof.
  destruct a, b; simpl; split; intros H; try discriminate; try reflexivity.
  - apply String.eqb_eq in H. now subst.
  - inversion H. apply String.eqb_refl.
  - apply Bool.eqb_prop in H. now subst.
  - inversion H. apply Bool.eqb_reflx.
Qed.

Lemma getLibrariesByName_known self names :
  getLibrariesByName self names
  = getLibrariesByName self (filter (known self) names).
Proof.
  unfold getLibrariesByName. apply filter_ext_in. intros lib Hin.
  induction names as [|v r IH]; [reflexivity|].
  cbn [filter existsb]. destruct (known self v) eqn:Hk.
  - cbn [existsb]. now rewrite IH.
  - rewrite IH. destruct (pyval_eqb (PStr (name lib)) v) eqn:E; [|reflexivity].
    exfalso. unfold known in Hk.
    assert (Ht : existsb (fun l => pyval_eqb (PStr (name l)) v) (libraries self)
                 = true) by (apply existsb_exists; now exists lib).
    congruence.
Qed.

Lemma extend_init r : extend ProjectExportInfo_init r = r.
Proof. now destruct r. Qed.

Lemma exportLibrary_S f self library dest ov ign bin iv wd :
  exportLibrary fnmatch (S f) self library dest ov ign bin iv wd =
  (exportInfo <-
     (if wd then
        deps <- lift (dependencies_of fnmatch self library ign) ;;
        fold_m deps ProjectExportInfo_init
          (fun info dep =>
             result <- exportLibrary fnmatch f self dep dest ov ign bin iv true ;;
             ret (extend info result))
      else ret ProjectExportInfo_init) ;;
   result <- export_call self library dest ov bin iv ;;
   ret (addLibInfo exportInfo result)).
Proof. reflexivity. Qed.

Lemma exportLibrary_no_deps f self library dest ov ign bin iv s :
  dependencies_of fnmatch self library ign = Ok [] ->
  exportLibrary fnmatch (S f) self library dest ov ign bin iv true s
  = export_each self dest ov bin iv [library] ProjectExportInfo_init s.
Proof.
  intros H. rewrite exportLibrary_S. rewrite export_each_cons.
  unfold bind, lift, ret. rewrite H. simpl.
  destruct (export_call self library dest ov bin iv s) as [[i| |] s']; reflexivity.
Qed.

Lemma exportLibrary_without f self library dest ov ign bin iv s :
  exportLibrary fnmatch (S f) self library dest ov ign bin iv false s
  = export_each self dest ov bin iv [library] ProjectExportInfo_init s.
Proof.
  rewrite exportLibrary_S. rewrite export_each_cons.
  unfold bind, lift, ret.
  destruct (export_call self library dest ov bin iv s) as [[i| |] s']; reflexivity.
Qed.

(** C5, as the code has it. The names that survive the ignore filters are
    resolved by [getLibrariesByName], which keeps the discovered libraries
    whose name is listed: a name that no discovered library bears adds
    nothing and raises nothing. When none of the surviving names resolves,
    the export with dependencies is the export of the library alone, and a
    result it returns has one entry. *)
Theorem unresolved_dependency_skipped :
  forall (self : Project) (library : Library) (ign : option (list string))
         (n0 n1 names : list pyval),
    dependencyNames library = Ok n0 ->
    _checkIgnore fnmatch n0 ign = Ok n1 ->
    _checkIgnore fnmatch n1 (Some (cacheIgnore self)) = Ok names ->
    dependencies_of fnmatch self library ign
    = Ok (getLibrariesByName self (filter (known self) names))
    /\ ((forall v, In v names -> known self v = false) ->
        forall fuel dest ov bin iv s,
          exportLibrary fnmatch (S fuel) self library dest ov ign bin iv true s
          = export_each self dest ov bin iv [library] ProjectExportInfo_init s
          /\ forall info s',
               exportLibrary fnmatch (S fuel) self library dest ov ign bin iv true s
               = (Ok info, s') ->
               length (success info) + length (failed info) = 1).
Proof.
  intros self library ign n0 n1 names H0 H1 H2.
  assert (Hd : dependencies_of fnmatch self library ign
               = Ok (getLibrariesByName self (filter (known self) names))).
  { unfold dependencies_of. rewrite H0, H1, H2.
    now rewrite <- getLibrariesByName_known. }
  split; [exact Hd|].
  intros Hunk fuel dest ov bin iv s.
  assert (Hnil : filter (known self) names = []).
  { clear -Hunk. induction names as [|v r IH]; [reflexivity|].
    simpl. rewrite (Hunk v) by now left. apply IH.
    intros w Hw. apply Hunk. now right. }
  rewrite Hnil in Hd.
  assert (He : getLibrariesByName self [] = []).
  { unfold getLibrariesByName. induction (libraries self); simpl; auto. }
  rewrite He in Hd.
  split; [now apply exportLibrary_no_deps|].
  intros info s' H. rewrite (exportLibrary_no_deps _ _ _ _ _ _ _ _ _ Hd) in H.
  apply export_each_count in H. simpl in H. exact H.
Qed.

(** ** Export of a dependency chain *)

Lemma ignore_pass_keep pat names :
  (forall v, In v names -> exists n, v = PStr n /\ fnmatch n pat = false) ->
  ignore_pass fnmatch pat names = Ok names.
Proof.
  induction names as [|v r IH]; intros H; [reflexivity|].
  destruct (H v (or_introl eq_refl)) as (n & -> & Hn).
  simpl. rewrite IH, Hn; [reflexivity|].
  intros w Hw. apply H. now right.
Qed.

Lemma ignore_passes_keep pats names :
  (forall v, In v names ->
             exists n, v = PStr n /\ forall pat, In pat pats -> fnmatch n pat = false) ->
  ignore_passes fnmatch pats names = Ok names.
Proof.
  induction pats as [|pat r IH]; intros H; [reflexivity|].
  simpl. rewrite ignore_pass_keep.
  - apply IH. intros v Hv. destruct (H v Hv) as (n & -> & Hn).
    exists n. split; [reflexivity|]. intros p Hp. apply Hn. now right.
  - intros v Hv. destruct (H v Hv) as (n & -> & Hn).
    exists n. split; [reflexivity|]. apply Hn. now left.
Qed.

Lemma checkIgnore_keep self ign n :
  not_ignored fnmatch self ign n ->
  _checkIgnore fnmatch [PStr n] ign = Ok [PStr n]
  /\ _checkIgnore fnmatch [PStr n] (Some (cacheIgnore self)) = Ok [PStr n].
Proof.
  intros [Hc Hi]. split.
  - destruct ign as [l|]; [|reflexivity]. simpl.
    apply ignore_passes_keep. intros v [<-|[]].
    exists n. split; [reflexivity|]. intros pat Hp. now apply (Hi l).
  - simpl. apply ignore_passes_keep. intros v [<-|[]].
    exists n. split; [reflexivity|]. exact Hc.
Qed.

Lemma filter_none {A} (f : A -> bool) (l : list A) :
  (forall x, In x l -> f x = false) -> filter f l = [].
Proof.
  induction l as [|a r IH]; intros H; [reflexivity|].
  simpl. rewrite (H a) by now left. apply IH. intros x Hx. apply H. now right.
Qed.

Lemma filter_unique {A} (f : A -> bool) (l : list A) (y : A) :
  NoDup l -> In y l -> f y = true ->
  (forall x, In x l -> f x = true -> x = y) ->
  filter f l = [y].
Proof.
  induction l as [|a r IH]; intros Hnd Hin Hy Hu; [contradiction|].
  inversion Hnd as [|? ? Hnotin Hnd']; subst.
  simpl. destruct (f a) eqn:Ea.
  - assert (a = y) by (apply Hu; [now left | exact Ea]). subst a.
    f_equal. apply filter_none. intros x Hx.
    destruct (f x) eqn:Ex; [|reflexivity].
    exfalso. apply Hnotin.
    assert (x = y) by (apply Hu; [now right | exact Ex]). now subst x.
  - destruct Hin as [->|Hin]; [congruence|].
    apply IH; auto. intros x Hx. apply Hu. now right.
Qed.

Lemma unique_by_name (libs : list Library) (Y : Library) :
  NoDup (map name libs) -> In Y libs ->
  filter (fun lib => existsb (pyval_eqb (PStr (name lib))) [PStr (name Y)]) libs
  = [Y].
Proof.
  intros Hnd Hin. apply filter_unique.
  - now apply NoDup_map_inv in Hnd.
  - exact Hin.
  - cbn [existsb]. rewrite orb_false_r. now apply pyval_eqb_eq.
  - intros x Hx Hfx. cbn [existsb] in Hfx. rewrite orb_false_r in Hfx.
    apply pyval_eqb_eq in Hfx. inversion Hfx as [En].
    clear Hfx. induction libs as [|l r IH]; [contradiction|].
    inversion Hnd as [|? ? Hnotin Hnd']; subst.
    destruct Hx as [->|Hx], Hin as [->|Hin]; auto.
    + exfalso. apply Hnotin. rewrite En. now apply in_map.
    + exfalso. apply Hnotin. rewrite <- En. now apply in_map.
Qed.

Lemma dependencies_of_single self L D ign :
  dependencyNames L = Ok [PStr (name D)] ->
  not_ignored fnmatch self ign (name D) ->
  NoDup (map name (libraries self)) -> In D (libraries self) ->
  dependencies_of fnmatch self L ign = Ok [D].
Proof.
  intros Hn Hi Hnd Hin. unfold dependencies_of. rewrite Hn.
  destruct (checkIgnore_keep self ign (name D) Hi) as [H1 H2].
  rewrite H1, H2. unfold getLibrariesByName. now rewrite unique_by_name.
Qed.

Lemma dependencies_of_none self L ign :
  dependencyNames L = Ok [] ->
  dependencies_of fnmatch self L ign = Ok [].
Proof.
  intros Hn. unfold dependencies_of. rewrite Hn.
  destruct ign; simpl.
  - assert (H : forall l, ignore_passes fnmatch l [] = Ok [])
      by (induction l0; simpl; auto).
    rewrite !H. unfold getLibrariesByName.
    induction (libraries self); simpl; auto.
  - assert (H : forall l, ignore_passes fnmatch l [] = Ok [])
      by (induction l; simpl; auto).
    rewrite H. unfold getLibrariesByName.
    induction (libraries self); simpl; auto.
Qed.

Lemma export_each_app self dest ov bin iv l1 l2 :
  forall acc s,
    export_each self dest ov bin iv (l1 ++ l2) acc s =
    match export_each self dest ov bin iv l1 acc s with
    | (Ok info, s') => export_each self dest ov bin iv l2 info s'
    | (Raise e, s') => (Raise e, s')
    | (OutOfFuel, s') => (OutOfFuel, s')
    end.
Proof.
  induction l1 as [|x r IH]; intros acc s; [reflexivity|].
  change ((x :: r) ++ l2) with (x :: (r ++ l2)).
  rewrite !export_each_cons.
  destruct (export_call self x dest ov bin iv s) as [[i| |] s1]; auto.
Qed.

Lemma exportLibrary_one_dep f self L D ds dest ov ign bin iv :
  dependencies_of fnmatch self L ign = Ok [D] ->
  (forall s, exportLibrary fnmatch f self D dest ov ign bin iv true s
             = export_each self dest ov bin iv ds ProjectExportInfo_init s) ->
  forall s, exportLibrary fnmatch (S f) self L dest ov ign bin iv true s
            = export_each self dest ov bin iv (ds ++ [L]) ProjectExportInfo_init s.
Proof.
  intros Hd HD s. rewrite exportLibrary_S, export_each_app.
  unfold bind at 1. unfold bind at 1, lift. rewrite Hd.
  cbn [fold_m]. unfold bind at 1. unfold bind at 1. rewrite HD.
  destruct (export_each self dest ov bin iv ds ProjectExportInfo_init s)
    as [[info| |] s1]; try reflexivity.
  unfold ret at 1. unfold ret at 1. rewrite extend_init.
  rewrite export_each_cons. unfold bind, ret.
  destruct (export_call self L dest ov bin iv s1) as [[i| |] s2]; reflexivity.
Qed.

(** C3. [X] declares [Y], [Y] declares [Z], [Z] declares nothing; the three
    are discovered, no two discovered libraries share a name, and neither
    name is ignored. Then, at any depth bound of three or more,
    [exportLibrary(X, withDependencies=True)] is the export of [Z], then of
    [Y], then of [X], each from the state the one before left, and an
    aggregate it returns has exactly three entries. *)
Theorem exportLibrary_chain_order :
  forall (self : Project) (X Y Z : Library) (ign : option (list string)),
    dependencyNames X = Ok [PStr (name Y)] ->
    dependencyNames Y = Ok [PStr (name Z)] ->
    dependencyNames Z = Ok [] ->
    In X (libraries self) -> In Y (libraries self) -> In Z (libraries self) ->
    NoDup (map name (libraries self)) ->
    not_ignored fnmatch self ign (name Y) ->
    not_ignored fnmatch self ign (name Z) ->
    forall fuel dest ov bin iv s,
      exportLibrary fnmatch (3 + fuel) self X dest ov ign bin iv true s
      = export_each self dest ov bin iv [Z; Y; X] ProjectExportInfo_init s
      /\ forall info s',
           exportLibrary fnmatch (3 + fuel) self X dest ov ign bin iv true s
           = (Ok info, s') ->
           length (success info) + length (failed info) = 3.
Proof.
  intros self X Y Z ign HX HY HZ InX InY InZ Hnd HiY HiZ fuel dest ov bin iv s.
  assert (Heq : forall s0,
             exportLibrary fnmatch (3 + fuel) self X dest ov ign bin iv true s0
             = export_each self dest ov bin iv [Z; Y; X] ProjectExportInfo_init s0).
  { change [Z; Y; X] with (([Z] ++ [Y]) ++ [X]).
    change (3 + fuel) with (S (S (S fuel))).
    apply exportLibrary_one_dep with (D := Y);
      [now apply dependencies_of_single|].
    apply exportLibrary_one_dep with (D := Z) (ds := [Z]);
      [now apply dependencies_of_single|].
    intros s0. apply exportLibrary_no_deps. now apply dependencies_of_none. }
  split; [apply Heq|].
  intros info s' H. rewrite Heq in H. apply export_each_count in H.
  simpl in H. exact H.
Qed.

(** ** Cycles *)







(** ** Queries on trees of the same content *)

Lemma find_in_single nsf t lv :
  find_in nsf t [lv] = List.find (matches nsf lv) (children t).
Proof.
  unfold find_in, findall_in. simpl. rewrite app_nil_r.
  induction (children t) as [|c r IH]; [reflexivity|].
  simpl. destruct (matches nsf lv c); [reflexivity | exact IH].
Qed.

Lemma matches_sim nsf lv a b : sim a b -> matches nsf lv a = matches nsf lv b.
Proof. inversion 1; subst. reflexivity. Qed.

Lemma sim_children a b : sim a b -> Forall2 sim (children a) (children b).
Proof. inversion 1; subst. assumption. Qed.

Lemma find_sim nsf lv t t' c :
  sim t t' -> find_in nsf t [lv] = Some c ->
  exists c', find_in nsf t' [lv] = Some c' /\ sim c c'.
Proof.
  intros Hs. rewrite !find_in_single.
  apply sim_children in Hs.
  induction Hs as [|a b r r' Hab Hr IH]; [discriminate|].
  simpl. rewrite <- (matches_sim nsf lv a b Hab).
  destruct (matches nsf lv a).
  - intros H. inversion H; subst. now exists b.
  - exact IH.
Qed.

Lemma find_update_found nsf lv f t c :
  find_in nsf t [lv] = Some c ->
  matches nsf lv (f c) = true ->
  find_in nsf (update_found nsf lv f t) [lv] = Some (f c).
Proof.
  rewrite !find_in_single. unfold update_found.
  destruct t as [tg a x l cs]. simpl.
  induction cs as [|d r IH]; [discriminate|].
  simpl. destruct (matches nsf lv d) eqn:E.
  - intros H Hm. inversion H; subst. simpl. now rewrite Hm.
  - intros H Hm. simpl. rewrite E. now apply IH.
Qed.

Lemma matches_append nsf lv e c : matches nsf lv (append e c) = matches nsf lv c.
Proof. now destruct c. Qed.

Lemma Forall2_sim_snoc l e k :
  Forall2 sim (l ++ [e]) k ->
  exists k0 e', k = k0 ++ [e'] /\ Forall2 sim l k0 /\ sim e e'.
Proof.
  revert k. induction l as [|a r IH]; intros k H.
  - inversion H as [|? b ? r' Hab Hr]; subst. inversion Hr; subst.
    exists [], b. repeat split; [constructor | exact Hab].
  - inversion H as [|? b ? r' Hab Hr]; subst.
    destruct (IH _ Hr) as (k0 & e' & -> & Hk & He).
    exists (b :: k0), e'. repeat split; [now constructor | exact He].
Qed.

(** ** [SwDeploymentTable.deployTask] *)

Lemma deployTask_unfold self taskFolder :
  deployTask self taskFolder "VeryLongTaskName123" "Cyclic#3" =
  (let tcl := Lp "TaskClass" "Name" "Cyclic#3" in
   tc <- lift (find self [tcl]) ;;
   pre <- lift (find self [tcl; Lp "Task" "Name" "VeryLongTa"]) ;;
   match pre with
   | Some _ => ret self
   | None =>
       elem <- _createTaskElement taskFolder "VeryLongTaskName123" ;;
       match tc with
       | None => raise AttributeError
       | Some _ =>
           nsf <- lift (nameSpaceFormatted self) ;;
           write (XmlAsFile (path self)
                    (update_found nsf tcl (append elem) (root self)))
       end
   end).
Proof. reflexivity. Qed.

(** C8, as the code has it. Deploying the task named
    ["VeryLongTaskName123"] to the class ["Cyclic#3"], with no task of the
    truncated name there yet, appends one element to the [TaskClass] node
    whose [Name] is ['Cyclic#3']: a [Task] whose [Name] attribute is the
    first ten characters of the task name, ["VeryLongTa"]. The children the
    node had keep their content and their order. *)
Theorem deployTask_truncates_name :
  forall (self self' : xmlAsFile) (taskFolder : string) (s s' : FS),
    find self [Lp "TaskClass" "Name" "Cyclic#3"; Lp "Task" "Name" "VeryLongTa"]
    = Ok None ->
    deployTask self taskFolder "VeryLongTaskName123" "Cyclic#3" s = (Ok self', s') ->
    exists tc tc' kids language tl,
      find self [Lp "TaskClass" "Name" "Cyclic#3"] = Ok (Some tc)
      /\ find self' [Lp "TaskClass" "Name" "Cyclic#3"] = Ok (Some tc')
      /\ Forall2 sim (children tc) kids
      /\ children tc'
         = kids ++ [Element "Task"
                      [("Name", PStr "VeryLongTa");
                       ("Source",
                        PStr (join_with "."
                                (split_on sep (normpath taskFolder)
                                 ++ ["VeryLongTaskName123"; "prg"])));
                       ("Memory", PStr "UserROM");
                       ("Language", language);
                       ("Debugging", PStr "true")]
                      None tl []].
Proof.
  intros self self' taskFolder s s' Hpre H.
  rewrite deployTask_unfold in H.
  unfold bind at 1, lift at 1 in H.
  destruct (find self [Lp "TaskClass" "Name" "Cyclic#3"]) as [tco| |] eqn:Htc;
    try discriminate.
  unfold bind at 1, lift at 1 in H. rewrite Hpre in H.
  unfold bind at 1 in H.
  destruct (_createTaskElement taskFolder "VeryLongTaskName123" s)
    as [[elem| |] s1] eqn:Hel; try discriminate.
  destruct tco as [tc|]; [|discriminate].
  unfold bind at 1, lift at 1 in H.
  destruct (nameSpaceFormatted self) as [nsf| |] eqn:Hnsf; try discriminate.
  (* the element that was built *)
  unfold _createTaskElement, bind in Hel.
  destruct (Task_init (join (join "Logical" taskFolder) "VeryLongTaskName123") s)
    as [[[language|]| |] s0]; try discriminate.
  unfold ret in Hel. inversion Hel; subst elem s0. clear Hel.
  change (take_str 10 "VeryLongTaskName123") with "VeryLongTa" in *.
  (* the write *)
  unfold write, bind, lift, ret in H. simpl root in H. simpl path in H.
  match type of H with
  | context [_getASNamespace ?t] =>
      destruct (_getASNamespace t) as [ns| |] eqn:Hns; try discriminate
  end.
  destruct (ET_register_namespace ns s1) as [[[]| |] s2]; try discriminate.
  match type of H with
  | context [ET_write ?a ?b s2] =>
      destruct (ET_write a b s2) as [[[]| |] s3]; try discriminate
  end.
  inversion H; subst self' s3. clear H.
  unfold find in Htc. rewrite Hnsf in Htc. inversion Htc as [Htc']. clear Htc.
  set (tcl := Lp "TaskClass" "Name" "Cyclic#3") in *.
  set (elem := Element "Task" _ None (Some newline) []).
  pose proof (find_update_found nsf tcl (append elem) (root self) tc Htc') as Hup.
  rewrite matches_append in Hup.
  assert (Hm : matches nsf tcl tc = true).
  { rewrite find_in_single in Htc'. now apply find_some in Htc'. }
  specialize (Hup Hm).
  destruct (find_sim nsf tcl _ _ _ (indent_sim _ 0) Hup) as (tc' & Hf' & Hs').
  apply sim_children in Hs'.
  replace (children (append elem tc)) with (children tc ++ [elem]) in Hs'
    by now destruct tc.
  destruct (Forall2_sim_snoc _ _ _ Hs') as (kids & e' & Hk & Hkids & He).
  inversion He as [t a x x' l l' cs cs' Hx Hleaf Hcs]; subst.
  inversion Hcs; subst. rewrite <- (Hleaf eq_refl) in Hk.
  exists tc, tc', kids, language, l'.
  split; [now rewrite Htc'|].
  split.
  - unfold find, nameSpaceFormatted, _getASNamespaceFormatted. simpl root.
    unfold nameSpaceFormatted, _getASNamespaceFormatted in Hnsf.
    assert (Ht : _getASNamespace
                   (_indentXml 0 (update_found nsf tcl (append elem) (root self)))
                 = _getASNamespace (root self)).
    { unfold _getASNamespace.
      rewrite <- (sim_tag _ _ (indent_sim _ 0)).
      unfold update_found. now destruct (root self). }
    rewrite Ht.
    destruct (_getASNamespace (root self)); try discriminate.
    inversion Hnsf; subst nsf. now rewrite Hf'.
  - split; [exact Hkids | exact Hk].
Qed.

(** ** [SwDeploymentTable.__init__] *)

Lemma write_inv (self self' : xmlAsFile) (s s' : FS) :
  write self s = (Ok self', s') ->
  exists ns s1,
    _getASNamespace (root self) = Ok ns
    /\ ET_register_namespace ns s = (Ok tt, s1)
    /\ ET_write (path self) (_indentXml 0 (root self)) s1 = (Ok tt, s')
    /\ self' = XmlAsFile (path self) (_indentXml 0 (root self)).
Proof.
  unfold write, bind, lift, ret. intros H.
  destruct (_getASNamespace (root self)) as [ns| |]; try discriminate.
  destruct (ET_register_namespace ns s) as [[[]| |] s1] eqn:Hreg; try discriminate.
  destruct (ET_write (path self) (_indentXml 0 (root self)) s1)
    as [[[]| |] s2] eqn:Hw; try discriminate.
  inversion H; subst. now exists ns, s1.
Qed.

Lemma read_inv p (s s' : FS) self :
  read p s = (Ok self, s') ->
  exists t, ET_parse p s = (Ok t, s') /\ self = XmlAsFile p t.
Proof.
  unfold read, bind, ask, ret. intros H.
  destruct (negb (os_path_exists p s)); [discriminate|].
  destruct (ET_parse p s) as [[t| |] s1]; try discriminate.
  inversion H; subst. now exists t.
Qed.

Lemma startswith_refl_app a b : startswith (a ^^ b) a = true.
Proof.
  induction a as [|c a IH]; [now destruct b|].
  simpl. now rewrite Ascii.eqb_refl.
Qed.

Lemma format_ns_shape ns :
  format_ns ns = "" \/ startswith (format_ns ns) "{" = true.
Proof. unfold format_ns. destruct (String.eqb ns ""); [now left | right].
  simpl. now destruct (ns ^^ "}").
Qed.

Lemma startswith_app_l a b p :
  startswith a p = true -> startswith (a ^^ b) p = true.
Proof.
  revert a. induction p as [|c p IH]; intros a H; [now destruct (a ^^ b)|].
  destruct a as [|d a]; [discriminate|].
  simpl in *. apply andb_true_iff in H as [H1 H2]. rewrite H1. simpl. now apply IH.
Qed.

Lemma qualify_qualified nsf x :
  nsf = "" \/ startswith nsf "{" = true -> qualify nsf (nsf ^^ x) = nsf ^^ x.
Proof.
  intros [->|H]; unfold qualify.
  - simpl. now destruct (startswith x "{").
  - now rewrite (startswith_app_l _ x _ H).
Qed.

Lemma matches_qmatches ns lv e :
  matches (format_ns ns) lv e = true -> qmatches (format_ns ns) lv e = true.
Proof.
  unfold qmatches, matches. destruct e as [t a x l cs]. simpl.
  intros H. apply andb_true_iff in H as [Ht Hp].
  apply String.eqb_eq in Ht. subst t.
  rewrite qualify_qualified by apply format_ns_shape.
  now rewrite String.eqb_refl.
Qed.

Lemma qmatches_sim nsf lv a b : sim a b -> qmatches nsf lv a = qmatches nsf lv b.
Proof. inversion 1; subst. reflexivity. Qed.

Lemma existsb_sim (f : element -> bool) l l' :
  (forall a b, sim a b -> f a = f b) ->
  Forall2 sim l l' -> existsb f l = existsb f l'.
Proof.
  intros Hf. induction 1 as [|a b r r' Hab Hr IH]; [reflexivity|].
  simpl. now rewrite (Hf a b Hab), IH.
Qed.

Lemma hasq_indent nsf lv t :
  existsb (qmatches nsf lv) (children (_indentXml 0 t))
  = existsb (qmatches nsf lv) (children t).
Proof.
  symmetry. apply existsb_sim; [apply qmatches_sim|].
  apply sim_children, indent_sim.
Qed.

Lemma existsb_insert {A} (f : A -> bool) i x l :
  existsb f (firstn i l ++ x :: skipn i l) = f x || existsb f l.
Proof.
  rewrite <- (firstn_skipn i l) at 3.
  rewrite !existsb_app. simpl.
  destruct (existsb f (firstn i l)), (f x), (existsb f (skipn i l)); reflexivity.
Qed.

Lemma children_insert i e t :
  children (insert i e t) = firstn i (children t) ++ e :: skipn i (children t).
Proof. now destruct t. Qed.

Lemma children_append e t : children (append e t) = children t ++ [e].
Proof. now destruct t. Qed.

Lemma find_some_exists nsf t lv :
  (exists c, find_in nsf t [lv] = Some c)
  <-> existsb (matches nsf lv) (children t) = true.
Proof.
  rewrite find_in_single. split.
  - intros [c Hc]. apply find_some in Hc as [Hin Hm].
    apply existsb_exists. now exists c.
  - intros H. apply existsb_exists in H as (c & Hin & Hm).
    destruct (List.find (matches nsf lv) (children t)) eqn:E; [eauto|].
    exfalso. pose proof (find_none _ _ E c Hin). congruence.
Qed.

Lemma tracked_incl p ns done done' t (s : FS) :
  incl done' done -> tracked p ns done t s -> tracked p ns done' t s.
Proof.
  intros Hi [Hq Hd]. split; [intros lv Hlv; apply Hq, Hi, Hlv|].
  destruct Hd as [[Hp Hm]|Hw]; [left|now right].
  split; [exact Hp|]. intros lv Hlv. apply Hm, Hi, Hlv.
Qed.

Lemma existsb_impl {A} (f g : A -> bool) l :
  (forall x, f x = true -> g x = true) -> existsb f l = true -> existsb g l = true.
Proof.
  intros H Hf. apply existsb_exists in Hf as (x & Hin & Hx).
  apply existsb_exists. exists x. auto.
Qed.

Lemma namespace_same_tag a b :
  tag a = tag b -> _getASNamespace a = _getASNamespace b.
Proof. unfold _getASNamespace. now intros ->. Qed.

Lemma add_if_absent p ns done lv nm index attrs (self self' : xmlAsFile) (s s' : FS) :
  reads_back ->
  path self = p ->
  _getASNamespace (root self) = Ok ns ->
  qmatches (format_ns ns) lv (Element nm attrs None (Some newline) []) = true ->
  tracked p ns done (root self) s ->
  ensure_node self lv nm index attrs s = (Ok self', s') ->
  path self' = p /\ _getASNamespace (root self') = Ok ns
  /\ tracked p ns (lv :: done) (root self') s'.
Proof.
  intros [_ Hwp] Hpath Hns Hel [Hq Hd] H.
  unfold ensure_node, bind, lift in H. unfold find, nameSpaceFormatted, _getASNamespaceFormatted in H.
  rewrite Hns in H.
  destruct (find_in (format_ns ns) (root self) [lv]) as [c|] eqn:Hf.
  - unfold ret in H. inversion H; subst self' s'. clear H.
    assert (Hm : existsb (matches (format_ns ns) lv) (children (root self)) = true)
      by (apply find_some_exists; eauto).
    repeat split; auto.
    + intros lv' [<-|Hin]; [|now apply Hq].
      eapply existsb_impl; [apply matches_qmatches | exact Hm].
    + destruct Hd as [[Hp Hmm]|Hw]; [left|now right].
      split; [exact Hp|]. intros lv' [<-|Hin]; [exact Hm | now apply Hmm].
  - unfold _addRootLevelElement in H.
    apply write_inv in H as (ns' & s1 & Hns' & Hreg & Hwr & ->).
    simpl root in *. simpl path in *.
    set (elem := Element nm attrs None (Some newline) []) in *.
    set (t' := match index with
               | Some i => insert i elem (root self)
               | None => append elem (root self)
               end) in *.
    assert (Htag : tag t' = tag (root self))
      by (unfold t'; destruct index; now destruct (root self)).
    assert (Hns2 : _getASNamespace t' = Ok ns)
      by now rewrite (namespace_same_tag _ _ Htag).
    rewrite Hns2 in Hns'. inversion Hns'; subst ns'.
    split; [exact Hpath|]. split.
    { rewrite <- Hns2. apply namespace_same_tag.
      symmetry. apply sim_tag, indent_sim. }
    split.
    + intros lv' Hin. rewrite hasq_indent.
      assert (Hc : existsb (qmatches (format_ns ns) lv') (children t')
                   = qmatches (format_ns ns) lv' elem
                     || existsb (qmatches (format_ns ns) lv') (children (root self))).
      { unfold t'. destruct index.
        - rewrite children_insert. apply existsb_insert.
        - rewrite children_append, existsb_app. simpl.
          rewrite orb_false_r. apply orb_comm. }
      rewrite Hc. destruct Hin as [<-|Hin]; [now rewrite Hel|].
      rewrite (Hq _ Hin). apply orb_true_r.
    + right. intros T s3 HT. rewrite Hpath in Hwr.
      exact (Hwp _ _ _ _ _ _ _ _ Hreg Hwr HT).
Qed.

Lemma task_class_elem nsf n :
  qmatches nsf (task_class n)
    (Element "TaskClass" [("Name", PStr (cyclic n))] None (Some newline) []) = true.
Proof.
  unfold qmatches, matches, task_class, Lp, get.
  cbn [tag set_tag lv_tag lv_pred attrib].
  change (qualify nsf "TaskClass") with (nsf ^^ "TaskClass").
  rewrite String.eqb_refl.
  change (dict_get "Name" [("Name", PStr (cyclic n))]) with (Some (PStr (cyclic n))).
  cbn [pyval_eqb andb]. apply String.eqb_refl.
Qed.

Lemma add_task_classes_S n i (self : xmlAsFile) (s : FS) :
  add_task_classes (S n) i self s
  = (self' <- ensure_node self (task_class (S i)) "TaskClass" (Some i)
                [("Name", PStr (cyclic (S i)))] ;;
     add_task_classes n (S i) self') s.
Proof.
  cbn [add_task_classes]. rewrite Nat.add_1_r.
  unfold ensure_node, task_class, bind.
  destruct (lift (find self [Lp "TaskClass" "Name" (cyclic (S i))]) s)
    as [[tc| |] s0]; reflexivity.
Qed.

Lemma add_task_classes_tracked p ns n :
  reads_back ->
  forall i done (self self' : xmlAsFile) (s s' : FS),
    path self = p ->
    _getASNamespace (root self) = Ok ns ->
    tracked p ns done (root self) s ->
    add_task_classes n i self s = (Ok self', s') ->
    path self' = p /\ _getASNamespace (root self') = Ok ns
    /\ tracked p ns (map task_class (seq (S i) n) ++ done) (root self') s'.
Proof.
  intros Hrb. induction n as [|n IH]; intros i done self self' s s' Hp Hns Ht H.
  - simpl in H. unfold ret in H. inversion H; subst. auto.
  - rewrite add_task_classes_S in H. unfold bind at 1 in H.
    destruct (ensure_node self (task_class (S i)) "TaskClass" (Some i)
                [("Name", PStr (cyclic (S i)))] s) as [[self1| |] s1] eqn:E;
      try discriminate.
    destruct (add_if_absent p ns done _ _ _ _ self self1 s s1
                Hrb Hp Hns (task_class_elem _ _) Ht E) as (Hp1 & Hns1 & Ht1).
    destruct (IH (S i) _ self1 self' s1 s' Hp1 Hns1 Ht1 H) as (Hp2 & Hns2 & Ht2).
    split; [exact Hp2|]. split; [exact Hns2|].
    eapply tracked_incl; [|exact Ht2].
    intros lv Hin. cbn [seq map app] in Hin.
    apply in_or_app. destruct Hin as [<-|Hin].
    + right. now left.
    + apply in_app_or in Hin as [Hin|Hin]; [now left | right; now right].
Qed.

Lemma SwDeploymentTable_init_unfold p (s : FS) :
  SwDeploymentTable_init p s =
  (isf <- ask (os_path_isfile p) ;;
   if isf then
     self <- read p ;;
     self <- add_task_classes 8 0 self ;;
     self <- ensure_node self (L "Libraries") "Libraries" None [] ;;
     self <- read (path self) ;;
     ret (Some self)
   else ret None) s.
Proof.
  unfold SwDeploymentTable_init, xmlAsFile_init, ensure_node, bind, ask.
  destruct (os_path_isfile p s); [|reflexivity].
  destruct (read p s) as [[self0| |] s1]; try reflexivity.
  destruct (add_task_classes 8 0 self0 s1) as [[self8| |] s8]; try reflexivity.
  destruct (lift (find self8 [L "Libraries"]) s8) as [[lib| |] s9]; reflexivity.
Qed.

Lemma namespace_never_out_of_fuel t : _getASNamespace t <> OutOfFuel.
Proof.
  unfold _getASNamespace. destruct (tag t) as [|c r]; [discriminate|].
  destruct (Ascii.eqb c "{"); discriminate.
Qed.

Lemma ensure_node_needs_namespace (self : xmlAsFile) lv nm index attrs (s : FS) :
  is_ok (fst (ensure_node self lv nm index attrs s)) = true ->
  exists ns, _getASNamespace (root self) = Ok ns.
Proof.
  unfold ensure_node, bind, lift, find, nameSpaceFormatted, _getASNamespaceFormatted.
  destruct (_getASNamespace (root self)) as [ns| |]; [eauto | discriminate..].
Qed.

Lemma before_char_prefix c r :
  has_char c r = true -> startswith r (before_char c r ^^ String c "") = true.
Proof.
  induction r as [|a r IH]; [discriminate|].
  simpl. destruct (Ascii.eqb a c) eqn:E.
  - intros _. apply Ascii.eqb_eq in E. subst a. simpl.
    rewrite Ascii.eqb_refl. now destruct r.
  - simpl. intros H. rewrite Ascii.eqb_refl. simpl. now apply IH.
Qed.

Lemma namespace_prefix t ns :
  _getASNamespace t = Ok ns -> ns <> "" -> closed_tag (tag t) ->
  startswith (tag t) "{" = true /\ startswith (tag t) (format_ns ns) = true.
Proof.
  unfold _getASNamespace, closed_tag, format_ns.
  destruct (tag t) as [|c r]; [discriminate|].
  destruct (Ascii.eqb c "{") eqn:E; intros H Hne Hc; inversion H; subst ns.
  - apply Ascii.eqb_eq in E. subst c.
    destruct (String.eqb (before_char "}" r) "") eqn:E0.
    { apply String.eqb_eq in E0. congruence. }
    split; [simpl; now destruct r|].
    change ("{" ^^ before_char "}" r ^^ "}")
      with (String "{" (before_char "}" r ^^ "}")).
    cbn [startswith]. rewrite Ascii.eqb_refl. simpl andb.
    apply before_char_prefix. now apply Hc.
  - congruence.
Qed.

Lemma reparse_elem_matches nsf lv c :
  matches nsf lv (reparse_elem nsf c) = qmatches nsf lv c.
Proof. destruct c. reflexivity. Qed.

Lemma reparse_children nsf t :
  children (set_tail None (reparse_elem nsf t))
  = map (reparse_elem nsf) (children t).
Proof. destruct t. reflexivity. Qed.

Lemma reparse_tag nsf t : tag (set_tail None (reparse_elem nsf t)) = qualify nsf (tag t).
Proof. destruct t. reflexivity. Qed.

Lemma qualify_empty t : qualify "" t = t.
Proof. unfold qualify. now destruct (startswith t "{"). Qed.

Lemma existsb_map_comp {A B} (f : B -> bool) (g : A -> B) l :
  existsb f (map g l) = existsb (fun x => f (g x)) l.
Proof. induction l as [|a r IH]; simpl; [reflexivity | now rewrite IH]. Qed.

Lemma existsb_same {A} (f g : A -> bool) l :
  (forall x, f x = g x) -> existsb f l = existsb g l.
Proof. intros H. induction l as [|a r IH]; simpl; [reflexivity | now rewrite H, IH]. Qed.

Lemma reparse_found t ns lv :
  _getASNamespace t = Ok ns ->
  closed_tag (tag (reparse ns t)) ->
  existsb (qmatches (format_ns ns) lv) (children t) = true ->
  _getASNamespace (reparse ns t) = Ok ns
  /\ existsb (matches (format_ns ns) lv) (children (reparse ns t)) = true.
Proof.
  intros Hns Hc Hq. unfold reparse in *.
  destruct (String.eqb ns "") eqn:E0.
  - apply String.eqb_eq in E0. subst ns. simpl negb in *. simpl andb in *.
    cbv iota in *. split.
    + rewrite <- Hns. apply namespace_same_tag.
      rewrite reparse_tag. apply qualify_empty.
    + rewrite reparse_children, existsb_map_comp.
      rewrite <- Hq. apply existsb_same.
      intros c. apply reparse_elem_matches.
  - assert (Hne : ns <> "") by (intros ->; discriminate).
    simpl negb in *.
    assert (Hb : startswith (tag t) "{" = true).
    { unfold _getASNamespace in Hns. destruct (tag t) as [|c r]; [discriminate|].
      destruct (Ascii.eqb c "{") eqn:E; [|inversion Hns; congruence].
      apply Ascii.eqb_eq in E. subst c. simpl. now destruct r. }
    assert (Ht : forall nsf, tag (set_tail None (reparse_elem nsf t)) = tag t).
    { intros nsf. rewrite reparse_tag. unfold qualify. now rewrite Hb. }
    rewrite Ht in Hc.
    destruct (namespace_prefix t ns Hns Hne Hc) as [_ Hp].
    assert (Hu : uses_ns (format_ns ns) t = true).
    { destruct t as [tg a x l cs]. simpl in Hp. simpl. now rewrite Hp. }
    rewrite Hu. simpl andb. cbv iota. split.
    + rewrite <- Hns. apply namespace_same_tag. apply Ht.
    + rewrite reparse_children, existsb_map_comp.
      rewrite <- Hq. apply existsb_same.
      intros c. apply reparse_elem_matches.
Qed.

Lemma init_tracked p (s s' : FS) (self : xmlAsFile) :
  reads_back ->
  SwDeploymentTable_init p s = (Ok (Some self), s') ->
  exists ns t9 s9,
    _getASNamespace t9 = Ok ns
    /\ tracked p ns (L "Libraries" :: map task_class (seq 1 8)) t9 s9
    /\ ET_parse p s9 = (Ok (root self), s').
Proof.
  intros Hrb H. rewrite SwDeploymentTable_init_unfold in H.
  unfold bind at 1, ask in H.
  destruct (os_path_isfile p s); [|discriminate].
  unfold bind at 1 in H.
  destruct (read p s) as [[self0| |] s1] eqn:Hread; try discriminate.
  apply read_inv in Hread as (t0 & Hparse & ->).
  unfold bind at 1 in H.
  destruct (add_task_classes 8 0 (XmlAsFile p t0) s1) as [[self8| |] s8] eqn:Hloop;
    try discriminate.
  unfold bind at 1 in H.
  destruct (ensure_node self8 (L "Libraries") "Libraries" None [] s8)
    as [[self9| |] s9] eqn:Hlib; try discriminate.
  unfold bind at 1 in H.
  destruct (read (path self9) s9) as [[selfr| |] sr] eqn:Hread2; try discriminate.
  unfold ret in H. inversion H; subst selfr sr. clear H.
  (* the namespace of the loaded document *)
  assert (Hns : exists ns, _getASNamespace t0 = Ok ns).
  { rewrite add_task_classes_S in Hloop. unfold bind at 1 in Hloop.
    match type of Hloop with
    | context [ensure_node ?a ?b ?c ?d ?e s1] =>
        pose proof (ensure_node_needs_namespace a b c d e s1) as Hn;
        destruct (ensure_node a b c d e s1) as [[x| |] sx]; try discriminate
    end.
    now apply Hn. }
  destruct Hns as [ns Hns].
  assert (Ht0 : tracked p ns [] t0 s1).
  { split; [intros lv []|]. left. split; [|intros lv []].
    intros T s3 HT. destruct Hrb as [Hpp _]. exact (Hpp _ _ _ _ _ _ Hparse HT). }
  destruct (add_task_classes_tracked p ns 8 Hrb 0 [] (XmlAsFile p t0) self8 s1 s8
              eq_refl Hns Ht0 Hloop) as (Hp8 & Hns8 & Ht8).
  assert (Hq : qmatches (format_ns ns) (L "Libraries")
                 (Element "Libraries" [] None (Some newline) []) = true).
  { unfold qmatches, matches, L. cbn [tag set_tag lv_tag lv_pred].
    change (qualify (format_ns ns) "Libraries") with (format_ns ns ^^ "Libraries").
    now rewrite String.eqb_refl. }
  destruct (add_if_absent p ns _ _ _ _ _ self8 self9 s8 s9 Hrb Hp8 Hns8 Hq Ht8 Hlib)
    as (Hp9 & Hns9 & Ht9).
  rewrite Hp9 in Hread2. apply read_inv in Hread2 as (T & HT & ->).
  exists ns, (root self9), s9. split; [exact Hns9|]. split; [|exact HT].
  eapply tracked_incl; [|exact Ht9].
  intros lv Hin. rewrite app_nil_r. exact Hin.
Qed.

Lemma init_nodes_found p (s s' : FS) (self : xmlAsFile) lv :
  reads_back ->
  SwDeploymentTable_init p s = (Ok (Some self), s') ->
  closed_tag (tag (root self)) ->
  In lv (L "Libraries" :: map task_class (seq 1 8)) ->
  exists e, find self [lv] = Ok (Some e).
Proof.
  intros Hrb H Hc Hin.
  destruct (init_tracked p s s' self Hrb H) as (ns & t9 & s9 & Hns & [Hq Hd] & HT).
  assert (Hgoal : _getASNamespace (root self) = Ok ns
                  /\ existsb (matches (format_ns ns) lv) (children (root self)) = true).
  { destruct Hd as [[Hp Hm]|Hw].
    - rewrite (Hp _ _ HT). split; [exact Hns | now apply Hm].
    - rewrite (Hw _ _ HT) in *. apply reparse_found; auto. }
  destruct Hgoal as [Hns' Hex].
  apply find_some_exists in Hex as [e He].
  exists e. unfold find, nameSpaceFormatted, _getASNamespaceFormatted.
  now rewrite Hns', He.
Qed.

(** ** A table without any of the nodes *)









Lemma reparse_eq t ns :
  _getASNamespace t = Ok ns ->
  closed_tag (tag (reparse ns t)) ->
  reparse ns t = set_tail None (reparse_elem (format_ns ns) t).
Proof.
  intros Hns Hc. unfold reparse in *.
  destruct (String.eqb ns "") eqn:E0.
  - apply String.eqb_eq in E0. subst ns. reflexivity.
  - assert (Hne : ns <> "") by (intros ->; discriminate).
    simpl negb in *.
    assert (Hb : startswith (tag t) "{" = true).
    { unfold _getASNamespace in Hns. destruct (tag t) as [|c r]; [discriminate|].
      destruct (Ascii.eqb c "{") eqn:E; [|inversion Hns; congruence].
      apply Ascii.eqb_eq in E. subst c. simpl. now destruct r. }
    assert (Ht : forall nsf, tag (set_tail None (reparse_elem nsf t)) = tag t).
    { intros nsf. rewrite reparse_tag. unfold qualify. now rewrite Hb. }
    rewrite Ht in Hc.
    destruct (namespace_prefix t ns Hns Hne Hc) as [_ Hp].
    assert (Hu : uses_ns (format_ns ns) t = true).
    { destruct t as [tg a x l cs]. simpl in Hp. simpl. now rewrite Hp. }
    now rewrite Hu.
Qed.







(** ** [Library._addObjectElement] with a [Files] list *)

Lemma find_converted nsf e lst cs :
  List.find (matches nsf (L "Files")) cs = Some lst ->
  List.find (matches nsf (L "Objects")) cs = None ->
  List.find (matches nsf (L "Objects"))
    (map (fun c => if matches nsf (L "Files") c
                   then convert_list nsf "Objects" c else c)
       (update_first (matches nsf (L "Files")) (append e) cs))
  = Some (convert_list nsf "Objects" (append e lst)).
Proof.
  induction cs as [|c r IH]; [discriminate|].
  cbn [List.find update_first].
  destruct (matches nsf (L "Files") c) eqn:Ef.
  - intros H _. inversion H; subst c. cbn [map List.find].
    rewrite matches_append, Ef.
    replace (matches nsf (L "Objects") (convert_list nsf "Objects" (append e lst)))
      with true; [reflexivity|].
    unfold matches, convert_list, L. cbn [tag lv_tag lv_pred].
    now rewrite String.eqb_refl.
  - destruct (matches nsf (L "Objects") c) eqn:Eo; [discriminate|].
    intros H1 H2. cbn [map List.find]. rewrite Ef, Eo. now apply IH.
Qed.

(** Whatever the library, when its list is a [Files] list and the object is
    a plain folder: the list becomes [Objects], every child becomes an
    [Object] with a [Type], and that [Type] is ["File"] on every child, the
    one just added included. *)
Lemma addObjectElement_package_into_files :
  forall (self : Library) (p : string) (s : FS) (nsf : string) (lst : element),
    _xmlTag self = "Files" ->
    nameSpaceFormatted (lib_file self) = Ok nsf ->
    find_in nsf (root (lib_file self)) [L "Files"] = Some lst ->
    find_in nsf (root (lib_file self)) [L "Objects"] = None ->
    getPkgType p s = (Ok (PStr "Package"), s) ->
    exists self' lst',
      _addObjectElement self p s = (Ok self', s)
      /\ _xmlTag self' = "Objects" /\ _xmlTagChild self' = "Object"
      /\ find_in nsf (root (lib_file self')) [L "Objects"] = Some lst'
      /\ tag lst' = nsf ^^ "Objects"
      /\ length (children lst') = S (length (children lst))
      /\ Forall (fun c => tag c = nsf ^^ "Object"
                          /\ get c "Type" = Some (PStr "File"))
                (children lst').
Proof.
  intros self p s nsf lst Htag Hnsf Hfiles Hobjs Hty.
  set (e := Element (_xmlTagChild self) [("Type", PStr "Package")]
              (Some (basename p)) (Some newline) []).
  set (lst' := convert_list nsf "Objects" (append e lst)).
  set (tree' := set_children
                  (map (fun c => if matches nsf (L "Files") c
                                 then convert_list nsf "Objects" c else c)
                     (update_first (matches nsf (L "Files")) (append e)
                        (children (root (lib_file self)))))
                  (root (lib_file self))).
  exists (MkLibrary (XmlAsFile (path (lib_file self)) tree') (name self)
            "Objects" "Object"), lst'.
  split; [|split; [reflexivity|split; [reflexivity|split; [|split; [reflexivity|split]]]]].
  - unfold _addObjectElement, _createPkgElement, bind at 1. unfold bind at 1.
    rewrite Hty. unfold bind, ask, ret, lift.
    change (pyval_eqb (PStr "Package") (PStr "Library")) with false.
    change (pyval_eqb (PStr "Package") (PStr "Program")) with false.
    cbv iota. fold e. rewrite Hnsf, Htag, Hfiles.
    change (get e "Type") with (Some (PStr "Package")).
    change (pyval_eqb (PStr "Package") (PStr "Package")
            && negb (String.eqb "Files" "Objects")) with true.
    cbv iota. unfold _convertXmlTag, with_file. cbn [lib_file path root _package name].
    assert (Hn : nameSpaceFormatted
                   (XmlAsFile (path (lib_file self))
                      (update_found nsf (L "Files") (append e)
                         (root (lib_file self)))) = Ok nsf).
    { rewrite <- Hnsf. unfold nameSpaceFormatted, _getASNamespaceFormatted.
      rewrite (namespace_same_tag
                 (root (XmlAsFile (path (lib_file self))
                          (update_found nsf (L "Files") (append e)
                             (root (lib_file self)))))
                 (root (lib_file self))); [reflexivity|].
      unfold update_found. cbn [root _package].
      now destruct (root (lib_file self)). }
    rewrite Hn. unfold tree', update_found. cbn [root _package].
    destruct (root (lib_file self)) as [tg a x l cs]. reflexivity.
  - cbn [lib_file root _package]. rewrite find_in_single in *.
    unfold tree'. replace (children (set_children _ _)) with
      (map (fun c => if matches nsf (L "Files") c
                     then convert_list nsf "Objects" c else c)
         (update_first (matches nsf (L "Files")) (append e)
            (children (root (lib_file self)))))
      by now destruct (root (lib_file self)).
    now apply find_converted.
  - unfold lst', convert_list. cbn [children]. rewrite length_map, children_append,
      length_app. simpl. lia.
  - unfold lst', convert_list. cbn [children]. apply Forall_map, Forall_forall.
    intros c _. change (String.eqb "Objects" "Objects") with true. cbv iota.
    split; [now destruct c|].
    destruct c as [tg a x l cs]. unfold get. cbn [set_tag set_attr attrib].
    apply dict_get_set.
Qed.

End Properties.

(** * The properties on the example projects *)

Lemma disk_reads_back : @reads_back Disk DiskFS.
Proof.
  split.
  - intros p s s1 s2 t t' H1 H2. simpl in *. unfold d_parse in *.
    destruct (lookup p s) as [[|e|]|] eqn:E; try discriminate.
    inversion H1; subst. rewrite E in H2. now inversion H2.
  - intros p ns t s s1 s2 s3 t' Hreg Hw Hp. simpl in *.
    unfold d_register_namespace in Hreg. inversion Hreg; subst s1. clear Hreg.
    unfold d_write in Hw. simpl in Hw.
    repeat match type of Hw with
           | (if ?b then _ else _) = _ => destruct b; try discriminate
           end.
    inversion Hw; subst s2. clear Hw.
    unfold d_parse, lookup, put, with_entries in Hp. simpl in Hp.
    rewrite dict_get_set in Hp. now inversion Hp.
Qed.



(** C2: an earlier export in the way is a captured [FileExistsError]. *)
Lemma export_captures_not_found_and_exists_witness :
  export libX "/out" "/proj/Temp" [] false false false exported_disk
  = (Ok (MkLibExportInfo "LibX" "/out/LibX" (Some FileExistsError) libX),
     exported_disk)
  /\ export_each chain_project "/out" false false false [libX; libY; libZ]
       ProjectExportInfo_init exported_disk
     = export_each chain_project "/out" false false false [libY; libZ]
         (addLibInfo ProjectExportInfo_init
            (MkLibExportInfo "LibX" "/out/LibX" (Some FileExistsError) libX))
         exported_disk.
Proof.
  assert (H1 : buildConfigs chain_project exported_disk = (Ok [], exported_disk))
    by (vm_compute; reflexivity).
  assert (H2 : export_body libX (export_path libX "/out" false)
                 (tempPath chain_project) [] false false exported_disk
               = (Raise FileExistsError, exported_disk))
    by (vm_compute; reflexivity).
  destruct (proj1 (@export_captures_not_found_and_exists Disk DiskFS
                     chain_project libX [libY; libZ] "/out" false false false
                     ProjectExportInfo_init exported_disk exported_disk
                     exported_disk [] FileExistsError H1 H2)
              (or_intror eq_refl)) as (Hx & _ & _ & Hb).
  split; [exact Hx | exact Hb].
Defined.

(** C2 fails as stated: the file [/out/LibX/x.c] cannot be removed although
    it is writable, [_rmtreeOnError] raises [Exception], and the batch ends
    with it before [LibY] is exported. *)
Lemma export_batch_aborted :
  fst (exportLibraries chain_project "/out" true None [] [] false false locked_disk)
  = Raise (PyException PermissionError)
  /\ d_exists "/out/LibY"
       (snd (exportLibraries chain_project "/out" true None [] [] false false
               locked_disk)) = false.
Proof. split; vm_compute; reflexivity. Qed.

(** C5 fails as stated: [LibM] declares [Missing], which no pattern ignores
    and no library of the project bears; the export returns, with [LibM] as
    its one entry. *)
Lemma missing_dependency_not_reported :
  dependencyNames libM = Ok [PStr "Missing"]
  /\ dependencies_of fnmatch_glob missing_project libM None = Ok []
  /\ exists info s',
       exportLibrary fnmatch_glob 2 missing_project libM "/out" false None
         false false true project_disk = (Ok info, s')
       /\ map info_name (success info) = ["LibM"] /\ failed info = [].
Proof.
  split; [reflexivity|]. split; [vm_compute; reflexivity|].
  do 2 eexists. split; [vm_compute; reflexivity|]. split; reflexivity.
Qed.

(** C5 on the same library. *)
Lemma unresolved_dependency_skipped_witness :
  dependencies_of fnmatch_glob missing_project libM None
  = Ok (getLibrariesByName missing_project
          (filter (known missing_project) [PStr "Missing"]))
  /\ exportLibrary fnmatch_glob 2 missing_project libM "/out" false None
       false false true project_disk
     = export_each missing_project "/out" false false false [libM]
         ProjectExportInfo_init project_disk.
Proof.
  assert (H0 : dependencyNames libM = Ok [PStr "Missing"]) by reflexivity.
  assert (H1 : _checkIgnore fnmatch_glob [PStr "Missing"] None = Ok [PStr "Missing"])
    by reflexivity.
  assert (H2 : _checkIgnore fnmatch_glob [PStr "Missing"]
                 (Some (cacheIgnore missing_project)) = Ok [PStr "Missing"])
    by (vm_compute; reflexivity).
  destruct (@unresolved_dependency_skipped Disk DiskFS fnmatch_glob
              missing_project libM None _ _ _ H0 H1 H2) as [Hd Hx].
  split; [exact Hd|].
  assert (Hunk : forall v, In v [PStr "Missing"] -> known missing_project v = false).
  { intros v [<-|[]]. vm_compute. reflexivity. }
  exact (proj1 (Hx Hunk 1 "/out" false false false project_disk)).
Defined.

(** C3 on the chain [LibX] -> [LibY] -> [LibZ]. *)
Lemma exportLibrary_chain_order_witness :
  exportLibrary fnmatch_glob 3 chain_project libX "/out" false None false false
    true project_disk
  = export_each chain_project "/out" false false false [libZ; libY; libX]
      ProjectExportInfo_init project_disk.
Proof.
  assert (HX : dependencyNames libX = Ok [PStr (name libY)]) by reflexivity.
  assert (HY : dependencyNames libY = Ok [PStr (name libZ)]) by reflexivity.
  assert (HZ : dependencyNames libZ = Ok []) by reflexivity.
  assert (InX : In libX (libraries chain_project)) by (simpl; tauto).
  assert (InY : In libY (libraries chain_project)) by (simpl; tauto).
  assert (InZ : In libZ (libraries chain_project)) by (simpl; tauto).
  assert (Hnd : NoDup (map name (libraries chain_project))).
  { simpl. repeat constructor; simpl; intuition discriminate. }
  assert (Hi : forall n, n = "LibY" \/ n = "LibZ" ->
                         not_ignored fnmatch_glob chain_project None n).
  { intros n Hn. split.
    - intros pat Hin. simpl in Hin.
      destruct Hn as [-> | ->];
        repeat (destruct Hin as [<-|Hin]; [vm_compute; reflexivity|]);
        contradiction.
    - intros l pat Hl. discriminate. }
  exact (proj1 (@exportLibrary_chain_order Disk DiskFS fnmatch_glob chain_project
                  libX libY libZ None HX HY HZ InX InY InZ Hnd
                  (Hi _ (or_introl eq_refl)) (Hi _ (or_intror eq_refl))
                  0 "/out" false false false project_disk)).
Defined.


(** C8 fails as stated: the [Name] of the deployed task has ten characters,
    and no task under [Cyclic#3] is named ["VeryLongTas"]. *)
Lemma deployed_task_name_has_ten_characters :
  exists self' s' tc,
    deployTask full_table_file "Tasks" "VeryLongTaskName123" "Cyclic#3"
      (table_disk full_table) = (Ok self', s')
    /\ find_in sw_ns (root self') [Lp "TaskClass" "Name" "Cyclic#3"] = Some tc
    /\ map (fun e => get e "Name") (children tc) = [Some (PStr "VeryLongTa")]
    /\ forall e, In e (children tc) -> get e "Name" <> Some (PStr "VeryLongTas").
Proof.
  do 3 eexists. split; [vm_compute; reflexivity|].
  split; [vm_compute; reflexivity|]. split; [reflexivity|].
  intros e [<-|[]]. vm_compute. discriminate.
Qed.

(** C8 on the complete table. *)
Lemma deployTask_truncates_name_witness :
  exists tc' kids language tl,
    find (fst deployed_table) [Lp "TaskClass" "Name" "Cyclic#3"] = Ok (Some tc')
    /\ children tc'
       = kids ++ [Element "Task"
                    [("Name", PStr "VeryLongTa");
                     ("Source", PStr "Tasks.VeryLongTaskName123.prg");
                     ("Memory", PStr "UserROM");
                     ("Language", language);
                     ("Debugging", PStr "true")]
                    None tl []].
Proof.
  assert (H1 : find full_table_file
                 [Lp "TaskClass" "Name" "Cyclic#3"; Lp "Task" "Name" "VeryLongTa"]
               = Ok None) by (vm_compute; reflexivity).
  assert (H2 : deployTask full_table_file "Tasks" "VeryLongTaskName123" "Cyclic#3"
                 (table_disk full_table)
               = (Ok (fst deployed_table), snd deployed_table))
    by (vm_compute; reflexivity).
  destruct (@deployTask_truncates_name Disk DiskFS full_table_file
              (fst deployed_table) "Tasks" (table_disk full_table)
              (snd deployed_table) H1 H2)
    as (tc & tc' & kids & language & tl & _ & Hf & _ & Hk).
  exists tc', kids, language, tl. split; [exact Hf | exact Hk].
Defined.



(** C6 does not hold of [Package.synchPackageFile]: with two entries in a
    row that are not in the directory, the first call removes the first and
    steps over the second; the second call, on an unchanged directory,
    removes it and writes another manifest. *)
Theorem synchPackageFile_second_call_removes_entry :
  exists p1 d1 p2 d2,
    synchPackageFile stale_package stale_disk = (Ok p1, d1)
    /\ synchPackageFile p1 d1 = (Ok p2, d2)
    /\ fst (d_listdir "/p" stale_disk) = Ok ["Package.pkg"]
    /\ fst (d_listdir "/p" d1) = Ok ["Package.pkg"]
    /\ map text (findall_in pkg_ns (root p1) [L "Objects"; L "Object"])
       = [Some "b.var"]
    /\ findall_in pkg_ns (root p2) [L "Objects"; L "Object"] = []
    /\ lookup "/p/Package.pkg" d1 <> lookup "/p/Package.pkg" d2.
Proof.
  do 4 eexists. split; [vm_compute; reflexivity|].
  split; [vm_compute; reflexivity|].
  repeat split; try (vm_compute; reflexivity).
  vm_compute. discriminate.
Qed.

(** C4 does not hold of the entry that is added: [_convertXmlTag] sets
    [Type="File"] on every child of the list, the new one among them, so the
    subfolder that was inferred to be a [Package] is recorded as a file. *)
Theorem addObjectElement_overwrites_package_type :
  getPkgType "/l/Lib/sub" subfolder_disk = (Ok (PStr "Package"), subfolder_disk)
  /\ _xmlTag files_library = "Files"
  /\ exists lib' lst,
       _addObjectElement files_library "/l/Lib/sub" subfolder_disk
       = (Ok lib', subfolder_disk)
       /\ _xmlTag lib' = "Objects"
       /\ find_in lib_ns (root (lib_file lib')) [L "Objects"] = Some lst
       /\ map (fun c => (tag c, text c, get c "Type")) (children lst)
          = [(lib_ns ^^ "Object", Some "a.c", Some (PStr "File"));
             (lib_ns ^^ "Object", Some "sub", Some (PStr "File"))].
Proof.
  split; [vm_compute; reflexivity|]. split; [reflexivity|].
  do 2 eexists. split; [vm_compute; reflexivity|].
  split; [reflexivity|]. split; vm_compute; reflexivity.
Qed.

(** The sibling [Library.synchronize], which collects the stale entries and
    removes them after the loop, removes both in its first call, and its
    second call writes the same manifest. *)
Lemma synchronize_removes_both_stale_entries :
  exists l1 d1 l2 d2,
    synchronize stale_library stale_library_disk = (Ok l1, d1)
    /\ synchronize l1 d1 = (Ok l2, d2)
    /\ fileList l1 = Ok []
    /\ lookup "/s/Lib/ANSIC.lby" d1 = lookup "/s/Lib/ANSIC.lby" d2.
Proof.
  do 4 eexists. split; [vm_compute; reflexivity|].
  split; [vm_compute; reflexivity|]. split; vm_compute; reflexivity.
Qed.

(** * Further properties of the code *)

(** ** Indentation is idempotent *)

Lemma blank_indent_of n : blank (Some (indent_of n)) = true.
Proof. apply all_space_indent_of. Qed.

Lemma blank_indent_text n : blank (Some (indent_of n ^^ "  ")) = true.
Proof.
  unfold blank. apply all_space_app; [apply all_space_indent_of | reflexivity].
Qed.

Lemma indentXml_retail i k y :
  all_space i = true ->
  _indentXml (S k) (retail i y) = _indentXml (S k) y.
Proof.
  intros Hi. destruct y as [t a x l cs]. unfold retail. simpl tail.
  destruct (blank l) eqn:Hl; [|reflexivity].
  simpl set_tail.
  destruct cs as [|c r].
  - rewrite !indentXml_leaf. rewrite Hl. simpl blank. now rewrite Hi.
  - rewrite !indentXml_node. rewrite Hl. simpl blank. now rewrite Hi.
Qed.

Lemma map_indent_retail_last i k ys :
  all_space i = true ->
  map (_indentXml (S k)) (retail_last i ys) = map (_indentXml (S k)) ys.
Proof.
  intros Hi. induction ys as [|y r IH]; [reflexivity|].
  destruct r as [|y' r'].
  - simpl. now rewrite indentXml_retail.
  - change (retail_last i (y :: y' :: r')) with (y :: retail_last i (y' :: r')).
    rewrite !map_cons. now rewrite IH.
Qed.

Lemma retail_last_nonempty i c r :
  exists c' r', retail_last i (c :: r) = c' :: r'.
Proof. destruct r; simpl; eauto. Qed.

(** X1. [_indentXml] is idempotent: indenting a tree that was indented at the
    same level changes nothing, so a second [write] serializes the tree the
    first one left. *)
Theorem indentXml_idempotent :
  forall e lvl, _indentXml lvl (_indentXml lvl e) = _indentXml lvl e.
Proof.
  induction e as [t a x l cs IH] using element_induction.
  intros lvl. destruct cs as [|c r].
  - rewrite !indentXml_leaf.
    destruct (negb (lvl =? 0)) eqn:Hz; simpl; [|reflexivity].
    destruct (blank l) eqn:Hl; [|now rewrite Hl].
    now rewrite blank_indent_of.
  - rewrite indentXml_node.
    destruct (retail_last_nonempty (indent_of lvl)
                (_indentXml (S lvl) c) (map (_indentXml (S lvl)) r))
      as (c' & r' & E).
    change (map (_indentXml (S lvl)) (c :: r))
      with (_indentXml (S lvl) c :: map (_indentXml (S lvl)) r).
    rewrite E, indentXml_node, <- E.
    f_equal.
    + destruct (blank x) eqn:Hx; [now rewrite blank_indent_text | now rewrite Hx].
    + destruct (blank l) eqn:Hl; [now rewrite blank_indent_of | now rewrite Hl].
    + rewrite map_indent_retail_last by apply all_space_indent_of.
      f_equal.
      change (_indentXml (S lvl) c :: map (_indentXml (S lvl)) r)
        with (map (_indentXml (S lvl)) (c :: r)).
      rewrite map_map. apply map_ext_in.
      intros y Hy. rewrite Forall_forall in IH. now apply IH.
Qed.

(** ** The namespace of a qualified tag *)

Lemma before_char_app c ns rest :
  has_char c ns = false -> before_char c (ns ^^ String c rest) = ns.
Proof.
  induction ns as [|a ns IH]; simpl; intros H.
  - now rewrite Ascii.eqb_refl.
  - apply orb_false_iff in H as [Ha Hr]. rewrite Ha. now rewrite IH.
Qed.

(** X2. The namespace read off a root tag ["{ns}local"] is [ns], for every
    [ns] without a closing brace. *)
Theorem namespace_of_qualified_tag ns local e :
  has_char "}"%char ns = false ->
  _getASNamespace (set_tag ("{" ^^ ns ^^ "}" ^^ local) e) = Ok ns.
Proof.
  intros H. destruct e as [t a x l cs]. unfold _getASNamespace. simpl.
  now rewrite before_char_app.
Qed.

(** ** [Project._checkIgnore] and [Project.getLibrariesByName] *)

Lemma ignore_pass_filter fnmatch pat names :
  ignore_pass fnmatch pat (map PStr names)
  = Ok (map PStr (filter (fun n => negb (fnmatch n pat)) names)).
Proof.
  induction names as [|n r IH]; [reflexivity|].
  simpl. rewrite IH. now destruct (fnmatch n pat).
Qed.

(** X3. The passes of [_checkIgnore], one per pattern, keep exactly the names
    that no pattern matches, in their order. *)
Theorem checkIgnore_is_one_filter fnmatch names pats :
  _checkIgnore fnmatch (map PStr names) (Some pats)
  = Ok (map PStr (filter (fun n => negb (existsb (fnmatch n) pats)) names)).
Proof.
  unfold _checkIgnore. revert names.
  induction pats as [|pat rest IH]; intros names.
  - simpl. f_equal. f_equal. symmetry. apply forallb_filter_id.
    now apply forallb_forall.
  - simpl. rewrite ignore_pass_filter, IH. f_equal. f_equal.
    induction names as [|n r IHr]; [reflexivity|].
    simpl. destruct (fnmatch n pat); simpl; [exact IHr|].
    destruct (existsb (fnmatch n) rest); simpl; [exact IHr | now rewrite IHr].
Qed.





Section Kinds.
Context {FS : Type} {fsys : FileSystem FS}.

(** X6. The names [_ignorePatterns] leaves out of a copy are the names of the
    directory that end, whatever their case, with one of the excludes, and,
    when folders are ignored, the names of folders. *)
Theorem ignorePatterns_membership excludes ignoreFolders p names (s : FS) nm :
  In nm (_ignorePatterns excludes ignoreFolders p names s)
  <-> In nm names
      /\ ((exists item, In item excludes
                        /\ endswith (lower nm) (lower item) = true)
          \/ (ignoreFolders = true /\ os_path_isdir (join p nm) s = true)).
Proof.
  unfold _ignorePatterns. rewrite in_flat_map. split.
  - intros (x & Hx & H). apply in_app_or in H as [H|H].
    + apply in_map_iff in H as (item & E & Hi). subst x.
      apply filter_In in Hi as [Hi Hm]. split; [exact Hx|]. left. eauto.
    + destruct ignoreFolders; simpl in H; [|contradiction].
      destruct (os_path_isdir (join p x) s) eqn:Hd; simpl in H; [|contradiction].
      destruct H as [H|[]]. subst x. split; [exact Hx|]. right. now split.
  - intros (Hx & H). exists nm. split; [exact Hx|].
    apply in_or_app. destruct H as [(item & Hi & Hm)|(Hf & Hd)].
    + left. apply in_map_iff. exists item. split; [reflexivity|].
      apply filter_In. now split.
    + right. rewrite Hf, Hd. now left.
Qed.

Lemma getXmlTag_range tree t :
  _getXmlTag tree = Ok t -> t = "Files" \/ t = "Objects".
Proof.
  unfold _getXmlTag. destruct (_getASNamespaceFormatted tree) as [nsf| |]; try discriminate.
  intros H. injection H as H. subst t.
  destruct (List.find _ (children tree)) as [c|] eqn:E; [|now left].
  apply find_some in E as [_ E]. cbv beta zeta in E.
  apply orb_true_iff in E as [E|E]; apply String.eqb_eq in E; auto.
Qed.

(** X7. A library that was constructed has ["Files"] and ["File"], or
    ["Objects"] and ["Object"], as the tags of its list and of its entries. *)
Theorem Library_init_list_tags p (s s' : FS) self :
  Library_init p s = (Ok self, s') ->
  (_xmlTag self = "Files" /\ _xmlTagChild self = "File")
  \/ (_xmlTag self = "Objects" /\ _xmlTagChild self = "Object").
Proof.
  unfold Library_init, bind, ask, lift, ret. intros H.
  destruct (xmlAsFile_init _ None s) as [[f| |] s1]; try discriminate.
  destruct (_getXmlTag (root f)) as [t| |] eqn:E; try discriminate.
  injection H as H _. subst self. simpl.
  apply getXmlTag_range in E as [E|E]; subst t; [left|right]; now split.
Qed.

End Kinds.

Lemma by_outcome_add infos i :
  addLibInfo (by_outcome infos) i = by_outcome (infos ++ [i]).
Proof.
  unfold addLibInfo, by_outcome. simpl. rewrite !filter_app. simpl.
  unfold succeeded. destruct (exception i); simpl; now rewrite ?app_nil_r.
Qed.

Lemma by_outcome_extend a b :
  extend (by_outcome a) (by_outcome b) = by_outcome (a ++ b).
Proof. unfold extend, by_outcome. simpl. now rewrite !filter_app. Qed.

Section Exports.
Context {FS : Type} {fsys : FileSystem FS}.

Lemma export_call_info self lib dest ov bin iv (s s' : FS) info :
  export_call self lib dest ov bin iv s = (Ok info, s') ->
  info_lib info = lib /\ info_name info = name lib
  /\ info_path info = export_path lib dest iv.
Proof.
  unfold export_call, bind. intros H.
  destruct (buildConfigs self s) as [[cfgs| |] s1]; try discriminate.
  rewrite export_cases in H. cbv zeta in H.
  destruct (export_body lib _ _ cfgs ov bin s1) as [[[]|e|] s2]; try discriminate.
  - inversion H; subst. now simpl.
  - destruct (export_catches e); [|discriminate]. inversion H; subst. now simpl.
Qed.

Lemma export_each_outcome self dest ov bin iv libs :
  forall infos0 (s s' : FS) r,
    export_each self dest ov bin iv libs (by_outcome infos0) s = (Ok r, s') ->
    exists infos,
      r = by_outcome (infos0 ++ infos)
      /\ map info_lib infos = libs
      /\ Forall (fun i => info_name i = name (info_lib i)
                          /\ info_path i = export_path (info_lib i) dest iv) infos.
Proof.
  induction libs as [|lib rest IH]; intros infos0 s s' r H.
  - unfold export_each in H. simpl in H. unfold ret in H. inversion H; subst.
    exists []. rewrite app_nil_r. repeat split. constructor.
  - rewrite export_each_cons in H.
    destruct (export_call self lib dest ov bin iv s) as [[info| |] s1] eqn:E;
      try discriminate.
    rewrite by_outcome_add in H.
    destruct (IH _ _ _ _ H) as (infos & Hr & Hl & Hall).
    destruct (export_call_info _ _ _ _ _ _ _ _ _ E) as (H1 & H2 & H3).
    exists (info :: infos). rewrite <- app_assoc in Hr. split; [exact Hr|].
    split; [simpl; now rewrite H1, Hl|].
    constructor; [|exact Hall]. rewrite H1. now split.
Qed.

(** X8. When [exportLibraries] returns, its result holds one entry for each
    selected library, in the order of the selection, sorted into [success]
    and [failed] by the exception it carries; each entry bears the name of
    its library and the destination of its export. *)
Theorem exportLibraries_one_entry_each :
  forall (self : Project) dest ov cfgs blacklist whitelist bin iv (s s' : FS) r,
    exportLibraries self dest ov cfgs blacklist whitelist bin iv s = (Ok r, s') ->
    exists infos,
      r = by_outcome infos
      /\ map info_lib infos = exportLibs self blacklist whitelist
      /\ Forall (fun i => info_name i = name (info_lib i)
                          /\ info_path i = export_path (info_lib i) dest iv) infos.
Proof.
  intros self dest ov cfgs bl wl bin iv s s' r H.
  unfold exportLibraries in H. unfold bind at 1 in H.
  destruct (match cfgs with
            | Some _ => ret tt
            | None => buildConfigs self;;; ret tt
            end s) as [[[]| |] s1]; try discriminate.
  change ProjectExportInfo_init with (by_outcome []) in H.
  exact (export_each_outcome _ _ _ _ _ _ [] _ _ _ H).
Qed.

Variable fnmatch : string -> string -> bool.

Lemma fold_deps_outcome f self dest ov ign bin iv :
  (forall lib (s s' : FS) r,
      exportLibrary fnmatch f self lib dest ov ign bin iv true s = (Ok r, s') ->
      exists infos, r = by_outcome infos
                    /\ map info_lib infos = export_order fnmatch f self lib ign true) ->
  forall deps infos0 (s s' : FS) r,
    fold_m deps (by_outcome infos0)
      (fun info dep =>
         result <- exportLibrary fnmatch f self dep dest ov ign bin iv true ;;
         ret (extend info result)) s = (Ok r, s') ->
    exists infos,
      r = by_outcome (infos0 ++ infos)
      /\ map info_lib infos
         = flat_map (fun dep => export_order fnmatch f self dep ign true) deps.
Proof.
  intros IH. induction deps as [|d rest IHd]; intros infos0 s s' r H.
  - simpl in H. unfold ret in H. inversion H; subst.
    exists []. now rewrite app_nil_r.
  - simpl in H. unfold bind at 1 2 in H.
    destruct (exportLibrary fnmatch f self d dest ov ign bin iv true s)
      as [[rd| |] s1] eqn:E; try discriminate.
    unfold ret at 1 in H.
    destruct (IH _ _ _ _ E) as (infosd & -> & Hd).
    rewrite by_outcome_extend in H.
    destruct (IHd _ _ _ _ H) as (infos & Hr & Hl).
    exists (infosd ++ infos). rewrite app_assoc. split; [exact Hr|].
    simpl. now rewrite map_app, Hd, Hl.
Qed.

(** X9. When [exportLibrary] returns, its result holds one entry for each
    call of [Library.export], in the order of the calls: for each dependency
    what its own traversal exports, then the library. A library that two
    others depend on is exported once for each. *)
Theorem exportLibrary_order_of_exports :
  forall fuel (self : Project) library dest ov ign bin iv wd (s s' : FS) r,
    exportLibrary fnmatch fuel self library dest ov ign bin iv wd s = (Ok r, s') ->
    exists infos,
      r = by_outcome infos
      /\ map info_lib infos = export_order fnmatch fuel self library ign wd.
Proof.
  induction fuel as [|f IH]; intros self library dest ov ign bin iv wd s s' r H.
  - discriminate.
  - rewrite exportLibrary_S in H. unfold bind at 1 in H.
    match type of H with
    | (match ?c s with _ => _ end) = _ =>
        destruct (c s) as [[acc| |] s1] eqn:E; try discriminate
    end.
    unfold bind in H.
    destruct (export_call self library dest ov bin iv s1) as [[info| |] s2] eqn:Ec;
      try discriminate.
    unfold ret in H. inversion H; subst r s2. clear H.
    destruct (export_call_info _ _ _ _ _ _ _ _ _ Ec) as (Hlib & _).
    assert (Hacc : exists infos,
               acc = by_outcome infos
               /\ map info_lib infos
                  = if wd then
                      match dependencies_of fnmatch self library ign with
                      | Ok deps =>
                          flat_map (fun dep => export_order fnmatch f self dep ign true)
                            deps
                      | _ => []
                      end
                    else []).
    { destruct wd.
      - unfold bind at 1, lift at 1 in E.
        destruct (dependencies_of fnmatch self library ign) as [deps| |];
          try discriminate.
        change ProjectExportInfo_init with (by_outcome []) in E.
        exact (fold_deps_outcome f self dest ov ign bin iv
                 (fun lib => IH self lib dest ov ign bin iv true) deps [] _ _ _ E).
      - unfold ret in E. inversion E; subst. now exists []. }
    destruct Hacc as (infos & -> & Hl).
    exists (infos ++ [info]). split; [apply by_outcome_add|].
    rewrite map_app. simpl. now rewrite Hl, Hlib.
Qed.

End Exports.

Lemma sim_text_steady c c' : sim c c' -> steady c -> text c' = text c.
Proof.
  intros H Hq. inversion H as [t a x x' l l' cs cs' Hx Hleaf Hcs]; subst.
  unfold steady in Hq. cbn [text children] in *. destruct Hq as [Hq|Hq].
  - symmetry. now apply Hleaf.
  - destruct Hx as [Hx|[Hx _]]; [now symmetry | congruence].
Qed.

Lemma Forall2_sim_texts l l' :
  Forall2 sim l l' -> Forall steady l -> map text l' = map text l.
Proof.
  induction 1 as [|a b r r' Hab Hr IH]; intros Hq; [reflexivity|].
  inversion Hq; subst. simpl. rewrite (sim_text_steady _ _ Hab) by assumption.
  now rewrite IH.
Qed.

Lemma find_update_first_none {A} (p q : A -> bool) f l :
  (forall x, p (f x) = p x) ->
  List.find p l = None -> List.find p (update_first q f l) = None.
Proof.
  intros Hf. induction l as [|x r IH]; [reflexivity|].
  simpl. destruct (p x) eqn:Hp; [discriminate|]. intros H.
  destruct (q x); simpl.
  - now rewrite Hf, Hp.
  - rewrite Hp. now apply IH.
Qed.

Lemma find_converted_list nsf T lst cs :
  List.find (matches nsf (L T)) cs = Some lst ->
  List.find (matches nsf (L "Objects")) cs = None ->
  List.find (matches nsf (L "Objects"))
    (map (fun c => if matches nsf (L T) c
                   then convert_list nsf "Objects" c else c) cs)
  = Some (convert_list nsf "Objects" lst).
Proof.
  induction cs as [|c r IH]; [discriminate|].
  cbn [List.find].
  destruct (matches nsf (L T) c) eqn:Ef.
  - intros H _. inversion H; subst c. cbn [map List.find]. rewrite Ef.
    replace (matches nsf (L "Objects") (convert_list nsf "Objects" lst))
      with true; [reflexivity|].
    unfold matches, convert_list, L. cbn [tag lv_tag lv_pred].
    now rewrite String.eqb_refl.
  - destruct (matches nsf (L "Objects") c) eqn:Eo; [discriminate|].
    intros H1 H2. cbn [map List.find]. rewrite Ef, Eo. now apply IH.
Qed.

Lemma tag_update_found nsf lv f t : tag (update_found nsf lv f t) = tag t.
Proof. unfold update_found. now destruct t. Qed.

Lemma children_update_found nsf lv f t :
  children (update_found nsf lv f t)
  = update_first (matches nsf lv) f (children t).
Proof. unfold update_found. now destruct t. Qed.

Lemma nameSpaceFormatted_tag a b :
  tag (root a) = tag (root b) -> nameSpaceFormatted a = nameSpaceFormatted b.
Proof.
  intros H. unfold nameSpaceFormatted, _getASNamespaceFormatted.
  now rewrite (namespace_same_tag _ _ H).
Qed.

Lemma steady_convert nsf c :
  steady c ->
  steady (set_attr "Type" (PStr "File") (set_tag nsf c)).
Proof. destruct c. exact (fun H => H). Qed.

Section Synchronize.
Context {FS : Type} {fsys : FileSystem FS}.

Lemma createPkgElement_inv p tg (s s' : FS) e :
  _createPkgElement p tg s = (Ok e, s') ->
  s' = s /\ text e = Some (basename p) /\ children e = [].
Proof.
  unfold _createPkgElement, bind, ask, ret. intros H.
  destruct (getPkgType p s) as [[ty| |] s1] eqn:E; try discriminate.
  apply getPkgType_state in E. subst s1.
  inversion H; subst. now repeat split.
Qed.

Lemma addObjectElement_entries self p (s s' : FS) self' nsf o :
  nameSpaceFormatted (lib_file self) = Ok nsf ->
  find_in nsf (root (lib_file self)) [L (_xmlTag self)] = Some o ->
  sole_list nsf self ->
  _addObjectElement self p s = (Ok self', s') ->
  s' = s
  /\ path (lib_file self') = path (lib_file self)
  /\ tag (root (lib_file self')) = tag (root (lib_file self))
  /\ sole_list nsf self'
  /\ exists o',
       find_in nsf (root (lib_file self')) [L (_xmlTag self')] = Some o'
       /\ map text (children o') = map text (children o) ++ [Some (basename p)]
       /\ (Forall steady (children o) -> Forall steady (children o')).
Proof.
  intros Hnsf Hfind Hsole H.
  unfold _addObjectElement in H. unfold bind at 1 in H.
  destruct (_createPkgElement p (_xmlTagChild self) s) as [[e| |] s1] eqn:Ee;
    try discriminate.
  apply createPkgElement_inv in Ee as (-> & Hte & Hce).
  unfold bind at 1, lift at 1 in H. rewrite Hnsf, Hfind in H.
  set (tree1 := update_found nsf (L (_xmlTag self)) (append e) (root (lib_file self))) in *.
  assert (Hm : matches nsf (L (_xmlTag self)) o = true).
  { rewrite find_in_single in Hfind. now apply find_some in Hfind. }
  assert (Hf1 : find_in nsf tree1 [L (_xmlTag self)] = Some (append e o)).
  { apply find_update_found; [exact Hfind | now rewrite matches_append]. }
  assert (Hplain :
            s = s
            /\ path (lib_file (with_file (XmlAsFile (path (lib_file self)) tree1) self))
               = path (lib_file self)
            /\ tag (root (lib_file (with_file (XmlAsFile (path (lib_file self)) tree1) self)))
               = tag (root (lib_file self))
            /\ sole_list nsf (with_file (XmlAsFile (path (lib_file self)) tree1) self)
            /\ exists o',
                 find_in nsf
                   (root (lib_file (with_file (XmlAsFile (path (lib_file self)) tree1) self)))
                   [L (_xmlTag (with_file (XmlAsFile (path (lib_file self)) tree1) self))]
                 = Some o'
                 /\ map text (children o') = map text (children o) ++ [Some (basename p)]
                 /\ (Forall steady (children o) -> Forall steady (children o'))).
  { split; [reflexivity|]. split; [reflexivity|].
    split; [apply tag_update_found|]. split.
    - destruct Hsole as [Hs|Hs]; [now left | right].
      cbn [with_file lib_file root _package].
      rewrite find_in_single in *. unfold tree1. rewrite children_update_found.
      apply find_update_first_none; [intros x; apply matches_append | exact Hs].
    - exists (append e o). split; [exact Hf1|].
      rewrite children_append, map_app. simpl. rewrite Hte. split; [reflexivity|].
      intros Hq. apply Forall_app. split; [exact Hq|].
      constructor; [now left | constructor]. }
  destruct (get e "Type") as [ty|]; [|unfold ret in H; inversion H; subst; exact Hplain].
  destruct (pyval_eqb ty (PStr "Package") && negb (String.eqb (_xmlTag self) "Objects"))
    eqn:Hc; [|unfold ret in H; inversion H; subst; exact Hplain].
  clear Hplain.
  apply andb_true_iff in Hc as [_ Hc]. apply negb_true_iff in Hc.
  apply String.eqb_neq in Hc.
  destruct Hsole as [Hs|Hs]; [contradiction|].
  unfold lift, _convertXmlTag in H. cbn [with_file lib_file path root _package name] in H.
  assert (Hn : nameSpaceFormatted (XmlAsFile (path (lib_file self)) tree1) = Ok nsf).
  { rewrite <- Hnsf. apply nameSpaceFormatted_tag. apply tag_update_found. }
  rewrite Hn in H. inversion H; subst self' s'. clear H.
  cbn [lib_file path root _package _xmlTag].
  split; [reflexivity|]. split; [reflexivity|].
  split; [unfold tree1, update_found; now destruct (root (lib_file self))|].
  split; [now left|].
  exists (convert_list nsf "Objects" (append e o)). split.
  - rewrite find_in_single in *.
    replace (children (set_children _ tree1))
      with (map (fun c => if matches nsf (L (_xmlTag self)) c
                          then convert_list nsf "Objects" c else c) (children tree1))
      by now destruct tree1.
    apply find_converted_list; [exact Hf1|].
    unfold tree1. rewrite children_update_found.
    apply find_update_first_none; [intros x; apply matches_append | exact Hs].
  - unfold convert_list. cbn [children]. rewrite children_append.
    split.
    + rewrite map_map.
      transitivity (map text (children o ++ [e])).
      { apply map_ext. intros c. now destruct c. }
      rewrite map_app. simpl. now rewrite Hte.
    + intros Hq. apply Forall_map.
      assert (Hall : Forall steady (children o ++ [e])).
      { apply Forall_app. split; [exact Hq|]. constructor; [now left|constructor]. }
      revert Hall. apply Forall_impl. intros c Hc'.
      change (String.eqb "Objects" "Objects") with true. cbv iota.
      now apply steady_convert.
Qed.

Lemma synchronize_add_entries items used :
  forall self (s s' : FS) self' nsf o,
    Forall plain_name items ->
    nameSpaceFormatted (lib_file self) = Ok nsf ->
    find_in nsf (root (lib_file self)) [L (_xmlTag self)] = Some o ->
    sole_list nsf self ->
    synchronize_add items used self s = (Ok self', s') ->
    s' = s
    /\ path (lib_file self') = path (lib_file self)
    /\ tag (root (lib_file self')) = tag (root (lib_file self))
    /\ sole_list nsf self'
    /\ exists o',
         find_in nsf (root (lib_file self')) [L (_xmlTag self')] = Some o'
         /\ map text (children o')
            = map text (children o)
              ++ map Some (filter (fun item => negb (str_in item used) && is_object item)
                             items)
         /\ (Forall steady (children o) -> Forall steady (children o')).
Proof.
  induction items as [|item rest IH]; intros self s s' self' nsf o Hpl Hnsf Hfind Hsole H.
  - simpl in H. unfold ret in H. inversion H; subst.
    repeat split; [exact Hsole|]. exists o. rewrite app_nil_r. now repeat split.
  - inversion Hpl as [|? ? [Hsep _] Hpl']; subst.
    cbn [synchronize_add] in H. cbn [filter].
    unfold is_object at 1.
    rewrite <- andb_assoc in H.
    destruct (negb (str_in item used)
              && (negb (String.eqb (splitext_ext item) ".lby")
                  && negb (str_in item ["SG4"; "SG3"; "SGC"]))) eqn:Hc.
    + unfold bind in H.
      destruct (_addObjectElement self (join (dirPath (lib_file self)) item) s)
        as [[self1| |] s1] eqn:Ea; try discriminate.
      destruct (addObjectElement_entries _ _ _ _ _ _ _ Hnsf Hfind Hsole Ea)
        as (-> & Hp1 & Ht1 & Hsole1 & o1 & Hf1 & Htx1 & Hq1).
      assert (Hnsf1 : nameSpaceFormatted (lib_file self1) = Ok nsf).
      { rewrite <- Hnsf. now apply nameSpaceFormatted_tag. }
      destruct (IH _ _ _ _ _ _ Hpl' Hnsf1 Hf1 Hsole1 H)
        as (-> & Hp2 & Ht2 & Hsole2 & o2 & Hf2 & Htx2 & Hq2).
      split; [reflexivity|]. split; [congruence|]. split; [congruence|].
      split; [exact Hsole2|].
      exists o2. split; [exact Hf2|]. split; [|tauto].
      rewrite Htx2, Htx1, basename_join by exact Hsep.
      now rewrite <- app_assoc.
    + destruct (IH _ _ _ _ _ _ Hpl' Hnsf Hfind Hsole H)
        as (-> & Hp2 & Ht2 & Hsole2 & o2 & Hf2 & Htx2 & Hq2).
      repeat split; try assumption. exists o2. now repeat split.
Qed.

Lemma kept_texts items cs :
  map text (filter (fun obj => opt_in (text obj) items) cs)
  = map Some (flat_map (fun obj => match text obj with
                                   | Some t => if str_in t items then [t] else []
                                   | None => []
                                   end) cs).
Proof.
  induction cs as [|c r IH]; [reflexivity|].
  simpl. destruct (text c) as [t|] eqn:Et; simpl; [|exact IH].
  destruct (str_in t items); simpl; [now rewrite Et, IH | exact IH].
Qed.

Lemma str_in_In x xs : str_in x xs = true <-> In x xs.
Proof.
  unfold str_in. rewrite existsb_exists. split.
  - intros (y & Hy & E). apply String.eqb_eq in E. now subst.
  - intros H. exists x. split; [exact H | apply String.eqb_refl].
Qed.

Lemma kept_steady items cs :
  Forall plain_name items ->
  Forall steady (filter (fun obj => opt_in (text obj) items) cs).
Proof.
  intros Hpl. apply Forall_forall. intros c Hc. apply filter_In in Hc as [_ Hc].
  right. destruct (text c) as [t|]; [|discriminate]. simpl in Hc.
  apply str_in_In in Hc. rewrite Forall_forall in Hpl.
  destruct (Hpl _ Hc) as [_ Hb]. exact Hb.
Qed.

Lemma find_none_sim nsf lv t t' :
  sim t t' -> find_in nsf t [lv] = None -> find_in nsf t' [lv] = None.
Proof.
  intros Hs Hn.
  destruct (find_in nsf t' [lv]) as [c'|] eqn:E; [|reflexivity].
  assert (Hex : existsb (matches nsf lv) (children t') = true)
    by (apply find_some_exists; eauto).
  rewrite <- (existsb_sim (matches nsf lv) (children t) (children t')) in Hex.
  - apply find_some_exists in Hex as (c & Hc). congruence.
  - intros a b. apply matches_sim.
  - now apply sim_children.
Qed.

(** What [Library.synchronize] returns: the list is found as before, and
    its entries are those that named an item, then the new ones. *)
Lemma synchronize_result :
  forall (self self' : Library) (s s1 s' : FS) (items : list string)
         (nsf : string) (o : element),
    nameSpaceFormatted (lib_file self) = Ok nsf ->
    find_in nsf (root (lib_file self)) [L (_xmlTag self)] = Some o ->
    sole_list nsf self ->
    os_listdir (dirPath (lib_file self)) s = (Ok items, s1) ->
    Forall plain_name items ->
    synchronize self s = (Ok self', s') ->
    nameSpaceFormatted (lib_file self') = Ok nsf
    /\ path (lib_file self') = path (lib_file self)
    /\ sole_list nsf self'
    /\ exists o',
         find_in nsf (root (lib_file self')) [L (_xmlTag self')] = Some o'
         /\ map text (children o')
            = map Some (listed_names o items
                        ++ filter (fun item => negb (str_in item (listed_names o items))
                                               && is_object item) items).
Proof.
  intros self self' s s1 s' items nsf o Hnsf Hfind Hsole Hls Hpl H.
  unfold synchronize in H. unfold bind at 1, lift at 1 in H. rewrite Hnsf in H.
  unfold bind at 1 in H. rewrite Hls, Hfind in H.
  set (self1 := with_file _ self) in H.
  unfold bind at 1 in H.
  match type of H with
  | context [synchronize_add items ?u self1 s1] =>
      destruct (synchronize_add items u self1 s1) as [[self2| |] s2] eqn:Ea;
        try discriminate
  end.
  unfold bind in H.
  destruct (write (lib_file self2) s2) as [[f| |] s3] eqn:Ew; try discriminate.
  unfold ret in H. inversion H; subst self' s3. clear H.
  assert (Hm : matches nsf (L (_xmlTag self)) o = true).
  { rewrite find_in_single in Hfind. now apply find_some in Hfind. }
  set (kept := filter (fun obj => opt_in (text obj) items) (children o)).
  assert (Hf1 : find_in nsf (root (lib_file self1)) [L (_xmlTag self1)]
                = Some (set_children kept o)).
  { unfold self1. cbn [with_file lib_file root _package _xmlTag].
    apply (find_update_found nsf (L (_xmlTag self))
             (fun e => set_children (filter (fun obj => opt_in (text obj) items)
                                       (children e)) e)); [exact Hfind|].
    now destruct o. }
  assert (Hnsf1 : nameSpaceFormatted (lib_file self1) = Ok nsf).
  { rewrite <- Hnsf. apply nameSpaceFormatted_tag. unfold self1.
    cbn [with_file lib_file root _package]. apply tag_update_found. }
  assert (Hsole1 : sole_list nsf self1).
  { destruct Hsole as [Hs|Hs]; [now left | right].
    unfold self1. cbn [with_file lib_file root _package].
    rewrite find_in_single in *. rewrite children_update_found.
    apply find_update_first_none; [|exact Hs]. intros x. now destruct x. }
  destruct (synchronize_add_entries _ _ _ _ _ _ _ _ Hpl Hnsf1 Hf1 Hsole1 Ea)
    as (-> & Hp2 & Ht2 & Hsole2 & o2 & Hf2 & Htx2 & Hq2).
  apply write_inv in Ew as (ns & s4 & _ & _ & _ & ->).
  cbn [with_file lib_file _xmlTag root _package path].
  assert (Hnsf2 : nameSpaceFormatted
                    (XmlAsFile (path (lib_file self2))
                       (_indentXml 0 (root (lib_file self2)))) = Ok nsf).
  { rewrite <- Hnsf1. apply nameSpaceFormatted_tag. cbn [root _package].
    rewrite <- (sim_tag _ _ (indent_sim _ 0)). exact Ht2. }
  split; [exact Hnsf2|]. split; [exact Hp2|]. split.
  { destruct Hsole2 as [Hs|Hs]; [now left | right].
    cbn [with_file lib_file root _package].
    exact (find_none_sim _ _ _ _ (indent_sim _ 0) Hs). }
  destruct (find_sim nsf _ _ _ _ (indent_sim (root (lib_file self2)) 0) Hf2)
    as (o3 & Hf3 & Hs3).
  exists o3. split; [exact Hf3|]. apply sim_children in Hs3.
  rewrite (Forall2_sim_texts _ _ Hs3).
  - rewrite Htx2. replace (children (set_children kept o)) with kept by now destruct o.
    unfold kept. rewrite kept_texts. fold (listed_names o items).
    now rewrite map_app.
  - apply Hq2. replace (children (set_children kept o)) with kept by now destruct o.
    now apply kept_steady.
Qed.

Lemma files_found self o :
  files self = Ok (Some o) ->
  exists nsf, nameSpaceFormatted (lib_file self) = Ok nsf
              /\ find_in nsf (root (lib_file self)) [L (_xmlTag self)] = Some o.
Proof.
  unfold files, find.
  destruct (nameSpaceFormatted (lib_file self)) as [nsf| |]; try discriminate.
  intros H. injection H as H. now exists nsf.
Qed.

Lemma sole_list_found self nsf :
  nameSpaceFormatted (lib_file self) = Ok nsf ->
  _xmlTag self = "Objects" \/ find (lib_file self) [L "Objects"] = Ok None ->
  sole_list nsf self.
Proof.
  intros Hnsf [H|H]; [now left | right].
  unfold find in H. rewrite Hnsf in H. now injection H.
Qed.

(** X10. After [Library.synchronize] the list holds the entries that named
    an item of the directory, then one entry for each other item that is an
    object. So every entry names an item of the directory, and every object
    of the directory has an entry. *)
Theorem synchronize_lists_the_directory :
  forall (self self' : Library) (s s1 s' : FS) (items : list string) (o : element),
    files self = Ok (Some o) ->
    (_xmlTag self = "Objects" \/ find (lib_file self) [L "Objects"] = Ok None) ->
    os_listdir (dirPath (lib_file self)) s = (Ok items, s1) ->
    Forall plain_name items ->
    synchronize self s = (Ok self', s') ->
    entries_of self'
    = map Some (listed_names o items
                ++ filter (fun item => negb (str_in item (listed_names o items))
                                       && is_object item) items)
    /\ (forall x, In x (entries_of self') -> exists t, x = Some t /\ In t items)
    /\ (forall item, In item items -> is_object item = true ->
                     In (Some item) (entries_of self')).
Proof.
  intros self self' s s1 s' items o Hfiles Hsole Hls Hpl H.
  destruct (files_found _ _ Hfiles) as (nsf & Hnsf & Hfind).
  destruct (synchronize_result _ _ _ _ _ _ _ _ Hnsf Hfind
              (sole_list_found _ _ Hnsf Hsole) Hls Hpl H)
    as (Hnsf' & _ & _ & o' & Hf' & Htx).
  assert (Hchar :
            entries_of self'
            = map Some (listed_names o items
                        ++ filter (fun item => negb (str_in item (listed_names o items))
                                               && is_object item) items)).
  { unfold entries_of, files, find. now rewrite Hnsf', Hf'. }
  split; [exact Hchar|]. split.
  - intros x Hx. rewrite Hchar in Hx. apply in_map_iff in Hx as (t & <- & Ht).
    exists t. split; [reflexivity|]. apply in_app_or in Ht as [Ht|Ht].
    + unfold listed_names in Ht. apply in_flat_map in Ht as (c & _ & Ht).
      destruct (text c) as [t'|]; [|contradiction].
      destruct (str_in t' items) eqn:E; [|contradiction].
      destruct Ht as [<-|[]]. now apply str_in_In.
    + now apply filter_In in Ht as [Ht _].
  - intros item Hi Ho. rewrite Hchar. apply in_map, in_or_app.
    destruct (str_in item (listed_names o items)) eqn:E.
    + left. now apply str_in_In.
    + right. apply filter_In. split; [exact Hi|]. now rewrite E, Ho.
Qed.

Lemma listed_names_all items names cs :
  map text cs = map Some names ->
  (forall n, In n names -> In n items) ->
  flat_map (fun obj => match text obj with
                       | Some t => if str_in t items then [t] else []
                       | None => []
                       end) cs = names.
Proof.
  revert names. induction cs as [|c r IH]; intros names Hm Hin.
  - destruct names; [reflexivity | discriminate].
  - destruct names as [|n names]; [discriminate|].
    simpl in Hm. injection Hm as Hc Hr. simpl. rewrite Hc.
    replace (str_in n items) with true
      by (symmetry; apply str_in_In, Hin; now left).
    simpl. f_equal. apply IH; [exact Hr|]. intros m Hm'. apply Hin. now right.
Qed.

(** X18. [Library.synchronize] is idempotent on the entries: a second call,
    on a directory that lists the same items, leaves the entries of the
    list as the first call left them. *)
Theorem synchronize_twice_same_entries :
  forall (self self1 self2 : Library) (s s0 s1 s1' s2 : FS)
         (items : list string) (o : element),
    files self = Ok (Some o) ->
    (_xmlTag self = "Objects" \/ find (lib_file self) [L "Objects"] = Ok None) ->
    Forall plain_name items ->
    os_listdir (dirPath (lib_file self)) s = (Ok items, s0) ->
    synchronize self s = (Ok self1, s1) ->
    os_listdir (dirPath (lib_file self)) s1 = (Ok items, s1') ->
    synchronize self1 s1 = (Ok self2, s2) ->
    entries_of self2 = entries_of self1.
Proof.
  intros self self1 self2 s s0 s1 s1' s2 items o Hfiles Hsole Hpl Hls H1 Hls1 H2.
  destruct (files_found _ _ Hfiles) as (nsf & Hnsf & Hfind).
  destruct (synchronize_result _ _ _ _ _ _ _ _ Hnsf Hfind
              (sole_list_found _ _ Hnsf Hsole) Hls Hpl H1)
    as (Hnsf1 & Hp1 & Hsole1 & o1 & Hf1 & Htx1).
  assert (Hdir : dirPath (lib_file self1) = dirPath (lib_file self))
    by (unfold dirPath; now rewrite Hp1).
  rewrite <- Hdir in Hls1.
  destruct (synchronize_result _ _ _ _ _ _ _ _ Hnsf1 Hf1 Hsole1 Hls1 Hpl H2)
    as (Hnsf2 & _ & _ & o2 & Hf2 & Htx2).
  unfold entries_of, files, find. rewrite Hnsf1, Hnsf2, Hf1, Hf2, Htx2, Htx1.
  set (used := listed_names o items) in *.
  set (new := filter (fun item => negb (str_in item used) && is_object item) items) in *.
  assert (Hall : forall n, In n (used ++ new) -> In n items).
  { intros n Hn. apply in_app_or in Hn as [Hn|Hn].
    - unfold used, listed_names in Hn. apply in_flat_map in Hn as (c & _ & Hn).
      destruct (text c) as [t'|]; [|contradiction].
      destruct (str_in t' items) eqn:E; [|contradiction].
      destruct Hn as [<-|[]]. now apply str_in_In.
    - now apply filter_In in Hn as [Hn _]. }
  assert (Hused1 : listed_names o1 items = used ++ new).
  { unfold listed_names. now apply listed_names_all. }
  rewrite Hused1. f_equal.
  assert (Hnone : filter (fun item => negb (str_in item (used ++ new)) && is_object item)
                    items = []).
  { apply filter_none. intros item Hi.
    destruct (is_object item) eqn:Ho; [|now rewrite andb_false_r].
    rewrite andb_true_r. apply negb_false_iff. apply str_in_In, in_or_app.
    destruct (str_in item used) eqn:Eu; [left; now apply str_in_In|].
    right. apply filter_In. split; [exact Hi|]. now rewrite Eu, Ho. }
  rewrite Hnone. apply app_nil_r.
Qed.

End Synchronize.

(** ** [Package._removePkgObject] *)

Lemma delete_at_app {A} (pre : list A) x r :
  delete_at (length pre) (pre ++ x :: r) = pre ++ r.
Proof. induction pre as [|a pre IH]; simpl; [reflexivity | now rewrite IH]. Qed.

Lemma nth_error_app_here {A} (pre : list A) rest :
  nth_error (pre ++ rest) (length pre) = hd_error rest.
Proof.
  induction pre as [|a pre IH]; simpl; [now destruct rest | exact IH].
Qed.

Lemma remove_loop_skipping name :
  forall fuel pre rest,
    length rest <= fuel ->
    remove_loop fuel (length pre) name (pre ++ rest)
    = pre ++ remove_skipping (fun c => opt_eqb (text c) name) rest.
Proof.
  induction fuel as [|f IH]; intros pre rest Hf.
  - destruct rest; [reflexivity | simpl in Hf; lia].
  - cbn [remove_loop]. rewrite nth_error_app_here.
    destruct rest as [|x r]; [reflexivity|].
    cbn [hd_error remove_skipping]. simpl in Hf.
    destruct (opt_eqb (text x) name).
    + rewrite delete_at_app.
      destruct r as [|y r'].
      * destruct f; [reflexivity|].
        cbn [remove_loop]. rewrite app_nil_r.
        replace (nth_error pre (S (length pre))) with (@None element);
          [reflexivity|].
        symmetry. apply nth_error_None. lia.
      * replace (pre ++ y :: r') with ((pre ++ [y]) ++ r')
          by now rewrite <- app_assoc.
        replace (S (length pre)) with (length (pre ++ [y]))
          by (rewrite length_app; simpl; lia).
        rewrite IH by (simpl in Hf; lia).
        now rewrite <- app_assoc.
    + replace (pre ++ x :: r) with ((pre ++ [x]) ++ r)
        by now rewrite <- app_assoc.
      replace (S (length pre)) with (length (pre ++ [x]))
        by (rewrite length_app; simpl; lia).
      rewrite IH by lia.
      now rewrite <- app_assoc.
Qed.

Lemma remove_skipping_separate {A} (p : A -> bool) l :
  separate p l -> remove_skipping p l = filter (fun x => negb (p x)) l.
Proof.
  induction l as [|x r IH]; [reflexivity|].
  intros H. cbn [remove_skipping filter].
  destruct r as [|y r'].
  - now destruct (p x).
  - destruct H as [Hxy Hr]. specialize (IH Hr).
    destruct (p x) eqn:Hx; cbn [negb].
    + specialize (Hxy eq_refl). cbn [filter]. rewrite Hxy. cbn [negb].
      f_equal. cbn [remove_skipping] in IH. rewrite Hxy in IH.
      cbn [filter] in IH. rewrite Hxy in IH. cbn [negb] in IH. now inversion IH.
    + now rewrite IH.
Qed.

Section RemoveObject.
Context {FS : Type} {fsys : FileSystem FS}.

(** X11. [Package._removePkgObject] walks the list it removes from: it
    removes an entry with the given text and steps over the entry that
    follows it. When no two consecutive entries have that text, it removes
    them all; the other entries keep their content and their order. *)
Theorem removePkgObject_steps_over_next :
  forall (self self' : xmlAsFile) (name : option string) (s s' : FS)
         (o : element),
    objects self = Ok (Some o) ->
    _removePkgObject self name s = (Ok self', s') ->
    exists o',
      objects self' = Ok (Some o')
      /\ Forall2 sim
           (remove_skipping (fun c => opt_eqb (text c) name) (children o))
           (children o')
      /\ (separate (fun c => opt_eqb (text c) name) (children o) ->
          Forall2 sim
            (filter (fun c => negb (opt_eqb (text c) name)) (children o))
            (children o')).
Proof.
  intros self self' name s s' o Hobj H.
  unfold objects, find in Hobj.
  destruct (nameSpaceFormatted self) as [nsf| |] eqn:Hnsf; try discriminate.
  injection Hobj as Hfind.
  unfold _removePkgObject in H. unfold bind at 1, lift at 1 in H.
  rewrite Hnsf, Hfind in H.
  apply write_inv in H as (ns & s1 & _ & _ & _ & ->).
  cbn [root _package path].
  set (f := fun o0 => set_children
                        (remove_loop (length (children o0)) 0 name (children o0)) o0).
  assert (Hup : find_in nsf (update_found nsf (L "Objects") f (root self)) [L "Objects"]
                = Some (f o)).
  { apply find_update_found; [exact Hfind|].
    rewrite find_in_single in Hfind. apply find_some in Hfind as [_ Hm].
    unfold f. now destruct o. }
  destruct (find_sim nsf _ _ _ _ (indent_sim _ 0) Hup) as (o' & Hf' & Hs').
  assert (Hkids : Forall2 sim
                    (remove_skipping (fun c => opt_eqb (text c) name) (children o))
                    (children o')).
  { apply sim_children in Hs'.
    replace (children (f o))
      with (remove_skipping (fun c => opt_eqb (text c) name) (children o)) in Hs'.
    + exact Hs'.
    + unfold f. replace (children (set_children _ o))
        with (remove_loop (length (children o)) 0 name (children o))
        by now destruct o.
      symmetry. exact (remove_loop_skipping name (length (children o)) [] (children o)
                         (le_n _)). }
  exists o'. split; [|split].
  - unfold objects, find.
    replace (nameSpaceFormatted
               (XmlAsFile (path self)
                  (_indentXml 0 (update_found nsf (L "Objects") f (root self)))))
      with (Ok (A := string) nsf).
    + cbn [root _package]. now rewrite Hf'.
    + rewrite <- Hnsf. apply nameSpaceFormatted_tag. cbn [root _package].
      rewrite <- (sim_tag _ _ (indent_sim _ 0)). symmetry. apply tag_update_found.
  - exact Hkids.
  - intros Hsep. now rewrite <- (remove_skipping_separate _ _ Hsep).
Qed.

End RemoveObject.

(** ** [SwDeploymentTable.deployTask], before and after the file is read again *)

Lemma Forall2_sim_filter (f : element -> bool) l l' :
  (forall a b, sim a b -> f a = f b) ->
  Forall2 sim l l' -> Forall2 sim (filter f l) (filter f l').
Proof.
  intros Hf. induction 1 as [|a b r r' Hab Hr IH]; simpl; [constructor|].
  rewrite <- (Hf a b Hab). destruct (f a); [constructor|]; auto.
Qed.

Lemma findall_from_sim nsf levels :
  forall nodes nodes',
    Forall2 sim nodes nodes' ->
    Forall2 sim (findall_from nsf levels nodes) (findall_from nsf levels nodes').
Proof.
  induction levels as [|lv rest IH]; intros nodes nodes' H; [exact H|].
  cbn [findall_from]. apply IH.
  induction H as [|a b r r' Hab Hr IHr]; simpl; [constructor|].
  apply Forall2_app; [|exact IHr].
  apply Forall2_sim_filter; [intros; now apply matches_sim | now apply sim_children].
Qed.

Lemma findall_in_sim nsf levels t t' :
  sim t t' -> Forall2 sim (findall_in nsf t levels) (findall_in nsf t' levels).
Proof. intros H. apply findall_from_sim. now repeat constructor. Qed.

Lemma findall_two nsf lv1 lv2 t :
  findall_in nsf t [lv1; lv2]
  = filter (matches nsf lv2)
      (flat_map children (filter (matches nsf lv1) (children t))).
Proof.
  unfold findall_in. cbn [findall_from flat_map]. rewrite app_nil_r.
  induction (filter (matches nsf lv1) (children t)) as [|c r IH]; [reflexivity|].
  cbn [flat_map]. now rewrite filter_app, IH.
Qed.

Lemma grandchildren_update_first nsf lv1 lv2 e cs :
  matches nsf lv2 e = false ->
  filter (matches nsf lv2)
    (flat_map children
       (filter (matches nsf lv1) (update_first (matches nsf lv1) (append e) cs)))
  = filter (matches nsf lv2)
      (flat_map children (filter (matches nsf lv1) cs)).
Proof.
  intros He. induction cs as [|c r IH]; [reflexivity|].
  cbn [update_first]. destruct (matches nsf lv1 c) eqn:Hc.
  - cbn [filter]. rewrite matches_append, Hc. cbn [flat_map].
    rewrite children_append, !filter_app. cbn [filter]. rewrite He.
    now rewrite app_nil_r.
  - cbn [filter]. rewrite Hc. exact IH.
Qed.

Lemma plain_tag_not_qualified nsf t :
  nsf <> "" -> (nsf = "" \/ startswith nsf "{" = true) ->
  startswith t "{" = false ->
  String.eqb t (nsf ^^ t) = false.
Proof.
  intros Hne [H|H] Ht; [contradiction|].
  destruct nsf as [|a nsf]; [contradiction|].
  change (startswith (String a nsf) "{")
    with (Ascii.eqb "{" a && startswith nsf "") in H.
  apply andb_true_iff in H as [Ha _].
  apply Ascii.eqb_eq in Ha. subst a.
  destruct t as [|b t]; [reflexivity|].
  change (startswith (String b t) "{")
    with (Ascii.eqb "{" b && startswith t "") in Ht.
  change ((String b t =? String "{" nsf ^^ String b t)%string)
    with (Ascii.eqb b "{" && (t =? nsf ^^ String b t)%string).
  rewrite (Ascii.eqb_sym b "{").
  destruct (Ascii.eqb "{" b); [|reflexivity].
  destruct t; discriminate.
Qed.

Lemma nameSpaceFormatted_shape self nsf :
  nameSpaceFormatted self = Ok nsf -> nsf = "" \/ startswith nsf "{" = true.
Proof.
  unfold nameSpaceFormatted, _getASNamespaceFormatted.
  destruct (_getASNamespace (root self)) as [ns| |]; try discriminate.
  intros H. injection H as <-. apply format_ns_shape.
Qed.

Section DeployTask.
Context {FS : Type} {fsys : FileSystem FS}.

(** X12. In a document with a namespace, the [Task] element that
    [deployTask] appends has no namespace, and the look-up that guards
    against deploying a task twice does not find it in the tree in memory:
    after a deployment it still answers [None], and the class has one child
    more. *)
Theorem deployTask_not_seen_until_reload :
  forall (self self' : xmlAsFile) (taskFolder taskName taskClass : string)
         (d : ascii) (nsf : string) (s s' : FS),
    nameSpaceFormatted self = Ok nsf -> nsf <> "" ->
    first_digit taskClass = Some d ->
    find self [Lp "TaskClass" "Name" ("Cyclic#" ^^ String d "");
               Lp "Task" "Name" (take_str 10 taskName)] = Ok None ->
    deployTask self taskFolder taskName taskClass s = (Ok self', s') ->
    find self' [Lp "TaskClass" "Name" ("Cyclic#" ^^ String d "");
                Lp "Task" "Name" (take_str 10 taskName)] = Ok None
    /\ exists tc tc',
         find self [Lp "TaskClass" "Name" ("Cyclic#" ^^ String d "")] = Ok (Some tc)
         /\ find self' [Lp "TaskClass" "Name" ("Cyclic#" ^^ String d "")]
            = Ok (Some tc')
         /\ length (children tc') = S (length (children tc)).
Proof.
  intros self self' taskFolder taskName taskClass d nsf s s' Hnsf Hne Hd Hpre H.
  unfold deployTask in H. rewrite Hd in H.
  set (tcl := Lp "TaskClass" "Name" ("Cyclic#" ^^ String d "")) in *.
  set (tk := Lp "Task" "Name" (take_str 10 taskName)) in *.
  unfold bind at 1, lift at 1 in H.
  destruct (find self [tcl]) as [tco| |] eqn:Htc; try discriminate.
  unfold bind at 1, lift at 1 in H. rewrite Hpre in H.
  unfold bind at 1 in H.
  destruct (_createTaskElement taskFolder taskName s) as [[elem| |] s1] eqn:Hel;
    try discriminate.
  destruct tco as [tc|]; [|discriminate].
  unfold bind at 1, lift at 1 in H. rewrite Hnsf in H.
  assert (Htag : tag elem = "Task").
  { unfold _createTaskElement, bind in Hel.
    destruct (Task_init (join (join "Logical" taskFolder) taskName) s)
      as [[[language|]| |] s0]; try discriminate.
    unfold ret in Hel. now inversion Hel. }
  apply write_inv in H as (ns & s2 & _ & _ & _ & ->).
  cbn [root _package path].
  set (root1 := update_found nsf tcl (append elem) (root self)).
  assert (Hn' : nameSpaceFormatted (XmlAsFile (path self) (_indentXml 0 root1))
                = Ok nsf).
  { rewrite <- Hnsf. apply nameSpaceFormatted_tag. cbn [root _package].
    rewrite <- (sim_tag _ _ (indent_sim _ 0)). apply tag_update_found. }
  unfold find in Htc, Hpre |- *. rewrite Hnsf in Htc, Hpre. rewrite Hn'.
  cbn [root _package].
  injection Htc as Htc. injection Hpre as Hpre.
  split.
  - assert (Hm : matches nsf tk elem = false).
    { unfold matches, tk, Lp. cbn [lv_tag lv_pred]. rewrite Htag.
      rewrite (plain_tag_not_qualified nsf "Task" Hne
                 (nameSpaceFormatted_shape _ _ Hnsf) eq_refl).
      reflexivity. }
    assert (H0 : findall_in nsf (root self) [tcl; tk] = []).
    { unfold find_in in Hpre. now destruct (findall_in nsf (root self) [tcl; tk]). }
    assert (H1 : findall_in nsf root1 [tcl; tk] = []).
    { rewrite findall_two in *. unfold root1. rewrite children_update_found.
      now rewrite grandchildren_update_first. }
    pose proof (findall_in_sim nsf [tcl; tk] _ _ (indent_sim root1 0)) as Hs.
    rewrite H1 in Hs. unfold find_in.
    destruct (findall_in nsf (_indentXml 0 root1) [tcl; tk]); [reflexivity|].
    inversion Hs.
  - assert (Hup : find_in nsf root1 [tcl] = Some (append elem tc)).
    { apply find_update_found; [exact Htc|]. rewrite matches_append.
      rewrite find_in_single in Htc. now apply find_some in Htc. }
    destruct (find_sim nsf tcl _ _ _ (indent_sim _ 0) Hup) as (tc' & Hf' & Hs').
    exists tc, tc'. split; [reflexivity|]. split; [now rewrite Hf'|].
    apply sim_children, Forall2_length in Hs'. rewrite <- Hs', children_append.
    rewrite length_app. simpl. lia.
Qed.


Lemma children_reparse_elem nsf c :
  children (reparse_elem nsf c) = map (reparse_elem nsf) (children c).
Proof. now destruct c. Qed.

Lemma reparse_two_levels nsf lv1 lv2 t c e :
  In c (children t) -> qmatches nsf lv1 c = true ->
  In e (children c) -> qmatches nsf lv2 e = true ->
  exists e', find_in nsf (set_tail None (reparse_elem nsf t)) [lv1; lv2] = Some e'.
Proof.
  intros Hc Hm1 He Hm2.
  assert (Hin : In (reparse_elem nsf e)
                   (findall_in nsf (set_tail None (reparse_elem nsf t)) [lv1; lv2])).
  { rewrite findall_two, reparse_children. apply filter_In.
    split; [|now rewrite reparse_elem_matches].
    apply in_flat_map. exists (reparse_elem nsf c). split.
    - apply filter_In. split; [now apply in_map|].
      now rewrite reparse_elem_matches.
    - rewrite children_reparse_elem. now apply in_map. }
  unfold find_in.
  destruct (findall_in nsf (set_tail None (reparse_elem nsf t)) [lv1; lv2]) as [|x r];
    [contradiction | now exists x].
Qed.


(** X13. Once the file is read again, the deployed task is found, and
    deploying it again returns without a change to the table or the
    file. *)
Theorem deployTask_seen_after_reload :
  forall (self self' self2 : xmlAsFile) (taskFolder taskName taskClass : string)
         (d : ascii) (s s' s2 : FS),
    reads_back ->
    first_digit taskClass = Some d ->
    find self [Lp "TaskClass" "Name" ("Cyclic#" ^^ String d "");
               Lp "Task" "Name" (take_str 10 taskName)] = Ok None ->
    deployTask self taskFolder taskName taskClass s = (Ok self', s') ->
    read (path self) s' = (Ok self2, s2) ->
    closed_tag (tag (root self2)) ->
    (exists e,
        find self2 [Lp "TaskClass" "Name" ("Cyclic#" ^^ String d "");
                    Lp "Task" "Name" (take_str 10 taskName)] = Ok (Some e))
    /\ deployTask self2 taskFolder taskName taskClass s2 = (Ok self2, s2).
Proof.
  intros self self' self2 taskFolder taskName taskClass d s s' s2
         [_ Hrb] Hd Hpre H Hread Hclosed.
  assert (Hgoal : exists e,
             find self2 [Lp "TaskClass" "Name" ("Cyclic#" ^^ String d "");
                         Lp "Task" "Name" (take_str 10 taskName)] = Ok (Some e)).
  { unfold deployTask in H. rewrite Hd in H.
    set (tcl := Lp "TaskClass" "Name" ("Cyclic#" ^^ String d "")) in *.
    set (tk := Lp "Task" "Name" (take_str 10 taskName)) in *.
    unfold bind at 1, lift at 1 in H.
    destruct (find self [tcl]) as [tco| |] eqn:Htc; try discriminate.
    unfold bind at 1, lift at 1 in H. rewrite Hpre in H.
    unfold bind at 1 in H.
    destruct (_createTaskElement taskFolder taskName s) as [[elem| |] s1] eqn:Hel;
      try discriminate.
    destruct tco as [tc|]; [|discriminate].
    unfold bind at 1, lift at 1 in H.
    destruct (nameSpaceFormatted self) as [nsf| |] eqn:Hnsf; try discriminate.
    assert (Helem : tag elem = "Task"
                    /\ get elem "Name" = Some (PStr (take_str 10 taskName))).
    { unfold _createTaskElement, bind in Hel.
      destruct (Task_init (join (join "Logical" taskFolder) taskName) s)
        as [[[language|]| |] s0]; try discriminate.
      unfold ret in Hel. inversion Hel. split; [reflexivity|].
      unfold get. cbn [attrib dict_get]. now rewrite String.eqb_refl. }
    destruct Helem as [Htag Hname].
    apply write_inv in H as (ns & s3 & Hns & Hreg & Hw & ->).
    cbn [root _package path] in *.
    set (root1 := update_found nsf tcl (append elem) (root self)) in *.
    apply read_inv in Hread as (t & Hparse & ->).
    cbn [root _package] in *.
    pose proof (Hrb _ _ _ _ _ _ _ _ Hreg Hw Hparse) as Ht. subst t.
    assert (Hns' : _getASNamespace (_indentXml 0 root1) = Ok ns).
    { rewrite <- Hns. apply namespace_same_tag.
      symmetry. apply (sim_tag _ _ (indent_sim _ 0)). }
    assert (Hnsf' : nsf = format_ns ns).
    { unfold nameSpaceFormatted, _getASNamespaceFormatted in Hnsf.
      rewrite (namespace_same_tag (root self) root1) in Hnsf
        by (symmetry; apply tag_update_found).
      rewrite Hns in Hnsf. now inversion Hnsf. }
    unfold find in Htc. rewrite Hnsf in Htc. injection Htc as Htc.
    assert (Hup : find_in nsf root1 [tcl] = Some (append elem tc)).
    { apply find_update_found; [exact Htc|]. rewrite matches_append.
      rewrite find_in_single in Htc. now apply find_some in Htc. }
    destruct (find_sim nsf tcl _ _ _ (indent_sim _ 0) Hup) as (tc' & Hf' & Hs').
    (* the class has the new element as its last child *)
    apply sim_children in Hs'. rewrite children_append in Hs'.
    destruct (Forall2_sim_snoc _ _ _ Hs') as (kids & e' & Hk & _ & He').
    rewrite find_in_single in Hf'. apply find_some in Hf' as [Hin' Hm'].
    assert (Hq1 : qmatches nsf tcl tc' = true).
    { rewrite Hnsf'. apply matches_qmatches. now rewrite <- Hnsf'. }
    assert (Hq2 : qmatches nsf tk e' = true).
    { rewrite <- (qmatches_sim nsf tk _ _ He').
      unfold qmatches, matches, tk, Lp. cbn [lv_tag lv_pred].
      replace (tag (set_tag (qualify nsf (tag elem)) elem))
        with (qualify nsf (tag elem)) by now destruct elem.
      replace (get (set_tag (qualify nsf (tag elem)) elem) "Name")
        with (get elem "Name") by now destruct elem.
      rewrite Htag, Hname. unfold qualify. cbn [startswith].
      change (Ascii.eqb "{" "T") with false. cbn [andb].
      rewrite String.eqb_refl. cbn [pyval_eqb andb]. apply String.eqb_refl. }
    assert (Hine : In e' (children tc')) by (rewrite Hk; apply in_or_app; right; now left).
    assert (Hex : existsb (qmatches (format_ns ns) tcl) (children (_indentXml 0 root1))
                  = true).
    { apply existsb_exists. exists tc'. split; [exact Hin'|]. now rewrite <- Hnsf'. }
    destruct (reparse_found _ _ tcl Hns' Hclosed Hex) as [Hns2 _].
    rewrite (reparse_eq _ _ Hns' Hclosed) in *.
    destruct (reparse_two_levels nsf tcl tk _ _ _ Hin' Hq1 Hine Hq2) as (e2 & He2).
    exists e2. unfold find, nameSpaceFormatted, _getASNamespaceFormatted.
    cbn [root _package]. rewrite Hns2, <- Hnsf'. now rewrite He2. }
  split; [exact Hgoal|].
  destruct Hgoal as (e & He).
  unfold deployTask. rewrite Hd. unfold bind at 1, lift at 1.
  assert (Htc2 : exists r, find self2 [Lp "TaskClass" "Name" ("Cyclic#" ^^ String d "")]
                           = Ok r).
  { unfold find in He |- *. destruct (nameSpaceFormatted self2); try discriminate.
    eauto. }
  destruct Htc2 as (r & ->).
  unfold bind at 1, lift at 1. rewrite He. reflexivity.
Qed.

End DeployTask.

(** ** [SwDeploymentTable.deployLibrary] *)

Lemma dict_get_set_other {V} k k' (v : V) l :
  k <> k' -> dict_get k (dict_set k' v l) = dict_get k l.
Proof.
  intros Hk. induction l as [|[k0 v0] r IH]; simpl.
  - destruct (String.eqb k k') eqn:E; [|reflexivity].
    apply String.eqb_eq in E. contradiction.
  - destruct (String.eqb k' k0) eqn:E0; simpl.
    + apply String.eqb_eq in E0. subst k0.
      destruct (String.eqb k k') eqn:E; [|reflexivity].
      apply String.eqb_eq in E. contradiction.
    + destruct (String.eqb k k0); [reflexivity | exact IH].
Qed.

Lemma dict_get_app {V} k (a b : list (string * V)) :
  dict_get k (a ++ b)
  = match dict_get k a with Some v => Some v | None => dict_get k b end.
Proof.
  induction a as [|[k0 v0] r IH]; simpl; [reflexivity|].
  destruct (String.eqb k k0); [reflexivity | exact IH].
Qed.

Lemma apply_overrides_get k overrides :
  forall attributes,
    dict_get k (apply_overrides overrides attributes)
    = match last_assigned k overrides with
      | Some v => Some v
      | None => dict_get k attributes
      end.
Proof.
  unfold apply_overrides, last_assigned.
  induction overrides as [|[k0 v0] r IH]; intros attributes; [reflexivity|].
  cbn [fold_left fst snd rev]. rewrite IH, dict_get_app.
  destruct (dict_get k (rev r)); [reflexivity|].
  cbn [dict_get]. destruct (String.eqb k k0) eqn:E.
  - apply String.eqb_eq in E. subst k0. apply dict_get_set.
  - apply dict_get_set_other. now apply String.eqb_neq.
Qed.

Section DeployLibrary.
Context {FS : Type} {fsys : FileSystem FS}.

(** X14. [_createLibraryElement] always returns, without a change to the
    filesystem, a [LibraryObject] element without children in which every
    key of [attributeOverrides] has the value given there, and every other
    key its default: the name, the dotted source path under ["Libraries"],
    the memory, the language found on disk and ["true"] for debugging. *)
Theorem createLibraryElement_overrides_win :
  forall (libraryFolder name memory : string)
         (attributeOverrides : list (string * pyval)) (s : FS),
  exists e,
    _createLibraryElement libraryFolder name memory attributeOverrides s = (Ok e, s)
    /\ tag e = "LibraryObject" /\ children e = []
    /\ forall k,
         get e k
         = match last_assigned k attributeOverrides with
           | Some v => Some v
           | None =>
               dict_get k
                 [("Name", PStr name);
                  ("Source",
                   PStr ("Libraries." ^^ basename libraryFolder ^^ "." ^^ name
                         ^^ ".lby"));
                  ("Memory", PStr memory);
                  ("Language", PStr (getLibraryType (join libraryFolder name) s));
                  ("Debugging", PStr "true")]
           end.
Proof.
  intros libraryFolder name memory overrides s.
  eexists. split; [reflexivity|]. split; [reflexivity|]. split; [reflexivity|].
  intros k. unfold get. cbn [attrib]. rewrite apply_overrides_get.
  destruct (last_assigned k overrides); [reflexivity|].
  cbn [join_with]. reflexivity.
Qed.


Lemma sim_attrib a b : sim a b -> attrib a = attrib b.
Proof. now inversion 1. Qed.

Lemma Forall2_sim_names (l l' : list element) k dflt :
  Forall2 sim l l' ->
  map (fun e => get_str e k dflt) l' = map (fun e => get_str e k dflt) l.
Proof.
  induction 1 as [|a b r r' Hab Hr IH]; [reflexivity|].
  simpl. rewrite IH. f_equal. unfold get_str, get.
  now rewrite (sim_attrib _ _ Hab).
Qed.

Lemma reparse_two_levels_in nsf lv1 lv2 t c e :
  In c (children t) -> qmatches nsf lv1 c = true ->
  In e (children c) -> qmatches nsf lv2 e = true ->
  In (reparse_elem nsf e)
     (findall_in nsf (set_tail None (reparse_elem nsf t)) [lv1; lv2]).
Proof.
  intros Hc Hm1 He Hm2.
  rewrite findall_two, reparse_children. apply filter_In.
  split; [|now rewrite reparse_elem_matches].
  apply in_flat_map. exists (reparse_elem nsf c). split.
  - apply filter_In. split; [now apply in_map|].
    now rewrite reparse_elem_matches.
  - rewrite children_reparse_elem. now apply in_map.
Qed.

Lemma already_listed_in library' library libs :
  Forall (fun v => exists n, v = PStr n) libs ->
  In (PStr library) libs ->
  lower library' = lower library ->
  already_listed library' libs = Ok true.
Proof.
  intros Hall Hin Hl. induction libs as [|v r IH]; [contradiction|].
  inversion Hall as [|? ? [n ->] Hr]; subst.
  cbn [already_listed]. destruct (String.eqb (lower n) (lower library')) eqn:E;
    [reflexivity|].
  destruct Hin as [Hin|Hin].
  - inversion Hin; subst n. rewrite Hl, String.eqb_refl in E. discriminate.
  - now apply IH.
Qed.


Lemma createLibraryElement_inv folder name memory overrides (s s' : FS) e :
  _createLibraryElement folder name memory overrides s = (Ok e, s') ->
  s' = s /\ tag e = "LibraryObject"
  /\ (last_assigned "Name" overrides = None -> get e "Name" = Some (PStr name)).
Proof.
  intros H.
  unfold _createLibraryElement, bind, ask, ret in H.
  inversion H; subst e s'. clear H.
  split; [reflexivity|]. split; [reflexivity|].
  intros Hn. unfold get. cbn [attrib]. rewrite apply_overrides_get, Hn.
  reflexivity.
Qed.

Lemma deployLibrary_inv self self' folder library attrs (s s' : FS) libs :
  SwDeploymentTable_libraries self = Ok libs ->
  already_listed library libs = Ok false ->
  deployLibrary self folder library attrs s = (Ok self', s') ->
  exists nsf o elem,
    nameSpaceFormatted self = Ok nsf
    /\ find_in nsf (root self) [L "Libraries"] = Some o
    /\ _createLibraryElement folder library "UserROM" attrs s = (Ok elem, s)
    /\ write (XmlAsFile (path self)
                (update_found nsf (L "Libraries") (append elem) (root self))) s
       = (Ok self', s').
Proof.
  intros Hlibs Hno H. unfold deployLibrary in H.
  unfold bind at 1, lift at 1 in H.
  destruct (find self [L "Libraries"]) as [obj| |] eqn:Hobj; try discriminate.
  unfold bind at 1, lift at 1 in H. rewrite Hlibs in H.
  unfold bind at 1, lift at 1 in H. rewrite Hno in H.
  unfold bind at 1 in H.
  destruct (_createLibraryElement folder library "UserROM" attrs s)
    as [[elem| |] s1] eqn:Hel; try discriminate.
  destruct (createLibraryElement_inv _ _ _ _ _ _ _ Hel) as (-> & _).
  destruct obj as [o|]; [|discriminate].
  unfold bind at 1, lift at 1 in H.
  destruct (nameSpaceFormatted self) as [nsf| |] eqn:Hnsf; try discriminate.
  unfold find in Hobj. rewrite Hnsf in Hobj. injection Hobj as Hobj.
  exists nsf, o, elem. now repeat split.
Qed.

(** X15. In a document with a namespace, the element [deployLibrary]
    appends is not among [libraries] of the table in memory, which stay
    what they were, while the [Libraries] node has one child more: the check
    against deploying a library twice does not see a library deployed
    through the same object. *)
Theorem deployLibrary_not_listed_until_reload :
  forall (self self' : xmlAsFile) (libraryFolder library : string)
         (attributes : list (string * pyval)) (nsf : string)
         (libs : list pyval) (s s' : FS),
    nameSpaceFormatted self = Ok nsf -> nsf <> "" ->
    SwDeploymentTable_libraries self = Ok libs ->
    already_listed library libs = Ok false ->
    deployLibrary self libraryFolder library attributes s = (Ok self', s') ->
    SwDeploymentTable_libraries self' = Ok libs
    /\ exists o o',
         find self [L "Libraries"] = Ok (Some o)
         /\ find self' [L "Libraries"] = Ok (Some o')
         /\ length (children o') = S (length (children o)).
Proof.
  intros self self' folder library attrs nsf libs s s' Hnsf Hne Hlibs Hno H.
  destruct (deployLibrary_inv _ _ _ _ _ _ _ _ Hlibs Hno H)
    as (nsf0 & o & elem & Hnsf0 & Hobj & Hel & Hw).
  rewrite Hnsf in Hnsf0. injection Hnsf0 as <-.
  destruct (createLibraryElement_inv _ _ _ _ _ _ _ Hel) as (_ & Htag & _).
  apply write_inv in Hw as (ns & s2 & _ & _ & _ & ->).
  cbn [root _package path].
  set (root1 := update_found nsf (L "Libraries") (append elem) (root self)).
  assert (Hn' : nameSpaceFormatted (XmlAsFile (path self) (_indentXml 0 root1))
                = Ok nsf).
  { rewrite <- Hnsf. apply nameSpaceFormatted_tag. cbn [root _package].
    rewrite <- (sim_tag _ _ (indent_sim _ 0)). apply tag_update_found. }
  split.
  - unfold SwDeploymentTable_libraries, findall in Hlibs |- *.
    rewrite Hnsf in Hlibs. rewrite Hn'. cbn [root _package].
    injection Hlibs as <-. f_equal.
    assert (Hm : matches nsf (L "LibraryObject") elem = false).
    { unfold matches, L. cbn [lv_tag lv_pred]. rewrite Htag.
      rewrite (plain_tag_not_qualified nsf "LibraryObject" Hne
                 (nameSpaceFormatted_shape _ _ Hnsf) eq_refl).
      reflexivity. }
    assert (H1 : findall_in nsf root1 [L "Libraries"; L "LibraryObject"]
                 = findall_in nsf (root self) [L "Libraries"; L "LibraryObject"]).
    { rewrite !findall_two. unfold root1. rewrite children_update_found.
      now apply grandchildren_update_first. }
    rewrite <- H1. apply Forall2_sim_names.
    apply findall_in_sim, indent_sim.
  - assert (Hup : find_in nsf root1 [L "Libraries"] = Some (append elem o)).
    { apply find_update_found; [exact Hobj|]. rewrite matches_append.
      rewrite find_in_single in Hobj. now apply find_some in Hobj. }
    destruct (find_sim nsf (L "Libraries") _ _ _ (indent_sim _ 0) Hup)
      as (o' & Hf' & Hs').
    exists o, o'. unfold find. rewrite Hnsf, Hn'. cbn [root _package].
    rewrite Hobj, Hf'. split; [reflexivity|]. split; [reflexivity|].
    apply sim_children, Forall2_length in Hs'. rewrite <- Hs', children_append.
    rewrite length_app. simpl. lia.
Qed.

(** X16. Once the file is read again, the deployed library is among
    [libraries]; and when these are all strings, deploying a library of that
    name, in whatever case, returns without a change to the table or the
    file. *)
Theorem deployLibrary_listed_after_reload :
  forall (self self' self2 : xmlAsFile) (libraryFolder library : string)
         (attributes : list (string * pyval)) (libs : list pyval)
         (s s' s2 : FS),
    reads_back ->
    SwDeploymentTable_libraries self = Ok libs ->
    already_listed library libs = Ok false ->
    last_assigned "Name" attributes = None ->
    deployLibrary self libraryFolder library attributes s = (Ok self', s') ->
    read (path self) s' = (Ok self2, s2) ->
    closed_tag (tag (root self2)) ->
    exists libs2,
      SwDeploymentTable_libraries self2 = Ok libs2
      /\ In (PStr library) libs2
      /\ (Forall (fun v => exists n, v = PStr n) libs2 ->
          forall library' attributes',
            lower library' = lower library ->
            deployLibrary self2 libraryFolder library' attributes' s2
            = (Ok self2, s2)).
Proof.
  intros self self' self2 folder library attrs libs s s' s2
         [_ Hrb] Hlibs Hno Hname H Hread Hclosed.
  destruct (deployLibrary_inv _ _ _ _ _ _ _ _ Hlibs Hno H)
    as (nsf & o & elem & Hnsf & Hobj & Hel & Hw).
  destruct (createLibraryElement_inv _ _ _ _ _ _ _ Hel) as (_ & Htag & Hn).
  specialize (Hn Hname).
  apply write_inv in Hw as (ns & s3 & Hns & Hreg & Hw & ->).
  cbn [root _package path] in *.
  set (root1 := update_found nsf (L "Libraries") (append elem) (root self)) in *.
  apply read_inv in Hread as (t & Hparse & ->).
  cbn [root _package] in *.
  pose proof (Hrb _ _ _ _ _ _ _ _ Hreg Hw Hparse) as Ht. subst t.
  assert (Hns' : _getASNamespace (_indentXml 0 root1) = Ok ns).
  { rewrite <- Hns. apply namespace_same_tag.
    symmetry. apply (sim_tag _ _ (indent_sim _ 0)). }
  assert (Hnsf' : nsf = format_ns ns).
  { unfold nameSpaceFormatted, _getASNamespaceFormatted in Hnsf.
    rewrite (namespace_same_tag (root self) root1) in Hnsf
      by (symmetry; apply tag_update_found).
    rewrite Hns in Hnsf. now inversion Hnsf. }
  assert (Hup : find_in nsf root1 [L "Libraries"] = Some (append elem o)).
  { apply find_update_found; [exact Hobj|]. rewrite matches_append.
    rewrite find_in_single in Hobj. now apply find_some in Hobj. }
  destruct (find_sim nsf (L "Libraries") _ _ _ (indent_sim _ 0) Hup)
    as (o' & Hf' & Hs').
  apply sim_children in Hs'. rewrite children_append in Hs'.
  destruct (Forall2_sim_snoc _ _ _ Hs') as (kids & e' & Hk & _ & He').
  rewrite find_in_single in Hf'. apply find_some in Hf' as [Hin' Hm'].
  assert (Hq1 : qmatches nsf (L "Libraries") o' = true).
  { rewrite Hnsf'. apply matches_qmatches. now rewrite <- Hnsf'. }
  assert (Hq2 : qmatches nsf (L "LibraryObject") e' = true).
  { rewrite <- (qmatches_sim nsf _ _ _ He').
    unfold qmatches, matches, L. cbn [lv_tag lv_pred].
    replace (tag (set_tag (qualify nsf (tag elem)) elem))
      with (qualify nsf (tag elem)) by now destruct elem.
    rewrite Htag. unfold qualify. cbn [startswith].
    change (Ascii.eqb "{" "L") with false. cbn [andb].
    rewrite String.eqb_refl. reflexivity. }
  assert (Hine : In e' (children o'))
    by (rewrite Hk; apply in_or_app; right; now left).
  assert (Hex : existsb (qmatches (format_ns ns) (L "Libraries"))
                  (children (_indentXml 0 root1)) = true).
  { apply existsb_exists. exists o'. split; [exact Hin'|]. now rewrite <- Hnsf'. }
  destruct (reparse_found _ _ (L "Libraries") Hns' Hclosed Hex) as [Hns2 _].
  rewrite (reparse_eq _ _ Hns' Hclosed) in *.
  pose proof (reparse_two_levels_in nsf (L "Libraries") (L "LibraryObject")
                _ _ _ Hin' Hq1 Hine Hq2) as Hin2.
  assert (Hn2 : nameSpaceFormatted
                  (XmlAsFile (path self)
                     (set_tail None (reparse_elem (format_ns ns) (_indentXml 0 root1))))
                = Ok nsf).
  { unfold nameSpaceFormatted, _getASNamespaceFormatted. cbn [root _package].
    now rewrite Hns2, Hnsf'. }
  assert (Hl2 : SwDeploymentTable_libraries
                  (XmlAsFile (path self)
                     (set_tail None (reparse_elem (format_ns ns) (_indentXml 0 root1))))
                = Ok (map (fun e => get_str e "Name" "Unknown")
                        (findall_in nsf
                           (set_tail None (reparse_elem nsf (_indentXml 0 root1)))
                           [L "Libraries"; L "LibraryObject"]))).
  { unfold SwDeploymentTable_libraries, findall. rewrite Hn2. cbn [root _package].
    now rewrite <- Hnsf'. }
  eexists. split; [exact Hl2|].
  assert (Hmem : In (PStr library)
                    (map (fun e => get_str e "Name" "Unknown")
                       (findall_in nsf
                          (set_tail None (reparse_elem nsf (_indentXml 0 root1)))
                          [L "Libraries"; L "LibraryObject"]))).
  { apply in_map_iff. exists (reparse_elem nsf e'). split; [|exact Hin2].
    unfold get_str, get.
    replace (attrib (reparse_elem nsf e')) with (attrib elem).
    - unfold get in Hn. now rewrite Hn.
    - rewrite (sim_attrib _ _ He'). now destruct e'. }
  split; [exact Hmem|].
  intros Hall library' attrs' Hl.
  unfold deployLibrary. unfold bind at 1, lift at 1.
  assert (Hf2 : exists r,
             find (XmlAsFile (path self)
                     (set_tail None (reparse_elem (format_ns ns) (_indentXml 0 root1))))
               [L "Libraries"] = Ok r).
  { unfold find. rewrite Hn2. eauto. }
  destruct Hf2 as (r & ->).
  unfold bind at 1, lift at 1. rewrite Hl2.
  unfold bind at 1, lift at 1.
  now rewrite (already_listed_in library' library _ Hall Hmem Hl).
Qed.

End DeployLibrary.

(** ** [SwDeploymentTable.__init__], a second time *)

Section TableAgain.
Context {FS : Type} {fsys : FileSystem FS}.

Lemma ensure_node_found (self : xmlAsFile) lv nm index attributes (s : FS) e :
  find self [lv] = Ok (Some e) ->
  ensure_node self lv nm index attributes s = (Ok self, s).
Proof. intros H. unfold ensure_node, bind, lift. now rewrite H. Qed.

Lemma ensure_node_path (self self' : xmlAsFile) lv nm index attributes (s s' : FS) :
  ensure_node self lv nm index attributes s = (Ok self', s') ->
  path self' = path self.
Proof.
  unfold ensure_node, bind, lift. destruct (find self [lv]) as [[e|]| |];
    try discriminate.
  - unfold ret. now inversion 1.
  - unfold _addRootLevelElement. intros H.
    apply write_inv in H as (ns & s1 & _ & _ & _ & ->). reflexivity.
Qed.

Lemma add_task_classes_path n :
  forall i (self self' : xmlAsFile) (s s' : FS),
    add_task_classes n i self s = (Ok self', s') -> path self' = path self.
Proof.
  induction n as [|n IH]; intros i self self' s s' H.
  - simpl in H. unfold ret in H. now inversion H.
  - rewrite add_task_classes_S in H. unfold bind in H.
    destruct (ensure_node self (task_class (S i)) "TaskClass" (Some i)
                [("Name", PStr (cyclic (S i)))] s) as [[self1| |] s1] eqn:E;
      try discriminate.
    rewrite (IH _ _ _ _ _ H). exact (ensure_node_path _ _ _ _ _ _ _ _ E).
Qed.

Lemma SwDeploymentTable_init_path p (s s' : FS) self :
  SwDeploymentTable_init p s = (Ok (Some self), s') -> path self = p.
Proof.
  rewrite SwDeploymentTable_init_unfold. unfold bind at 1, ask at 1.
  destruct (os_path_isfile p s); [|discriminate].
  unfold bind at 1.
  destruct (read p s) as [[self0| |] s0] eqn:E0; try discriminate.
  unfold bind at 1.
  destruct (add_task_classes 8 0 self0 s0) as [[self8| |] s8] eqn:E8;
    try discriminate.
  unfold bind at 1.
  destruct (ensure_node self8 (L "Libraries") "Libraries" None [] s8)
    as [[self9| |] s9] eqn:E9; try discriminate.
  unfold bind.
  destruct (read (path self9) s9) as [[self10| |] s10] eqn:E10; try discriminate.
  unfold ret. intros H. inversion H; subst.
  apply read_inv in E10 as (t & _ & ->). cbn [path].
  rewrite (ensure_node_path _ _ _ _ _ _ _ _ E9), (add_task_classes_path _ _ _ _ _ _ E8).
  apply read_inv in E0 as (t0 & _ & ->). reflexivity.
Qed.

Lemma add_task_classes_found n :
  forall i (self : xmlAsFile) (s : FS),
    (forall k, In k (seq (S i) n) -> exists e, find self [task_class k] = Ok (Some e)) ->
    add_task_classes n i self s = (Ok self, s).
Proof.
  induction n as [|n IH]; intros i self s H; [reflexivity|].
  rewrite add_task_classes_S. unfold bind.
  destruct (H (S i)) as (e & He); [now left|].
  rewrite (ensure_node_found _ _ _ _ _ _ _ He).
  apply IH. intros k Hk. apply H. now right.
Qed.

(** X17. Constructing a [SwDeploymentTable] on a file that an earlier
    construction left finds every node: it reads the file twice, adds and
    writes nothing, and the table it returns is the one the earlier
    construction returned. *)
Theorem SwDeploymentTable_init_again_only_reads :
  forall (p : string) (s s' : FS) (self : xmlAsFile),
    reads_back ->
    SwDeploymentTable_init p s = (Ok (Some self), s') ->
    closed_tag (tag (root self)) ->
    os_path_isfile p s' = true ->
    SwDeploymentTable_init p s'
    = (x <- read p ;; y <- read p ;; ret (Some y)) s'
    /\ forall self2 s2,
         SwDeploymentTable_init p s' = (Ok (Some self2), s2) -> self2 = self.
Proof.
  intros p s s' self Hrb H Hc Hisf.
  pose proof (SwDeploymentTable_init_path _ _ _ _ H) as Hpath.
  destruct (init_tracked p s s' self Hrb H) as (ns & t9 & s9 & _ & _ & HT).
  assert (Hfound : forall lv, In lv (L "Libraries" :: map task_class (seq 1 8)) ->
                              exists e, find self [lv] = Ok (Some e)).
  { intros lv Hlv. exact (init_nodes_found p s s' self lv Hrb H Hc Hlv). }
  assert (Hread : forall x s1, read p s' = (Ok x, s1) -> x = self).
  { intros x s1 Hx. apply read_inv in Hx as (t & Hp & ->).
    rewrite (proj1 Hrb _ _ _ _ _ _ HT Hp). rewrite <- Hpath. now destruct self. }
  assert (Heq : SwDeploymentTable_init p s'
                = (x <- read p ;; y <- read p ;; ret (Some y)) s').
  { rewrite SwDeploymentTable_init_unfold. unfold bind, ask. rewrite Hisf.
    destruct (read p s') as [[x| |] s1] eqn:Ex; try reflexivity.
    rewrite (Hread _ _ eq_refl).
    rewrite add_task_classes_found.
    - destruct (Hfound (L "Libraries")) as (e & He); [now left|].
      rewrite (ensure_node_found _ _ _ _ _ _ _ He). now rewrite Hpath.
    - intros k Hk. apply Hfound. right. now apply in_map. }
  split; [exact Heq|].
  intros self2 s2 H2. rewrite Heq in H2. unfold bind in H2.
  destruct (read p s') as [[x| |] s1] eqn:Ex; try discriminate.
  destruct (read p s1) as [[y| |] s3] eqn:Ey; try discriminate.
  unfold ret in H2. inversion H2; subst self2 s3. clear H2.
  pose proof (Hread _ _ eq_refl) as ->.
  apply read_inv in Ex as (t & Hp & Et). apply read_inv in Ey as (t' & Hp' & ->).
  rewrite (proj1 Hrb _ _ _ _ _ _ Hp Hp'). now rewrite Et.
Qed.

End TableAgain.

(** ** [Package.synchPackageFile] on a manifest without stale entries *)

Lemma add_keys_in cs : forall acc item,
  In item (add_keys cs acc)
  <-> In item acc \/ In (Some item) (map text cs).
Proof.
  induction cs as [|c r IH]; intros acc item; [simpl; tauto|].
  cbn [add_keys fold_left map]. fold (add_keys r).
  destruct (text c) as [t|] eqn:Et.
  - destruct (str_in t acc) eqn:E.
    + fold (add_keys r acc). rewrite IH. split.
      * intros [H|H]; [now left | right; now right].
      * intros [H|[H|H]]; [now left | | right; exact H].
        inversion H; subst. left. now apply str_in_In.
    + fold (add_keys r (acc ++ [t])). rewrite IH, in_app_iff. split.
      * intros [[H|[H|[]]]|H]; [now left | right; left; now subst | right; now right].
      * intros [H|[H|H]]; [left; now left | | now right].
        inversion H; subst. left. right. now left.
  - fold (add_keys r acc). rewrite IH. split.
    + intros [H|H]; [now left | right; now right].
    + intros [H|[H|H]]; [now left | discriminate | now right].
Qed.

Lemma listed_In o item : listed o item = true <-> In (Some item) (map text (children o)).
Proof.
  unfold listed. rewrite existsb_exists, in_map_iff. split.
  - intros (c & Hc & E). exists c. split; [|exact Hc].
    destruct (text c) as [t|]; [|discriminate]. simpl in E.
    apply String.eqb_eq in E. now subst.
  - intros (c & E & Hc). exists c. split; [exact Hc|]. rewrite E. simpl.
    apply String.eqb_refl.
Qed.

Lemma sim_steady a b : sim a b -> steady a -> steady b.
Proof.
  intros H Hq. pose proof (sim_text_steady _ _ H Hq) as Ht.
  inversion H as [t at_ x x' l l' cs cs' Hx Hleaf Hcs]; subst.
  unfold steady in *. cbn [children text] in *. destruct Hq as [Hq|Hq].
  - left. subst cs. now inversion Hcs.
  - right. now rewrite Ht.
Qed.

Section SynchPackage.
Context {FS : Type} {fsys : FileSystem FS}.

Lemma synch_remove_loop_nothing_stale items (self : xmlAsFile) nsf o :
  nameSpaceFormatted self = Ok nsf ->
  find_in nsf (root self) [L "Objects"] = Some o ->
  Forall (fun c => opt_in (text c) items = true) (children o) ->
  forall fuel i acc (s : FS),
    i + fuel = length (children o) ->
    synch_remove_loop fuel i items self acc s
    = (Ok (self, add_keys (skipn i (children o)) acc), s).
Proof.
  intros Hnsf Hfind Hall. induction fuel as [|f IH]; intros i acc s Hi.
  - rewrite skipn_all2 by lia. reflexivity.
  - cbn [synch_remove_loop]. unfold bind at 1, lift at 1. rewrite Hnsf, Hfind.
    destruct (nth_error (children o) i) as [c|] eqn:En.
    + rewrite Forall_forall in Hall.
      rewrite (Hall c (nth_error_In _ _ En)). cbn [negb].
      rewrite IH by lia.
      assert (Hs : skipn i (children o) = c :: skipn (S i) (children o)).
      { clear -En. revert i En. induction (children o) as [|x r IHr]; intros i En.
        - destruct i; discriminate.
        - destruct i; simpl in *; [now inversion En | now apply IHr]. }
      rewrite Hs. reflexivity.
    + apply nth_error_None in En. lia.
Qed.

Lemma createElement_leaf p (s s' : FS) e :
  _createElement p false s = (Ok e, s') ->
  text e = Some (basename p) /\ children e = [].
Proof.
  unfold _createElement, bind, ask, ret. intros H.
  destruct (getPkgType p s) as [[ty| |] s1]; try discriminate.
  inversion H; subst. now split.
Qed.

Lemma addPkgObject_entries (self self' : xmlAsFile) p (s s' : FS) e nsf o :
  nameSpaceFormatted self = Ok nsf ->
  find_in nsf (root self) [L "Objects"] = Some o ->
  Forall steady (children o) ->
  _addPkgObject self p false None s = (Ok (self', e), s') ->
  nameSpaceFormatted self' = Ok nsf
  /\ path self' = path self
  /\ exists o',
       find_in nsf (root self') [L "Objects"] = Some o'
       /\ map text (children o') = map text (children o) ++ [Some (basename p)]
       /\ Forall steady (children o').
Proof.
  intros Hnsf Hfind Hq H. unfold _addPkgObject in H. unfold bind at 1 in H.
  destruct (_createElement p false s) as [[e0| |] s0] eqn:Ee; try discriminate.
  apply createElement_leaf in Ee as [Hte Hce].
  unfold bind at 1, lift at 1 in H. rewrite Hnsf, Hfind in H.
  unfold bind in H.
  destruct (write _ s0) as [[f| |] s1] eqn:Ew; try discriminate.
  unfold ret in H. inversion H; subst self' e s1. clear H.
  apply write_inv in Ew as (ns & s2 & _ & _ & _ & ->).
  cbn [root _package path].
  set (root1 := update_found nsf (L "Objects") (append e0) (root self)).
  split.
  { rewrite <- Hnsf. apply nameSpaceFormatted_tag. cbn [root _package].
    rewrite <- (sim_tag _ _ (indent_sim _ 0)). apply tag_update_found. }
  split; [reflexivity|].
  assert (Hup : find_in nsf root1 [L "Objects"] = Some (append e0 o)).
  { apply find_update_found; [exact Hfind|]. rewrite matches_append.
    rewrite find_in_single in Hfind. now apply find_some in Hfind. }
  destruct (find_sim nsf _ _ _ _ (indent_sim root1 0) Hup) as (o' & Hf' & Hs').
  exists o'. split; [exact Hf'|].
  apply sim_children in Hs'. rewrite children_append in Hs'.
  assert (Hall : Forall steady (children o ++ [e0])).
  { apply Forall_app. split; [exact Hq|]. constructor; [now left | constructor]. }
  split.
  - rewrite (Forall2_sim_texts _ _ Hs' Hall), map_app. simpl. now rewrite Hte.
  - clear -Hs' Hall. induction Hs' as [|a b r r' Hab Hr IH]; [constructor|].
    inversion Hall; subst. constructor; [now apply (sim_steady a) | now apply IH].
Qed.

Lemma synch_add_loop_entries items keys :
  forall (self self' : xmlAsFile) (s s' : FS) nsf o,
    Forall plain_name items ->
    nameSpaceFormatted self = Ok nsf ->
    find_in nsf (root self) [L "Objects"] = Some o ->
    Forall steady (children o) ->
    synch_add_loop items keys self s = (Ok self', s') ->
    nameSpaceFormatted self' = Ok nsf
    /\ path self' = path self
    /\ exists o',
         find_in nsf (root self') [L "Objects"] = Some o'
         /\ map text (children o')
            = map text (children o)
              ++ map Some (filter (fun item =>
                                     negb (String.eqb item (basename (path self)))
                                     && negb (str_in item keys)) items)
         /\ Forall steady (children o').
Proof.
  induction items as [|item rest IH]; intros self self' s s' nsf o Hpl Hnsf Hfind Hq H.
  - simpl in H. unfold ret in H. inversion H; subst.
    split; [exact Hnsf|]. split; [reflexivity|].
    exists o. rewrite app_nil_r. now repeat split.
  - inversion Hpl as [|? ? [Hsep _] Hpl']; subst.
    cbn [synch_add_loop] in H. cbn [filter].
    destruct (String.eqb item (basename (path self))) eqn:Em; cbn [negb andb].
    + exact (IH _ _ _ _ _ _ Hpl' Hnsf Hfind Hq H).
    + destruct (str_in item keys) eqn:Ek; cbn [negb] in *.
      * exact (IH _ _ _ _ _ _ Hpl' Hnsf Hfind Hq H).
      * unfold bind in H.
        destruct (_addPkgObject self (join (dirPath self) item) false None s)
          as [[[self1 e]| |] s1] eqn:Ea; try discriminate.
        destruct (addPkgObject_entries _ _ _ _ _ _ _ _ Hnsf Hfind Hq Ea)
          as (Hnsf1 & Hp1 & o1 & Hf1 & Htx1 & Hq1).
        cbn [fst] in H.
        destruct (IH _ _ _ _ _ _ Hpl' Hnsf1 Hf1 Hq1 H)
          as (Hnsf2 & Hp2 & o2 & Hf2 & Htx2 & Hq2).
        split; [exact Hnsf2|]. split; [congruence|].
        exists o2. split; [exact Hf2|]. split; [|exact Hq2].
        rewrite Htx2, Htx1, basename_join, Hp1 by exact Hsep.
        now rewrite <- app_assoc.
Qed.

Lemma synchPackageFile_entries (self self' : xmlAsFile) (s s1 s' : FS)
    (items : list string) (nsf : string) (o : element) :
  nameSpaceFormatted self = Ok nsf ->
  find_in nsf (root self) [L "Objects"] = Some o ->
  os_listdir (dirPath self) s = (Ok items, s1) ->
  Forall plain_name items ->
  Forall (fun c => opt_in (text c) items = true) (children o) ->
  synchPackageFile self s = (Ok self', s') ->
  path self' = path self
  /\ nameSpaceFormatted self' = Ok nsf
  /\ exists o',
      find_in nsf (root self') [L "Objects"] = Some o'
      /\ map text (children o')
         = map text (children o)
           ++ map Some (filter (fun item =>
                                  negb (String.eqb item (basename (path self)))
                                  && negb (listed o item)) items).
Proof.
  intros Hnsf Hfind Hls Hpl Hall H.
  assert (Hq : Forall steady (children o)).
  { revert Hall. apply Forall_impl. intros c Hc. right.
    destruct (text c) as [t|]; [|discriminate]. simpl in Hc.
    apply str_in_In in Hc. rewrite Forall_forall in Hpl.
    exact (proj2 (Hpl _ Hc)). }
  unfold synchPackageFile in H. unfold bind at 1 in H. rewrite Hls in H.
  unfold bind at 1, lift at 1 in H. rewrite Hnsf, Hfind in H.
  unfold bind at 1 in H.
  rewrite (synch_remove_loop_nothing_stale items self nsf o Hnsf Hfind Hall
             (length (children o)) 0 [] s1 eq_refl) in H.
  cbn [fst snd skipn] in H. unfold bind in H.
  destruct (synch_add_loop items (add_keys (children o) []) self s1)
    as [[self2| |] s2] eqn:Ea; try discriminate.
  destruct (synch_add_loop_entries _ _ _ _ _ _ _ _ Hpl Hnsf Hfind Hq Ea)
    as (Hnsf2 & Hp2 & o2 & Hf2 & Htx2 & Hq2).
  apply write_inv in H as (ns & s3 & _ & _ & _ & ->).
  destruct (find_sim nsf _ _ _ _ (indent_sim (root self2) 0) Hf2) as (o3 & Hf3 & Hs3).
  split; [exact Hp2|]. split.
  { rewrite <- Hnsf2. symmetry. apply nameSpaceFormatted_tag. cbn [root _package].
    apply (sim_tag _ _ (indent_sim _ 0)). }
  exists o3. split; [exact Hf3|].
  apply sim_children in Hs3. rewrite (Forall2_sim_texts _ _ Hs3 Hq2), Htx2.
  f_equal. f_equal. apply filter_ext. intros item. f_equal. f_equal.
  apply eq_true_iff_eq. rewrite str_in_In, add_keys_in, listed_In.
  simpl. tauto.
Qed.

(** X19. When no entry of the manifest is stale, [Package.synchPackageFile]
    keeps the entries and appends one for each item of the directory that
    is not listed and is not the manifest itself. *)
Theorem synchPackageFile_adds_missing_items :
  forall (self self' : xmlAsFile) (s s1 s' : FS) (items : list string)
         (o : element),
    objects self = Ok (Some o) ->
    os_listdir (dirPath self) s = (Ok items, s1) ->
    Forall plain_name items ->
    Forall (fun c => opt_in (text c) items = true) (children o) ->
    synchPackageFile self s = (Ok self', s') ->
    path self' = path self
    /\ exists o',
      objects self' = Ok (Some o')
      /\ map text (children o')
         = map text (children o)
           ++ map Some (filter (fun item =>
                                  negb (String.eqb item (basename (path self)))
                                  && negb (listed o item)) items).
Proof.
  intros self self' s s1 s' items o Hobj Hls Hpl Hall H.
  unfold objects, find in Hobj.
  destruct (nameSpaceFormatted self) as [nsf| |] eqn:Hnsf; try discriminate.
  injection Hobj as Hfind.
  destruct (synchPackageFile_entries _ _ _ _ _ _ _ _ Hnsf Hfind Hls Hpl Hall H)
    as (Hp & Hnsf' & o' & Hf' & Htx).
  split; [exact Hp|].
  exists o'. split; [|exact Htx].
  unfold objects, find. now rewrite Hnsf', Hf'.
Qed.

(** X20. In that case a second call, on a directory that lists the same
    items, leaves the entries as the first call left them. *)
Theorem synchPackageFile_twice_nothing_stale :
  forall (self self1 self2 : xmlAsFile) (s s0 s1 s1' s2 : FS)
         (items : list string) (o : element),
    objects self = Ok (Some o) ->
    Forall plain_name items ->
    Forall (fun c => opt_in (text c) items = true) (children o) ->
    os_listdir (dirPath self) s = (Ok items, s0) ->
    synchPackageFile self s = (Ok self1, s1) ->
    os_listdir (dirPath self) s1 = (Ok items, s1') ->
    synchPackageFile self1 s1 = (Ok self2, s2) ->
    exists o1 o2,
      objects self1 = Ok (Some o1) /\ objects self2 = Ok (Some o2)
      /\ map text (children o2) = map text (children o1).
Proof.
  intros self self1 self2 s s0 s1 s1' s2 items o Hobj Hpl Hall Hls H1 Hls1 H2.
  unfold objects, find in Hobj.
  destruct (nameSpaceFormatted self) as [nsf| |] eqn:Hnsf; try discriminate.
  injection Hobj as Hfind.
  destruct (synchPackageFile_entries _ _ _ _ _ _ _ _ Hnsf Hfind Hls Hpl Hall H1)
    as (Hp1 & Hnsf1 & o1 & Hf1 & Htx1).
  assert (Hdir : dirPath self1 = dirPath self) by (unfold dirPath; now rewrite Hp1).
  rewrite <- Hdir in Hls1.
  assert (Hall1 : Forall (fun c => opt_in (text c) items = true) (children o1)).
  { apply Forall_forall. intros c Hc.
    assert (Hin : In (text c) (map text (children o1))) by now apply in_map.
    rewrite Htx1 in Hin. apply in_app_or in Hin as [Hin|Hin].
    - apply in_map_iff in Hin as (c0 & E & Hc0). rewrite <- E.
      rewrite Forall_forall in Hall. now apply Hall.
    - apply in_map_iff in Hin as (item & <- & Hi). apply filter_In in Hi as [Hi _].
      simpl. now apply str_in_In. }
  destruct (synchPackageFile_entries _ _ _ _ _ _ _ _ Hnsf1 Hf1 Hls1 Hpl Hall1 H2)
    as (_ & Hnsf2 & o2 & Hf2 & Htx2).
  exists o1, o2.
  split; [unfold objects, find; now rewrite Hnsf1, Hf1|].
  split; [unfold objects, find; now rewrite Hnsf2, Hf2|].
  rewrite Htx2, Hp1.
  replace (filter _ items) with (@nil string); [apply app_nil_r|].
  symmetry. apply filter_none. intros item Hi.
  destruct (String.eqb item (basename (path self))) eqn:Em; [reflexivity|].
  cbn [negb andb]. apply negb_false_iff. apply listed_In. rewrite Htx1.
  apply in_or_app. destruct (listed o item) eqn:El.
  - left. now apply listed_In.
  - right. apply in_map, filter_In. split; [exact Hi|]. now rewrite Em, El.
Qed.

End SynchPackage.

(** ** [Project._getConfigs] *)

Lemma getConfigType_range hardware :
  getConfigType hardware = "sg4" \/ getConfigType hardware = "sg4_arm".
Proof.
  unfold getConfigType, cpu_table. cbn [List.find fst snd].
  repeat match goal with
         | |- context [if ?b then _ else _] => destruct b
         end; auto.
Qed.

Section Configurations.
Context {FS : Type} {fsys : FileSystem FS}.

Lemma configs_of_configurations physicalPath objs :
  forall (s s' : FS) cfgs,
    configs_of physicalPath objs s = (Ok cfgs, s') ->
    map (fun c => Some (bc_name c)) cfgs = map text (filter is_configuration objs)
    /\ Forall (fun c => bc_path c = join physicalPath (bc_name c)
                        /\ bc_type c = getConfigType (bc_hardware c)) cfgs.
Proof.
  induction objs as [|config rest IH]; intros s s' cfgs H.
  - simpl in H. unfold ret in H. inversion H; subst. split; constructor.
  - cbn [configs_of] in H. cbn [filter]. unfold is_configuration at 1.
    destruct (get_str config "Type" "") as [ty| |]; try discriminate.
    destruct (String.eqb (lower ty) "configuration").
    + destruct (text config) as [t|] eqn:Et; [|discriminate].
      unfold bind in H.
      destruct (getHardwareFolderFromConfig (join physicalPath t) s)
        as [[hw| |] s1]; try discriminate.
      destruct (configs_of physicalPath rest s1) as [[r| |] s2] eqn:Er;
        try discriminate.
      unfold ret in H. inversion H; subst cfgs s2. clear H.
      destruct (IH _ _ _ Er) as [Hn Hall].
      split; [cbn [map bc_name]; now rewrite Hn, Et|].
      constructor; [now split | exact Hall].
    + exact (IH _ _ _ H).
Qed.

(** X21. The build configurations of a project are the objects of
    [Physical.pkg] whose [Type] is ["configuration"] in whatever case, in
    their order; each has its folder under the physical path as its path,
    and the type that [getConfigType] gives its hardware, ["sg4"] or
    ["sg4_arm"]. *)
Theorem buildConfigs_lists_configurations :
  forall (self : Project) (s s' : FS) (cfgs : list BuildConfig),
    buildConfigs self s = (Ok cfgs, s') ->
    exists physical s1 objs,
      Package_init (join (physicalPath self) "Physical.pkg") false s
      = (Ok physical, s1)
      /\ findall physical [L "Objects"; L "Object"] = Ok objs
      /\ map (fun c => Some (bc_name c)) cfgs
         = map text (filter is_configuration objs)
      /\ Forall (fun c => bc_path c = join (physicalPath self) (bc_name c)
                          /\ bc_type c = getConfigType (bc_hardware c)
                          /\ (bc_type c = "sg4" \/ bc_type c = "sg4_arm")) cfgs.
Proof.
  intros self s s' cfgs H. unfold buildConfigs in H. unfold bind at 1 in H.
  destruct (Package_init (join (physicalPath self) "Physical.pkg") false s)
    as [[physical| |] s1] eqn:Ep; try discriminate.
  unfold bind at 1, lift at 1 in H.
  destruct (findall physical [L "Objects"; L "Object"]) as [objs| |] eqn:Eo;
    try discriminate.
  destruct (configs_of_configurations _ _ _ _ _ H) as [Hn Hall].
  exists physical, s1, objs. split; [reflexivity|]. split; [exact Eo|].
  split; [exact Hn|].
  revert Hall. apply Forall_impl. intros c [Hp Ht]. split; [exact Hp|].
  split; [exact Ht|]. rewrite Ht. apply getConfigType_range.
Qed.

End Configurations.

(** ** [CpuConfig] *)

Lemma flat_map_flat_map {A B C} (f : B -> list C) (g : A -> list B) l :
  flat_map f (flat_map g l) = flat_map (fun x => flat_map f (g x)) l.
Proof.
  induction l as [|x r IH]; [reflexivity|].
  simpl. now rewrite flat_map_app, IH.
Qed.

Lemma findall_from_each nsf levels :
  forall nodes,
    findall_from nsf levels nodes
    = flat_map (fun n => findall_from nsf levels [n]) nodes.
Proof.
  induction levels as [|lv rest IH]; intros nodes.
  - simpl. induction nodes as [|n r IHr]; [reflexivity | simpl; now rewrite <- IHr].
  - cbn [findall_from]. rewrite IH, flat_map_flat_map.
    apply flat_map_ext. intros n. cbn [flat_map]. rewrite app_nil_r.
    symmetry. apply IH.
Qed.

Lemma hd_error_app_some {A} (l1 l2 : list A) x :
  hd_error l1 = Some x -> hd_error (l1 ++ l2) = Some x.
Proof. destruct l1; [discriminate | exact (fun H => H)]. Qed.

Lemma hd_error_app_none {A} (l1 l2 : list A) :
  hd_error l1 = None -> hd_error (l1 ++ l2) = hd_error l2.
Proof. destruct l1; [reflexivity | discriminate]. Qed.

Lemma elem_at_child t a x l pre c r p :
  elem_at (length pre :: p) (Element t a x l (pre ++ c :: r)) = elem_at p c.
Proof.
  cbn [elem_at children].
  replace (nth_error (pre ++ c :: r) (length pre)) with (Some c); [reflexivity|].
  symmetry. induction pre as [|y pre IH]; [reflexivity | exact IH].
Qed.

(** The reference [find_path] computes points to the element that [find]
    returns. *)
Lemma find_path_find nsf levels :
  forall e,
    (forall p, find_path nsf levels e = Some p ->
               exists x, elem_at p e = Some x
                         /\ find_in nsf e levels = Some x
                         /\ length p = length levels)
    /\ (find_path nsf levels e = None -> find_in nsf e levels = None).
Proof.
  induction levels as [|lv rest IH]; intros e.
  - split; [|discriminate]. intros p H. inversion H; subst. exists e. now repeat split.
  - destruct e as [t a x l cs].
    assert (Hgen : forall r pre,
               (forall p, first_path (fun c => if matches nsf lv c
                                               then find_path nsf rest c else None)
                            (length pre) r = Some p ->
                          exists y, elem_at p (Element t a x l (pre ++ r)) = Some y
                                    /\ hd_error
                                         (flat_map (fun n => findall_from nsf rest [n])
                                            (filter (matches nsf lv) r)) = Some y
                                    /\ length p = S (length rest))
               /\ (first_path (fun c => if matches nsf lv c
                                        then find_path nsf rest c else None)
                     (length pre) r = None ->
                   hd_error (flat_map (fun n => findall_from nsf rest [n])
                               (filter (matches nsf lv) r)) = None)).
    { induction r as [|c r IHr]; intros pre.
      - split; [discriminate | reflexivity].
      - cbn [first_path filter].
        destruct (IH c) as [IHs IHn].
        specialize (IHr (pre ++ [c])).
        rewrite length_app in IHr. cbn [length] in IHr.
        rewrite Nat.add_1_r, <- app_assoc in IHr. cbn [app] in IHr.
        destruct (matches nsf lv c) eqn:Hm.
        + cbn [flat_map]. fold (findall_in nsf c rest).
          destruct (find_path nsf rest c) as [p0|] eqn:Ep.
          * destruct (IHs p0 eq_refl) as (y & Hy & Hf & Hl).
            split; [|discriminate]. intros p H. inversion H; subst p.
            exists y. rewrite elem_at_child. split; [exact Hy|].
            split; [now apply hd_error_app_some | simpl; now rewrite Hl].
          * specialize (IHn eq_refl). unfold find_in in IHn.
            rewrite (hd_error_app_none _ _ IHn). exact IHr.
        + exact IHr. }
    destruct (Hgen cs []) as [Hs Hn]. cbn [length app] in Hs, Hn.
    assert (Hfi : find_in nsf (Element t a x l cs) (lv :: rest)
                  = hd_error (flat_map (fun n => findall_from nsf rest [n])
                                (filter (matches nsf lv) cs))).
    { unfold find_in, findall_in. cbn [findall_from flat_map children].
      rewrite app_nil_r. now rewrite findall_from_each. }
    split.
    + intros p H. destruct (Hs p H) as (y & Hy & Hh & Hl).
      exists y. rewrite Hfi. now repeat split.
    + intros H. rewrite Hfi. now apply Hn.
Qed.

Lemma nth_error_update_nth {A} (g : A -> A) l : forall i j,
  nth_error (update_nth i g l) j
  = if Nat.eqb i j then option_map g (nth_error l j) else nth_error l j.
Proof.
  induction l as [|x r IH]; intros i j.
  - destruct i, j; simpl; try reflexivity. now destruct (Nat.eqb i j).
  - destruct i, j; simpl; try reflexivity. apply IH.
Qed.

Lemma children_set_children c e : children (set_children c e) = c.
Proof. now destruct e. Qed.

Lemma elem_at_update_same f : forall p e,
  elem_at p (update_at p f e) = option_map f (elem_at p e).
Proof.
  induction p as [|i p IH]; intros e; [reflexivity|].
  cbn [elem_at update_at]. rewrite children_set_children, nth_error_update_nth.
  rewrite Nat.eqb_refl. destruct (nth_error (children e) i); [apply IH | reflexivity].
Qed.

Lemma elem_at_update_other f : forall p q e,
  length p = length q -> p <> q ->
  elem_at q (update_at p f e) = elem_at q e.
Proof.
  induction p as [|i p IH]; intros q e Hl Hne.
  - destruct q; [contradiction | discriminate].
  - destruct q as [|j q]; [discriminate|]. injection Hl as Hl.
    cbn [elem_at update_at]. rewrite children_set_children, nth_error_update_nth.
    destruct (Nat.eqb i j) eqn:E.
    + apply Nat.eqb_eq in E. subst j.
      destruct (nth_error (children e) i); [|reflexivity].
      apply IH; [exact Hl|]. intros ->. now apply Hne.
    + reflexivity.
Qed.

Lemma Forall2_nth_error {A B} (R : A -> B -> Prop) l l' :
  Forall2 R l l' ->
  forall i a, nth_error l i = Some a -> exists b, nth_error l' i = Some b /\ R a b.
Proof.
  induction 1 as [|x y r r' Hxy Hr IH]; intros i a Hi.
  - destruct i; discriminate.
  - destruct i; simpl in *; [inversion Hi; subst; eauto | now apply IH].
Qed.

Lemma elem_at_sim : forall p t t' e,
  sim t t' -> elem_at p t = Some e ->
  exists e', elem_at p t' = Some e' /\ sim e e'.
Proof.
  induction p as [|i p IH]; intros t t' e Hs H.
  - inversion H; subst. now exists t'.
  - cbn [elem_at] in *.
    destruct (nth_error (children t) i) as [c|] eqn:En; [|discriminate].
    destruct (Forall2_nth_error _ _ _ (sim_children _ _ Hs) _ _ En) as (c' & -> & Hc).
    now apply (IH c).
Qed.

Section CpuConfigSet.
Context {FS : Type} {fsys : FileSystem FS}.

Lemma set_attribute_inv (self self' : CpuConfig) ref key value (s s' : FS) :
  set_attribute self ref key value s = (Ok self', s') ->
  exists p e,
    ref = Some p /\ elem_at p (root (cpu_file self)) = Some e
    /\ buildElement self' = buildElement self
    /\ arElement self' = arElement self
    /\ path (cpu_file self') = path (cpu_file self)
    /\ root (cpu_file self')
       = _indentXml 0 (update_at p (set_attr key value) (root (cpu_file self))).
Proof.
  unfold set_attribute. destruct ref as [p|]; [|discriminate].
  destruct (elem_at p (root (cpu_file self))) as [e|] eqn:Ee; [|discriminate].
  unfold bind. intros H.
  destruct (write _ s) as [[f| |] s1] eqn:Ew; try discriminate.
  unfold ret in H. inversion H; subst self' s1. clear H.
  apply write_inv in Ew as (ns & s2 & _ & _ & _ & ->).
  exists p, e. now repeat split.
Qed.

Lemma attribute_after_set (self self' : CpuConfig) ref key value (s s' : FS) :
  valid_refs self ->
  (ref = buildElement self \/ ref = arElement self) ->
  set_attribute self ref key value s = (Ok self', s') ->
  valid_refs self'
  /\ attribute_of self' ref key = Ok (Some value)
  /\ (forall key', key' <> key ->
                   attribute_of self' ref key' = attribute_of self ref key')
  /\ (forall ref' key',
        (ref' = buildElement self \/ ref' = arElement self) -> ref' <> ref ->
        attribute_of self' ref' key' = attribute_of self ref' key').
Proof.
  intros (Hvb & Hva & Hd) Href H.
  destruct (set_attribute_inv _ _ _ _ _ _ _ H)
    as (p & e & -> & He & Hb & Ha & Hp & Hr).
  set (t1 := update_at p (set_attr key value) (root (cpu_file self))) in *.
  assert (Hat : forall q x, elem_at q t1 = Some x ->
                            exists x', elem_at q (root (cpu_file self')) = Some x'
                                       /\ attrib x' = attrib x).
  { intros q x Hq. rewrite Hr.
    destruct (elem_at_sim q _ _ _ (indent_sim t1 0) Hq) as (x' & Hx' & Hs).
    exists x'. split; [exact Hx'|]. symmetry. now apply sim_attrib. }
  assert (Hsame : elem_at p t1 = Some (set_attr key value e)).
  { unfold t1. now rewrite elem_at_update_same, He. }
  assert (Hother : forall q, length p = length q -> p <> q ->
                             elem_at q t1 = elem_at q (root (cpu_file self))).
  { intros q Hl Hne. unfold t1. now apply elem_at_update_other. }
  assert (Hkeep : forall q, (Some q = buildElement self \/ Some q = arElement self) ->
                            q <> p -> length p = length q /\ p <> q).
  { intros q [Hq|Hq] Hne; destruct Href as [Hr0|Hr0].
    - congruence.
    - destruct (Hd q p (eq_sym Hq) (eq_sym Hr0)) as [Hl _]. split; [now symmetry | congruence].
    - destruct (Hd p q (eq_sym Hr0) (eq_sym Hq)) as [Hl _]. split; [exact Hl | congruence].
    - congruence. }
  split; [|split; [|split]].
  - split; [|split].
    + intros q Hq. rewrite Hb in Hq.
      destruct (list_eq_dec Nat.eq_dec q p) as [->|Hne].
      * destruct (Hat _ _ Hsame) as (x' & Hx' & _). eauto.
      * destruct (Hkeep q (or_introl (eq_sym Hq)) Hne) as [Hl Hpq].
        destruct (Hvb q Hq) as (x & Hx). rewrite <- (Hother q Hl Hpq) in Hx.
        destruct (Hat _ _ Hx) as (x' & Hx' & _). eauto.
    + intros q Hq. rewrite Ha in Hq.
      destruct (list_eq_dec Nat.eq_dec q p) as [->|Hne].
      * destruct (Hat _ _ Hsame) as (x' & Hx' & _). eauto.
      * destruct (Hkeep q (or_intror (eq_sym Hq)) Hne) as [Hl Hpq].
        destruct (Hva q Hq) as (x & Hx). rewrite <- (Hother q Hl Hpq) in Hx.
        destruct (Hat _ _ Hx) as (x' & Hx' & _). eauto.
    + intros p0 q0 H1 H2. rewrite Hb in H1. rewrite Ha in H2. now apply Hd.
  - unfold attribute_of. destruct (Hat _ _ Hsame) as (x' & -> & Hx).
    unfold get. rewrite Hx. destruct e as [t0 a0 x0 l0 c0]. cbn [set_attr attrib]. f_equal.
    apply dict_get_set.
  - intros key' Hk. unfold attribute_of. destruct (Hat _ _ Hsame) as (x' & -> & Hx).
    rewrite He. unfold get. rewrite Hx. destruct e as [t0 a0 x0 l0 c0]. cbn [set_attr attrib]. f_equal.
    now apply dict_get_set_other.
  - intros ref' key' Href' Hne. unfold attribute_of.
    destruct ref' as [q|]; [|reflexivity].
    assert (Hqp : q <> p) by congruence.
    destruct (Hkeep q Href' Hqp) as [Hl Hpq].
    assert (Hv : exists x, elem_at q (root (cpu_file self)) = Some x).
    { destruct Href' as [E|E]; [apply Hvb | apply Hva]; now symmetry. }
    destruct Hv as (x & Hx). rewrite Hx.
    rewrite <- (Hother q Hl Hpq) in Hx.
    destruct (Hat _ _ Hx) as (x' & -> & Hax). unfold get. now rewrite Hax.
Qed.

End CpuConfigSet.

Lemma append_inj_l a : forall b c, a ^^ b = a ^^ c -> b = c.
Proof. induction a as [|x a IH]; intros b c H; [exact H|]. inversion H. now apply IH. Qed.

Lemma tags_of_tag e : tag (tags_of e) = tag e.
Proof. now destruct e. Qed.

Lemma children_tags_of e : children (tags_of e) = map tags_of (children e).
Proof. now destruct e. Qed.

Lemma matches_tags_of nsf t c : matches nsf (L t) (tags_of c) = matches nsf (L t) c.
Proof. unfold matches, L. cbn [lv_tag lv_pred]. now rewrite tags_of_tag. Qed.

Lemma first_path_map (f g : element -> option (list nat)) cs :
  (forall c, g (tags_of c) = f c) ->
  forall i, first_path g i (map tags_of cs) = first_path f i cs.
Proof.
  intros H. induction cs as [|c r IH]; intros i; [reflexivity|].
  cbn [map first_path]. rewrite H. destruct (f c); [reflexivity | apply IH].
Qed.

Lemma find_path_tags nsf names :
  forall e, find_path nsf (map L names) (tags_of e) = find_path nsf (map L names) e.
Proof.
  induction names as [|n r IH]; intros e; [reflexivity|].
  cbn [map find_path]. rewrite children_tags_of.
  apply first_path_map. intros c. now rewrite matches_tags_of, IH.
Qed.

Lemma find_path_same_tags nsf names e e' :
  tags_of e = tags_of e' ->
  find_path nsf (map L names) e = find_path nsf (map L names) e'.
Proof. intros H. now rewrite <- (find_path_tags nsf names e), H, find_path_tags. Qed.

Lemma map_update_nth {A B} (h : A -> B) (g : A -> A) l :
  (forall x, h (g x) = h x) -> forall i, map h (update_nth i g l) = map h l.
Proof.
  intros H. induction l as [|x r IH]; intros i; [now destruct i|].
  destruct i; simpl; [now rewrite H | now rewrite IH].
Qed.

Lemma tags_of_update_at f :
  (forall e, tags_of (f e) = tags_of e) ->
  forall p e, tags_of (update_at p f e) = tags_of e.
Proof.
  intros H. induction p as [|i p IH]; intros e; [apply H|].
  destruct e as [t a x l cs]. cbn [update_at children set_children tags_of].
  f_equal. apply map_update_nth. exact IH.
Qed.

Lemma tags_of_set_attr k v e : tags_of (set_attr k v e) = tags_of e.
Proof. now destruct e. Qed.

Lemma tags_of_sim a b : sim a b -> tags_of a = tags_of b.
Proof.
  revert b. induction a as [t at_ x l cs IH] using element_induction.
  intros b H. inversion H as [t' a' x0 x' l0 l' cs0 cs' Hx Hleaf Hcs]; subst.
  cbn [tags_of]. f_equal. clear H Hx Hleaf.
  induction Hcs as [|c c' r r' Hc Hr IHr]; [reflexivity|].
  inversion IH; subst. simpl. f_equal; [now apply H1 | now apply IHr].
Qed.

Lemma qualified_sim nsf a b : sim a b -> qualified nsf a = qualified nsf b.
Proof.
  revert b. induction a as [t at_ x l cs IH] using element_induction.
  intros b H. inversion H as [t' a' x0 x' l0 l' cs0 cs' Hx Hleaf Hcs]; subst.
  cbn [qualified]. f_equal. clear H Hx Hleaf.
  induction Hcs as [|c c' r r' Hc Hr IHr]; [reflexivity|].
  inversion IH; subst. simpl. f_equal; [now apply H1 | now apply IHr].
Qed.

Lemma qualified_update_at nsf f :
  (forall e, qualified nsf (f e) = qualified nsf e) ->
  forall p e, qualified nsf (update_at p f e) = qualified nsf e.
Proof.
  intros H. induction p as [|i p IH]; intros e; [apply H|].
  destruct e as [t a x l cs]. cbn [update_at children set_children qualified].
  f_equal. revert i. induction cs as [|c r IHr]; intros i; [now destruct i|].
  destruct i; simpl; [now rewrite IH | now rewrite IHr].
Qed.

Lemma tags_of_reparse_elem nsf : forall e,
  qualified nsf e = true -> tags_of (reparse_elem nsf e) = tags_of e.
Proof.
  induction e as [t a x l cs IH] using element_induction.
  cbn [qualified reparse_elem tags_of]. intros H.
  apply andb_true_iff in H as [Ht Hcs]. apply String.eqb_eq in Ht. rewrite Ht.
  f_equal. rewrite map_map. apply map_ext_in. intros c Hc.
  rewrite Forall_forall in IH. apply IH; [exact Hc|].
  rewrite forallb_forall in Hcs. now apply Hcs.
Qed.

Lemma elem_at_reparse_elem nsf : forall p e,
  elem_at p (reparse_elem nsf e) = option_map (reparse_elem nsf) (elem_at p e).
Proof.
  induction p as [|i p IH]; intros e; [reflexivity|].
  cbn [elem_at]. rewrite children_reparse_elem, nth_error_map.
  destruct (nth_error (children e) i); [apply IH | reflexivity].
Qed.

Lemma elem_at_set_tail p l e :
  p <> [] -> elem_at p (set_tail l e) = elem_at p e.
Proof. destruct p; [contradiction|]. now destruct e. Qed.

Lemma attrib_reparse_elem nsf e : attrib (reparse_elem nsf e) = attrib e.
Proof. now destruct e. Qed.

Lemma find_two_matches nsf lv1 lv2 e x :
  find_in nsf e [lv1; lv2] = Some x -> matches nsf lv2 x = true.
Proof.
  unfold find_in. rewrite findall_two. intros H.
  destruct (filter (matches nsf lv2) _) as [|y r] eqn:E; [discriminate|].
  inversion H; subst y.
  assert (Hin : In x (x :: r)) by now left.
  rewrite <- E in Hin. now apply filter_In in Hin.
Qed.

Section CpuConfigProperties.
Context {FS : Type} {fsys : FileSystem FS}.

Lemma CpuConfig_init_inv p (s s' : FS) self :
  CpuConfig_init p s = (Ok (Some self), s') ->
  exists nsf,
    read p s = (Ok (cpu_file self), s')
    /\ nameSpaceFormatted (cpu_file self) = Ok nsf
    /\ buildElement self
       = find_path nsf [L "Configuration"; L "Build"] (root (cpu_file self))
    /\ arElement self
       = find_path nsf [L "Configuration"; L "AutomationRuntime"]
           (root (cpu_file self)).
Proof.
  unfold CpuConfig_init, bind, ask, lift, ret, xmlAsFile_init, find_ref. intros H.
  destruct (os_path_isfile p s); [|discriminate].
  destruct (read p s) as [[f| |] s1] eqn:Er; try discriminate.
  destruct (nameSpaceFormatted f) as [nsf| |] eqn:Hn; try discriminate.
  inversion H; subst. exists nsf. now repeat split.
Qed.

Lemma CpuConfig_init_valid p (s s' : FS) self :
  CpuConfig_init p s = (Ok (Some self), s') -> valid_refs self.
Proof.
  intros H. destruct (CpuConfig_init_inv _ _ _ _ H) as (nsf & _ & _ & Hb & Ha).
  split; [|split].
  - intros q Hq. rewrite Hb in Hq.
    destruct (proj1 (find_path_find nsf _ _) q Hq) as (x & Hx & _). eauto.
  - intros q Hq. rewrite Ha in Hq.
    destruct (proj1 (find_path_find nsf _ _) q Hq) as (x & Hx & _). eauto.
  - intros q1 q2 H1 H2. rewrite Hb in H1. rewrite Ha in H2.
    destruct (proj1 (find_path_find nsf _ _) q1 H1) as (x1 & Hx1 & Hf1 & Hl1).
    destruct (proj1 (find_path_find nsf _ _) q2 H2) as (x2 & Hx2 & Hf2 & Hl2).
    split; [now rewrite Hl1, Hl2|]. intros ->.
    rewrite Hx1 in Hx2. inversion Hx2; subst x2.
    apply find_two_matches in Hf1, Hf2.
    unfold matches, L in Hf1, Hf2. cbn [lv_tag lv_pred] in Hf1, Hf2.
    rewrite andb_true_r in Hf1, Hf2.
    apply String.eqb_eq in Hf1, Hf2. rewrite Hf1 in Hf2.
    apply append_inj_l in Hf2. discriminate.
Qed.

(** X22. Each setter of [CpuConfig] is read back by its getter from the
    object in memory, and leaves what the other two getters return as it
    was; the references of the object stay valid. *)
Theorem CpuConfig_set_then_get :
  forall (self : CpuConfig),
    valid_refs self ->
    (forall (value : pyval) (s s' : FS) (self' : CpuConfig),
        setGccVersion self value s = (Ok self', s') ->
        valid_refs self'
        /\ getGccVersion self' = Ok (Some value)
        /\ getPreBuildStep self' = getPreBuildStep self
        /\ getArVersion self' = getArVersion self)
    /\ (forall (value : pyval) (s s' : FS) (self' : CpuConfig),
           setPreBuildStep self value s = (Ok self', s') ->
           valid_refs self'
           /\ getPreBuildStep self' = Ok (Some value)
           /\ getGccVersion self' = getGccVersion self
           /\ getArVersion self' = getArVersion self)
    /\ (forall (value : pyval) (s s' : FS) (self' : CpuConfig),
           setArVersion self value s = (Ok self', s') ->
           valid_refs self'
           /\ getArVersion self' = Ok (Some value)
           /\ getGccVersion self' = getGccVersion self
           /\ getPreBuildStep self' = getPreBuildStep self).
Proof.
  intros self Hv.
  assert (Hne : forall p, buildElement self = Some p -> arElement self = Some p -> False).
  { intros p H1 H2. destruct Hv as (_ & _ & Hd).
    destruct (Hd p p H1 H2) as [_ Hpp]. now apply Hpp. }
  split; [|split]; intros value s s' self' H.
  - unfold setGccVersion in H.
    destruct (set_attribute_inv _ _ _ _ _ _ _ H) as (p & e & Hp & _ & Hb & Ha & _).
    destruct (attribute_after_set _ _ _ _ _ _ _ Hv (or_introl eq_refl) H)
      as (Hv' & Hget & Hkey & Hoth).
    split; [exact Hv'|]. unfold getGccVersion, getPreBuildStep, getArVersion.
    rewrite Hb, Ha. split; [exact Hget|]. split.
    + apply Hkey. discriminate.
    + apply Hoth; [now right|]. intros E. rewrite Hp in E. exact (Hne p Hp E).
  - unfold setPreBuildStep in H.
    destruct (set_attribute_inv _ _ _ _ _ _ _ H) as (p & e & Hp & _ & Hb & Ha & _).
    destruct (attribute_after_set _ _ _ _ _ _ _ Hv (or_introl eq_refl) H)
      as (Hv' & Hget & Hkey & Hoth).
    split; [exact Hv'|]. unfold getGccVersion, getPreBuildStep, getArVersion.
    rewrite Hb, Ha. split; [exact Hget|]. split.
    + apply Hkey. discriminate.
    + apply Hoth; [now right|]. intros E. rewrite Hp in E. exact (Hne p Hp E).
  - unfold setArVersion in H.
    destruct (set_attribute_inv _ _ _ _ _ _ _ H) as (p & e & Hp & _ & Hb & Ha & _).
    destruct (attribute_after_set _ _ _ _ _ _ _ Hv (or_intror eq_refl) H)
      as (Hv' & Hget & Hkey & Hoth).
    split; [exact Hv'|]. unfold getGccVersion, getPreBuildStep, getArVersion.
    rewrite Hb, Ha. split; [exact Hget|].
    assert (Hd : buildElement self <> arElement self).
    { intros E. rewrite Hp in E. exact (Hne p E Hp). }
    split; apply Hoth; auto.
Qed.

Lemma tags_of_set_tail l e : tags_of (set_tail l e) = tags_of e.
Proof. now destruct e. Qed.

Lemma qualified_set_attr nsf k v e : qualified nsf (set_attr k v e) = qualified nsf e.
Proof. now destruct e. Qed.

Lemma set_attribute_persisted :
  reads_back ->
  forall (self self' : CpuConfig) (f2 : xmlAsFile) (names : list string)
         (key : string) (value : pyval) (s s' s2 : FS) (nsf : string)
         (p : list nat),
    nameSpaceFormatted (cpu_file self) = Ok nsf ->
    qualified nsf (root (cpu_file self)) = true ->
    find_path nsf (map L names) (root (cpu_file self)) = Some p ->
    names <> [] ->
    set_attribute self (Some p) key value s = (Ok self', s') ->
    read (path (cpu_file self)) s' = (Ok f2, s2) ->
    closed_tag (tag (root f2)) ->
    nameSpaceFormatted f2 = Ok nsf
    /\ tags_of (root f2) = tags_of (root (cpu_file self))
    /\ exists x, elem_at p (root f2) = Some x /\ get x key = Some value.
Proof.
  intros [_ Hrb] self self' f2 names key value s s' s2 nsf p
         Hnsf Hq Hpath Hnames H Hread Hclosed.
  assert (Hp : p <> []).
  { destruct (proj1 (find_path_find nsf _ _) p Hpath) as (_ & _ & _ & Hl).
    rewrite length_map in Hl. destruct p; [|discriminate].
    destruct names; [contradiction | discriminate]. }
  unfold set_attribute in H.
  destruct (elem_at p (root (cpu_file self))) as [e|] eqn:He; [|discriminate].
  unfold bind in H.
  destruct (write _ s) as [[f| |] s1] eqn:Ew; try discriminate.
  unfold ret in H. inversion H; subst self' s1. clear H.
  apply write_inv in Ew as (ns & s3 & Hns & Hreg & Hw & ->).
  cbn [root _package path] in *.
  set (t1 := update_at p (set_attr key value) (root (cpu_file self))) in *.
  apply read_inv in Hread as (t & Hparse & ->). cbn [root _package] in *.
  pose proof (Hrb _ _ _ _ _ _ _ _ Hreg Hw Hparse) as Ht. subst t.
  assert (Htags1 : tags_of t1 = tags_of (root (cpu_file self))).
  { unfold t1. apply tags_of_update_at. intros x. apply tags_of_set_attr. }
  assert (Htag1 : tag t1 = tag (root (cpu_file self))).
  { now rewrite <- (tags_of_tag t1), Htags1, tags_of_tag. }
  assert (Hns' : _getASNamespace (_indentXml 0 t1) = Ok ns).
  { rewrite <- Hns. apply namespace_same_tag.
    symmetry. apply (sim_tag _ _ (indent_sim _ 0)). }
  assert (Hnsf' : nsf = format_ns ns).
  { unfold nameSpaceFormatted, _getASNamespaceFormatted in Hnsf.
    rewrite (namespace_same_tag (root (cpu_file self)) t1) in Hnsf
      by now symmetry.
    rewrite Hns in Hnsf. now inversion Hnsf. }
  rewrite (reparse_eq _ _ Hns' Hclosed) in *. rewrite <- Hnsf' in *.
  assert (Hq1 : qualified nsf (_indentXml 0 t1) = true).
  { rewrite <- (qualified_sim nsf _ _ (indent_sim t1 0)). unfold t1.
    rewrite qualified_update_at; [exact Hq|]. intros x. apply qualified_set_attr. }
  assert (Htags2 : tags_of (set_tail None (reparse_elem nsf (_indentXml 0 t1)))
                   = tags_of (root (cpu_file self))).
  { rewrite tags_of_set_tail, (tags_of_reparse_elem nsf _ Hq1).
    now rewrite <- (tags_of_sim _ _ (indent_sim t1 0)). }
  split.
  { rewrite <- Hnsf. apply nameSpaceFormatted_tag. cbn [root _package].
    now rewrite <- (tags_of_tag (set_tail _ _)), Htags2, tags_of_tag. }
  split; [exact Htags2|].
  rewrite (elem_at_set_tail _ _ _ Hp), elem_at_reparse_elem.
  assert (Hsame : elem_at p t1 = Some (set_attr key value e)).
  { unfold t1. now rewrite elem_at_update_same, He. }
  destruct (elem_at_sim p _ _ _ (indent_sim t1 0) Hsame) as (x' & -> & Hs).
  eexists. split; [reflexivity|].
  unfold get. rewrite attrib_reparse_elem, <- (sim_attrib _ _ Hs).
  destruct e as [t0 a0 x0 l0 c0]. cbn [set_attr attrib]. apply dict_get_set.
Qed.

(** X23. What a setter of [CpuConfig] wrote is what the getter returns from
    a [CpuConfig] constructed anew on the file, for a document all of whose
    tags are in its namespace. *)
Theorem CpuConfig_set_then_reload :
  forall (p : string) (self : CpuConfig) (s0 s0' : FS) (nsf : string),
    reads_back ->
    CpuConfig_init p s0 = (Ok (Some self), s0') ->
    nameSpaceFormatted (cpu_file self) = Ok nsf ->
    qualified nsf (root (cpu_file self)) = true ->
    forall (value : pyval) (s s' s2 : FS) (self' self2 : CpuConfig),
      (setGccVersion self value s = (Ok self', s') ->
       CpuConfig_init p s' = (Ok (Some self2), s2) ->
       closed_tag (tag (root (cpu_file self2))) ->
       getGccVersion self2 = Ok (Some value))
      /\ (setPreBuildStep self value s = (Ok self', s') ->
          CpuConfig_init p s' = (Ok (Some self2), s2) ->
          closed_tag (tag (root (cpu_file self2))) ->
          getPreBuildStep self2 = Ok (Some value))
      /\ (setArVersion self value s = (Ok self', s') ->
          CpuConfig_init p s' = (Ok (Some self2), s2) ->
          closed_tag (tag (root (cpu_file self2))) ->
          getArVersion self2 = Ok (Some value)).
Proof.
  intros p self s0 s0' nsf Hrb Hinit Hnsf Hq value s s' s2 self' self2.
  destruct (CpuConfig_init_inv _ _ _ _ Hinit) as (nsf0 & Hr0 & Hn0 & Hb & Ha).
  rewrite Hnsf in Hn0. injection Hn0 as <-.
  apply read_inv in Hr0 as (t0 & _ & Hf0).
  assert (Hpath : path (cpu_file self) = p) by now rewrite Hf0.
  assert (Hgen : forall ref key names,
             ref = find_path nsf (map L names) (root (cpu_file self)) ->
             names <> [] ->
             set_attribute self ref key value s = (Ok self', s') ->
             CpuConfig_init p s' = (Ok (Some self2), s2) ->
             closed_tag (tag (root (cpu_file self2))) ->
             attribute_of self2
               (find_path nsf (map L names) (root (cpu_file self2))) key
             = Ok (Some value)
             /\ nameSpaceFormatted (cpu_file self2) = Ok nsf).
  { intros ref key names Href Hnames Hset Hinit2 Hc.
    destruct (set_attribute_inv _ _ _ _ _ _ _ Hset) as (q & e & Hq' & _).
    rewrite Hq' in Href, Hset.
    destruct (CpuConfig_init_inv _ _ _ _ Hinit2) as (nsf2 & Hr2 & _).
    rewrite <- Hpath in Hr2.
    destruct (set_attribute_persisted Hrb _ _ _ names _ _ _ _ _ _ _
                Hnsf Hq (eq_sym Href) Hnames Hset Hr2 Hc)
      as (Hn2 & Htags & x & Hx & Hg).
    split; [|exact Hn2].
    rewrite (find_path_same_tags nsf names _ _ Htags), <- Href.
    unfold attribute_of. now rewrite Hx, Hg. }
  assert (Hrefs2 : CpuConfig_init p s' = (Ok (Some self2), s2) ->
                   nameSpaceFormatted (cpu_file self2) = Ok nsf ->
                   buildElement self2
                   = find_path nsf (map L ["Configuration"; "Build"])
                       (root (cpu_file self2))
                   /\ arElement self2
                      = find_path nsf (map L ["Configuration"; "AutomationRuntime"])
                          (root (cpu_file self2))).
  { intros Hinit2 Hn2.
    destruct (CpuConfig_init_inv _ _ _ _ Hinit2) as (nsf2 & _ & Hn2' & Hb2 & Ha2).
    rewrite Hn2 in Hn2'. injection Hn2' as <-. now split. }
  split; [|split]; intros Hset Hinit2 Hc.
  - destruct (Hgen _ "GccVersion" ["Configuration"; "Build"] Hb
                ltac:(discriminate) Hset Hinit2 Hc) as [Hg Hn2].
    unfold getGccVersion. now rewrite (proj1 (Hrefs2 Hinit2 Hn2)).
  - destruct (Hgen _ "PreBuildStep" ["Configuration"; "Build"] Hb
                ltac:(discriminate) Hset Hinit2 Hc) as [Hg Hn2].
    unfold getPreBuildStep. now rewrite (proj1 (Hrefs2 Hinit2 Hn2)).
  - destruct (Hgen _ "Version" ["Configuration"; "AutomationRuntime"] Ha
                ltac:(discriminate) Hset Hinit2 Hc) as [Hg Hn2].
    unfold getArVersion. now rewrite (proj2 (Hrefs2 Hinit2 Hn2)).
Qed.

End CpuConfigProperties.

(** * The further properties on the example projects *)

(** X2 on the namespace of package manifests. *)
Lemma namespace_of_qualified_tag_witness :
  _getASNamespace (set_tag ("{" ^^ package_ns ^^ "}" ^^ "Package") empty_pkg)
  = Ok package_ns.
Proof.
  apply namespace_of_qualified_tag. vm_compute. reflexivity.
Defined.


(** X7 on the library with a [Files] list. *)
Lemma Library_init_list_tags_witness :
  exists self s',
    Library_init "/l/Lib" subfolder_disk = (Ok self, s')
    /\ ((_xmlTag self = "Files" /\ _xmlTagChild self = "File")
        \/ (_xmlTag self = "Objects" /\ _xmlTagChild self = "Object")).
Proof.
  destruct (Library_init "/l/Lib" subfolder_disk) as [[self| |] s'] eqn:E.
  - exists self, s'. split; [reflexivity|].
    exact (Library_init_list_tags _ _ _ _ E).
  - vm_compute in E. discriminate.
  - vm_compute in E. discriminate.
Defined.

(** X8 on the chain project, with an earlier export of [LibX] in the way. *)
Lemma exportLibraries_one_entry_each_witness :
  exists r s' infos,
    exportLibraries chain_project "/out" false None [] [] false false exported_disk
    = (Ok r, s')
    /\ r = by_outcome infos
    /\ map info_lib infos = [libX; libY; libZ].
Proof.
  destruct (exportLibraries chain_project "/out" false None [] [] false false
              exported_disk) as [[r| |] s'] eqn:E.
  - destruct (exportLibraries_one_entry_each _ _ _ _ _ _ _ _ _ _ _ E)
      as (infos & Hr & Hl & _).
    exists r, s', infos. split; [reflexivity|]. split; [exact Hr | exact Hl].
  - vm_compute in E. discriminate.
  - vm_compute in E. discriminate.
Defined.

(** X9 on the diamond: [LibW] is exported for [LibL] and again for [LibR]. *)
Lemma exportLibrary_order_of_exports_witness :
  exists r s' infos,
    exportLibrary fnmatch_glob 3 diamond_project libT "/out" false None false
      false true diamond_disk = (Ok r, s')
    /\ r = by_outcome infos
    /\ map info_lib infos = [libW; libL; libW; libR; libT].
Proof.
  destruct (exportLibrary fnmatch_glob 3 diamond_project libT "/out" false None
              false false true diamond_disk) as [[r| |] s'] eqn:E.
  - destruct (exportLibrary_order_of_exports _ _ _ _ _ _ _ _ _ _ _ _ _ E)
      as (infos & Hr & Hl).
    exists r, s', infos. split; [reflexivity|]. split; [exact Hr|].
    rewrite Hl. vm_compute. reflexivity.
  - vm_compute in E. discriminate.
  - vm_compute in E. discriminate.
Defined.

(** The same export, evaluated: the second export of [LibW] finds the first
    in its way and fails. *)
Lemma diamond_exports_shared_dependency_twice :
  exists r s',
    exportLibrary fnmatch_glob 3 diamond_project libT "/out" false None false
      false true diamond_disk = (Ok r, s')
    /\ map info_name (success r) = ["LibW"; "LibL"; "LibR"; "LibT"]
    /\ map (fun i => (info_name i, exception i)) (failed r)
       = [("LibW", Some FileExistsError)].
Proof.
  do 2 eexists. split; [vm_compute; reflexivity|].
  split; vm_compute; reflexivity.
Qed.

(** X10 on a directory with a listed file, a new file, a stale entry and a
    folder of binaries. *)
Lemma synchronize_lists_the_directory_witness :
  exists self' s',
    synchronize mixed_library mixed_library_disk = (Ok self', s')
    /\ entries_of self' = [Some "a.c"; Some "new.c"].
Proof.
  destruct (synchronize mixed_library mixed_library_disk)
    as [[self'| |] s'] eqn:E.
  - exists self', s'. split; [reflexivity|].
    assert (Hf : files mixed_library
                 = Ok (Some (Element (lib_ns ^^ "Files") [] None None
                               (map (file_entry lib_ns) ["a.c"; "gone.c"]))))
      by reflexivity.
    assert (Hs : _xmlTag mixed_library = "Objects"
                 \/ find (lib_file mixed_library) [L "Objects"] = Ok None)
      by (right; reflexivity).
    assert (Hl : os_listdir (dirPath (lib_file mixed_library)) mixed_library_disk
                 = (Ok ["ANSIC.lby"; "a.c"; "new.c"; "SG4"], mixed_library_disk))
      by (vm_compute; reflexivity).
    assert (Hp : Forall plain_name ["ANSIC.lby"; "a.c"; "new.c"; "SG4"])
      by (repeat constructor).
    destruct (synchronize_lists_the_directory _ _ _ _ _ _ _ Hf Hs Hl Hp E)
      as (Hc & _).
    rewrite Hc. vm_compute. reflexivity.
  - vm_compute in E. discriminate.
  - vm_compute in E. discriminate.
Defined.

(** X11 on the package that lists [a.var] and [b.var]. *)
Lemma removePkgObject_steps_over_next_witness :
  exists self' s' o',
    _removePkgObject stale_package (Some "a.var") stale_disk = (Ok self', s')
    /\ objects self' = Ok (Some o')
    /\ Forall2 sim [object_entry pkg_ns "File" "b.var"] (children o').
Proof.
  destruct (_removePkgObject stale_package (Some "a.var") stale_disk)
    as [[self'| |] s'] eqn:E.
  - assert (Ho : objects stale_package
                 = Ok (Some (Element (pkg_ns ^^ "Objects") [] None None
                               [object_entry pkg_ns "File" "a.var";
                                object_entry pkg_ns "File" "b.var"])))
      by reflexivity.
    destruct (removePkgObject_steps_over_next _ _ _ _ _ _ Ho E)
      as (o' & Ho' & _ & Hsep).
    exists self', s', o'. split; [reflexivity|]. split; [exact Ho'|].
    apply Hsep. simpl. split; [reflexivity | exact I].
  - vm_compute in E. discriminate.
  - vm_compute in E. discriminate.
Defined.

(** Of an entry listed twice in a row, one is left. *)
Lemma removePkgObject_leaves_second_of_two :
  exists self' s',
    _removePkgObject twice_package (Some "a.var") twice_disk = (Ok self', s')
    /\ map text (findall_in pkg_ns (root self') [L "Objects"; L "Object"])
       = [Some "a.var"; Some "b.var"].
Proof.
  do 2 eexists. split; vm_compute; reflexivity.
Qed.

(** X12 on the complete table, whose namespace is that of software
    configurations. *)
Lemma deployTask_not_seen_until_reload_witness :
  find (fst deployed_table)
    [Lp "TaskClass" "Name" "Cyclic#3"; Lp "Task" "Name" "VeryLongTa"] = Ok None.
Proof.
  assert (H1 : nameSpaceFormatted full_table_file = Ok sw_ns) by reflexivity.
  assert (H2 : sw_ns <> "") by discriminate.
  assert (H3 : first_digit "Cyclic#3" = Some "3"%char) by reflexivity.
  assert (H4 : find full_table_file
                 [Lp "TaskClass" "Name" ("Cyclic#" ^^ String "3"%char "");
                  Lp "Task" "Name" (take_str 10 "VeryLongTaskName123")]
               = Ok None) by (vm_compute; reflexivity).
  assert (H5 : deployTask full_table_file "Tasks" "VeryLongTaskName123" "Cyclic#3"
                 (table_disk full_table)
               = (Ok (fst deployed_table), snd deployed_table))
    by (vm_compute; reflexivity).
  exact (proj1 (deployTask_not_seen_until_reload _ _ _ _ _ _ _ _ _
                  H1 H2 H3 H4 H5)).
Defined.

(** Deployed again through the same table, the task is there twice. *)
Lemma deployTask_twice_on_one_table :
  exists self2 s2 tc,
    deployTask (fst deployed_table) "Tasks" "VeryLongTaskName123" "Cyclic#3"
      (snd deployed_table) = (Ok self2, s2)
    /\ find_in sw_ns (root self2) [Lp "TaskClass" "Name" "Cyclic#3"] = Some tc
    /\ map (fun e => get e "Name") (children tc)
       = [Some (PStr "VeryLongTa"); Some (PStr "VeryLongTa")].
Proof.
  do 3 eexists. split; [vm_compute; reflexivity|].
  split; vm_compute; reflexivity.
Qed.

(** X13 on the same table, read again from the disk the deployment left. *)
Lemma deployTask_seen_after_reload_witness :
  exists self2 s2,
    read "/c/Cpu.sw" (snd deployed_table) = (Ok self2, s2)
    /\ deployTask self2 "Tasks" "VeryLongTaskName123" "Cyclic#3" s2
       = (Ok self2, s2).
Proof.
  destruct (read "/c/Cpu.sw" (snd deployed_table)) as [[self2| |] s2] eqn:E.
  - exists self2, s2. split; [reflexivity|].
    assert (H3 : first_digit "Cyclic#3" = Some "3"%char) by reflexivity.
    assert (H4 : find full_table_file
                   [Lp "TaskClass" "Name" ("Cyclic#" ^^ String "3"%char "");
                    Lp "Task" "Name" (take_str 10 "VeryLongTaskName123")]
                 = Ok None) by (vm_compute; reflexivity).
    assert (H5 : deployTask full_table_file "Tasks" "VeryLongTaskName123" "Cyclic#3"
                   (table_disk full_table)
                 = (Ok (fst deployed_table), snd deployed_table))
      by (vm_compute; reflexivity).
    assert (Hc : closed_tag (tag (root self2))).
    { vm_compute in E. inversion E. vm_compute. reflexivity. }
    exact (proj2 (deployTask_seen_after_reload full_table_file _ _ _ _ _ _ _ _ _
                    disk_reads_back H3 H4 H5 E Hc)).
  - vm_compute in E. discriminate.
  - vm_compute in E. discriminate.
Defined.

(** X15 on the complete table. *)
Lemma deployLibrary_not_listed_until_reload_witness :
  SwDeploymentTable_libraries (fst library_deployed) = Ok [].
Proof.
  assert (H1 : nameSpaceFormatted full_table_file = Ok sw_ns) by reflexivity.
  assert (H2 : sw_ns <> "") by discriminate.
  assert (H3 : SwDeploymentTable_libraries full_table_file = Ok [])
    by (vm_compute; reflexivity).
  assert (H4 : already_listed "LibX" [] = Ok false) by reflexivity.
  assert (H5 : deployLibrary full_table_file "/libs" "LibX" [] deployment_disk
               = (Ok (fst library_deployed), snd library_deployed))
    by (vm_compute; reflexivity).
  exact (proj1 (deployLibrary_not_listed_until_reload _ _ _ _ _ _ _ _ _
                  H1 H2 H3 H4 H5)).
Defined.

(** X16 on the same table, read again: [LIBX] is [LibX]. *)
Lemma deployLibrary_listed_after_reload_witness :
  exists self2 s2 libs2,
    read "/c/Cpu.sw" (snd library_deployed) = (Ok self2, s2)
    /\ SwDeploymentTable_libraries self2 = Ok libs2
    /\ In (PStr "LibX") libs2
    /\ deployLibrary self2 "/libs" "LIBX" [] s2 = (Ok self2, s2).
Proof.
  destruct (read "/c/Cpu.sw" (snd library_deployed)) as [[self2| |] s2] eqn:E.
  - assert (H3 : SwDeploymentTable_libraries full_table_file = Ok [])
      by (vm_compute; reflexivity).
    assert (H4 : already_listed "LibX" [] = Ok false) by reflexivity.
    assert (Hn : last_assigned "Name" [] = None) by reflexivity.
    assert (H5 : deployLibrary full_table_file "/libs" "LibX" [] deployment_disk
                 = (Ok (fst library_deployed), snd library_deployed))
      by (vm_compute; reflexivity).
    assert (Hc : closed_tag (tag (root self2))).
    { vm_compute in E. inversion E. vm_compute. reflexivity. }
    destruct (deployLibrary_listed_after_reload full_table_file _ _ _ _ _ _ _ _ _
                disk_reads_back H3 H4 Hn H5 E Hc) as (libs2 & Hl & Hin & Hnoop).
    exists self2, s2, libs2. split; [reflexivity|]. split; [exact Hl|].
    split; [exact Hin|].
    apply Hnoop; [|reflexivity].
    vm_compute in E. inversion E; subst self2. vm_compute in Hl.
    inversion Hl; subst libs2. repeat constructor. now exists "LibX".
  - vm_compute in E. discriminate.
  - vm_compute in E. discriminate.
Defined.

(** X17 on the table that was loaded from the file without nodes. *)
Lemma SwDeploymentTable_init_again_only_reads_witness :
  SwDeploymentTable_init "/c/Cpu.sw" (snd bare_table_loaded)
  = (Ok (Some (fst bare_table_loaded)), snd bare_table_loaded).
Proof.
  assert (H : SwDeploymentTable_init "/c/Cpu.sw" (table_disk bare_table)
              = (Ok (Some (fst bare_table_loaded)), snd bare_table_loaded))
    by (vm_compute; reflexivity).
  assert (Hc : closed_tag (tag (root (fst bare_table_loaded))))
    by (vm_compute; reflexivity).
  assert (Hf : os_path_isfile "/c/Cpu.sw" (snd bare_table_loaded) = true)
    by (vm_compute; reflexivity).
  rewrite (proj1 (SwDeploymentTable_init_again_only_reads _ _ _ _
                    disk_reads_back H Hc Hf)).
  vm_compute. reflexivity.
Defined.

(** X18 on the same directory as X10. *)
Lemma synchronize_twice_same_entries_witness :
  exists l2 d2,
    synchronize (fst mixed_library_synchronized) (snd mixed_library_synchronized)
    = (Ok l2, d2)
    /\ entries_of l2 = [Some "a.c"; Some "new.c"].
Proof.
  destruct (synchronize (fst mixed_library_synchronized)
              (snd mixed_library_synchronized)) as [[l2| |] d2] eqn:E2.
  - exists l2, d2. split; [reflexivity|].
    assert (Hf : files mixed_library
                 = Ok (Some (Element (lib_ns ^^ "Files") [] None None
                               (map (file_entry lib_ns) ["a.c"; "gone.c"]))))
      by reflexivity.
    assert (Hs : _xmlTag mixed_library = "Objects"
                 \/ find (lib_file mixed_library) [L "Objects"] = Ok None)
      by (right; reflexivity).
    assert (Hp : Forall plain_name ["ANSIC.lby"; "a.c"; "new.c"; "SG4"])
      by (repeat constructor).
    assert (Hl : os_listdir (dirPath (lib_file mixed_library)) mixed_library_disk
                 = (Ok ["ANSIC.lby"; "a.c"; "new.c"; "SG4"], mixed_library_disk))
      by (vm_compute; reflexivity).
    assert (E1 : synchronize mixed_library mixed_library_disk
                 = (Ok (fst mixed_library_synchronized),
                    snd mixed_library_synchronized))
      by (vm_compute; reflexivity).
    assert (Hl1 : os_listdir (dirPath (lib_file mixed_library))
                    (snd mixed_library_synchronized)
                  = (Ok ["ANSIC.lby"; "a.c"; "new.c"; "SG4"],
                     snd mixed_library_synchronized))
      by (vm_compute; reflexivity).
    rewrite (synchronize_twice_same_entries _ _ _ _ _ _ _ _ _ _
               Hf Hs Hp Hl E1 Hl1 E2).
    vm_compute. reflexivity.
  - vm_compute in E2. discriminate.
  - vm_compute in E2. discriminate.
Defined.

(** X19 on the package with [a.var] in its directory and an empty list. *)
Lemma synchPackageFile_adds_missing_items_witness :
  exists self' s' o',
    synchPackageFile empty_package reference_disk = (Ok self', s')
    /\ objects self' = Ok (Some o')
    /\ map text (children o') = [Some "a.var"].
Proof.
  destruct (synchPackageFile empty_package reference_disk)
    as [[self'| |] s'] eqn:E.
  - assert (Ho : objects empty_package
                 = Ok (Some (Element (pkg_ns ^^ "Objects") [] None None [])))
      by reflexivity.
    assert (Hl : os_listdir (dirPath empty_package) reference_disk
                 = (Ok ["Package.pkg"; "a.var"], reference_disk))
      by (vm_compute; reflexivity).
    assert (Hp : Forall plain_name ["Package.pkg"; "a.var"])
      by (repeat constructor).
    destruct (synchPackageFile_adds_missing_items _ _ _ _ _ _ _ Ho Hl Hp
                (Forall_nil _) E) as (_ & o' & Ho' & Ht).
    exists self', s', o'. split; [reflexivity|]. split; [exact Ho' | exact Ht].
  - vm_compute in E. discriminate.
  - vm_compute in E. discriminate.
Defined.

(** X20 on the same package. *)
Lemma synchPackageFile_twice_nothing_stale_witness :
  exists self2 s2 o1 o2,
    synchPackageFile (fst package_synchronized) (snd package_synchronized)
    = (Ok self2, s2)
    /\ objects (fst package_synchronized) = Ok (Some o1)
    /\ objects self2 = Ok (Some o2)
    /\ map text (children o2) = map text (children o1).
Proof.
  destruct (synchPackageFile (fst package_synchronized) (snd package_synchronized))
    as [[self2| |] s2] eqn:E2.
  - assert (Ho : objects empty_package
                 = Ok (Some (Element (pkg_ns ^^ "Objects") [] None None [])))
      by reflexivity.
    assert (Hl : os_listdir (dirPath empty_package) reference_disk
                 = (Ok ["Package.pkg"; "a.var"], reference_disk))
      by (vm_compute; reflexivity).
    assert (Hp : Forall plain_name ["Package.pkg"; "a.var"])
      by (repeat constructor).
    assert (E1 : synchPackageFile empty_package reference_disk
                 = (Ok (fst package_synchronized), snd package_synchronized))
      by (vm_compute; reflexivity).
    assert (Hl1 : os_listdir (dirPath empty_package) (snd package_synchronized)
                  = (Ok ["Package.pkg"; "a.var"], snd package_synchronized))
      by (vm_compute; reflexivity).
    destruct (synchPackageFile_twice_nothing_stale _ _ _ _ _ _ _ _ _ _
                Ho Hp (Forall_nil _) Hl E1 Hl1 E2) as (o1 & o2 & H1 & H2 & H3).
    exists self2, s2, o1, o2. split; [reflexivity|]. now repeat split.
  - vm_compute in E2. discriminate.
  - vm_compute in E2. discriminate.
Defined.

(** X21 on a project with one configuration. *)
Lemma buildConfigs_lists_configurations_witness :
  exists cfgs s',
    buildConfigs (project_with []) configured_disk = (Ok cfgs, s')
    /\ map (fun c => Some (bc_name c)) cfgs = [Some "Config1"]
    /\ Forall (fun c => bc_path c = join "/proj/Physical" (bc_name c)
                        /\ bc_type c = getConfigType (bc_hardware c)
                        /\ (bc_type c = "sg4" \/ bc_type c = "sg4_arm")) cfgs.
Proof.
  destruct (buildConfigs (project_with []) configured_disk)
    as [[cfgs| |] s'] eqn:E.
  - destruct (buildConfigs_lists_configurations _ _ _ _ E)
      as (physical & s1 & objs & Hp & Ho & Hn & Hall).
    exists cfgs, s'. split; [reflexivity|]. split; [|exact Hall].
    rewrite Hn. vm_compute in Hp. inversion Hp; subst physical.
    vm_compute in Ho. inversion Ho; subst objs. reflexivity.
  - vm_compute in E. discriminate.
  - vm_compute in E. discriminate.
Defined.

(** The configuration found there is of type ["sg4_arm"]. *)
Lemma configured_project_is_arm :
  fst (buildConfigs (project_with []) configured_disk)
  = Ok [MkBuildConfig "Config1" "/proj/Physical/Config1" "sg4_arm" "X20CP0484"].
Proof. vm_compute. reflexivity. Qed.

(** X22 on the configuration of a controller. *)
Lemma CpuConfig_set_then_get_witness :
  getGccVersion (fst cpu_config_set) = Ok (Some (PStr "6.3.0"))
  /\ getArVersion (fst cpu_config_set) = Ok (Some (PStr "G4.72")).
Proof.
  assert (Hi : CpuConfig_init "/c/Cpu.pkg" cpu_disk = (Ok (Some cpu_config), cpu_disk))
    by (vm_compute; reflexivity).
  assert (Hs : setGccVersion cpu_config (PStr "6.3.0") cpu_disk
               = (Ok (fst cpu_config_set), snd cpu_config_set))
    by (vm_compute; reflexivity).
  destruct (proj1 (CpuConfig_set_then_get cpu_config
                     (CpuConfig_init_valid _ _ _ _ Hi)) _ _ _ _ Hs)
    as (_ & Hg & _ & Ha).
  split; [exact Hg|]. rewrite Ha. reflexivity.
Defined.

(** X23 on the same configuration. *)
Lemma CpuConfig_set_then_reload_witness :
  exists self2 s2,
    CpuConfig_init "/c/Cpu.pkg" (snd cpu_config_set) = (Ok (Some self2), s2)
    /\ getGccVersion self2 = Ok (Some (PStr "6.3.0")).
Proof.
  destruct (CpuConfig_init "/c/Cpu.pkg" (snd cpu_config_set))
    as [[[self2|]| |] s2] eqn:E.
  - exists self2, s2. split; [reflexivity|].
    assert (Hi : CpuConfig_init "/c/Cpu.pkg" cpu_disk
                 = (Ok (Some cpu_config), cpu_disk))
      by (vm_compute; reflexivity).
    assert (Hn : nameSpaceFormatted (cpu_file cpu_config) = Ok cpu_ns)
      by reflexivity.
    assert (Hq : qualified cpu_ns (root (cpu_file cpu_config)) = true)
      by (vm_compute; reflexivity).
    assert (Hs : setGccVersion cpu_config (PStr "6.3.0") cpu_disk
                 = (Ok (fst cpu_config_set), snd cpu_config_set))
      by (vm_compute; reflexivity).
    assert (Hc : closed_tag (tag (root (cpu_file self2)))).
    { vm_compute in E. inversion E. vm_compute. reflexivity. }
    exact (proj1 (CpuConfig_set_then_reload _ _ _ _ _ disk_reads_back Hi Hn Hq
                    _ _ _ _ _ _) Hs E Hc).
  - vm_compute in E. discriminate.
  - vm_compute in E. discriminate.
  - vm_compute in E. discriminate.
Defined.
